(** * Moonshot 2.0: electromagnetic coil launcher

    A shallow embedding of the simulation core of the repository
    (src/core, src/physics, src/services), the properties its specification
    states about it, and further properties read off the code.

    Python's [float] is IEEE binary64.  The code is translated once, over an
    interface [PyFloat] of the arithmetic it uses, and read at two instances:
    - [float], the kernel's binary64 numbers, which is the arithmetic the
      program runs on (every operation rounds), and
    - [R], the real numbers, which is the exact arithmetic the formulas of
      the program are written in.
    numpy's [exp], [sin] and [cos] form a second interface [NumPy]; it is
    instantiated at [R] only.

    Conventions of the translation:
    - an exception is a value [Raise e] of the type [result];
    - [x / y] is the interface's total division.  Python raises
      ZeroDivisionError on a zero float divisor, and numpy answers nan for
      the square root of a negative number.  The properties below are
      stated where neither happens: for elements of valid geometry and
      positive mass ([valid_capsule], [valid_stage], [valid_service]) and,
      for the discharge of a stage, of positive capacitance
      ([valid_circuit]) in exact arithmetic, of finite non-zero inductance
      ([discharge_defined]) on binary64;
    - [x ** 2] and [x ** 3] are written as repeated multiplication; on
      binary64 Python's [**] raises OverflowError where the product
      overflows, and may differ from it in the last bit;
    - the memoised [_inductance] of a coil is its value, a function of the
      geometry, which never changes after construction. *)

From Stdlib Require Import Floats.
From Stdlib Require Import ZArith Reals Lra Lia Psatz List String Bool.
Import ListNotations.

Set Implicit Arguments.

(** ** Exceptions *)

Inductive exception : Type :=
| ValueError (msg : string).

Inductive result (A : Type) : Type :=
| Ok (a : A)
| Raise (e : exception).

Arguments Ok {A} a.
Arguments Raise {A} e.

Definition bind {A B : Type} (m : result A) (k : A -> result B) : result B :=
  match m with
  | Ok a => k a
  | Raise e => Raise e
  end.

Notation "x <- m ;; k" := (bind m (fun x => k))
  (at level 61, m at next level, right associativity).

(** A [for] loop over a list whose body may raise. *)
Fixpoint for_each {A S : Type} (body : S -> A -> result S) (xs : list A) (acc : S)
  : result S :=
  match xs with
  | [] => Ok acc
  | x :: rest => acc' <- body acc x ;; for_each body rest acc'
  end.

(** ** The arithmetic of Python floats *)

Class PyFloat (F : Type) : Type := {
  of_int : Z -> F;
  fadd : F -> F -> F;
  fsub : F -> F -> F;
  fmul : F -> F -> F;
  fdiv : F -> F -> F;
  fneg : F -> F;
  fabs : F -> F;
  np_sqrt : F -> F;
  flt : F -> F -> bool;
  fle : F -> F -> bool;
  feq : F -> F -> bool;
  np_pi : F
}.

Class NumPy (F : Type) : Type := {
  np_exp : F -> F;
  np_sin : F -> F;
  np_cos : F -> F
}.

Declare Scope py_scope.
Delimit Scope py_scope with py.
Infix "+" := fadd : py_scope.
Infix "-" := fsub : py_scope.
Infix "*" := fmul : py_scope.
Infix "/" := fdiv : py_scope.
Notation "- x" := (fneg x) : py_scope.
Infix "<?" := flt (at level 70, no associativity) : py_scope.
Infix "<=?" := fle (at level 70, no associativity) : py_scope.
Infix "=?" := feq (at level 70, no associativity) : py_scope.

Section Literals.
Context {F : Type} `{PyFloat F}.
Local Open Scope py_scope.

(** The decimal literal [n / d] with [d] a power of ten: [lit 1 1000] is
    [0.001].  Both [n] and [d] are exact, so one division rounds as the
    literal does. *)
Definition lit (n d : Z) : F := of_int n / of_int d.

(** [x ** 2] and [x ** 3]. *)
Definition pow2 (x : F) : F := x * x.
Definition pow3 (x : F) : F := x * x * x.

(** Python's [max(a, b)]: the first argument unless the second is greater. *)
Definition pymax (a b : F) : F := if a <? b then b else a.

(** [sum(xs)]: Python starts from the integer 0. *)
Definition pysum (xs : list F) : F := fold_left fadd xs (of_int 0).
End Literals.

(** *** The kernel's binary64 floats *)

Definition float_of_int (z : Z) : float :=
  if (z <? 0)%Z
  then PrimFloat.opp (PrimFloat.of_uint63 (Uint63.of_Z (- z)))
  else PrimFloat.of_uint63 (Uint63.of_Z z).

#[export] Instance Binary64 : PyFloat float := {|
  of_int := float_of_int;
  fadd := PrimFloat.add;
  fsub := PrimFloat.sub;
  fmul := PrimFloat.mul;
  fdiv := PrimFloat.div;
  fneg := PrimFloat.opp;
  fabs := PrimFloat.abs;
  np_sqrt := PrimFloat.sqrt;
  flt := PrimFloat.ltb;
  fle := PrimFloat.leb;
  feq := PrimFloat.eqb;
  np_pi := 0x1.921fb54442d18p+1%float
|}.

(** *** Exact arithmetic *)

Definition Rltb (x y : R) : bool := if Rlt_dec x y then true else false.
Definition Rleb (x y : R) : bool := if Rle_dec x y then true else false.
Definition Reqb (x y : R) : bool := if Req_dec_T x y then true else false.

#[export] Instance Exact : PyFloat R := {|
  of_int := IZR;
  fadd := Rplus;
  fsub := Rminus;
  fmul := Rmult;
  fdiv := Rdiv;
  fneg := Ropp;
  fabs := Rabs;
  np_sqrt := sqrt;
  flt := Rltb;
  fle := Rleb;
  feq := Reqb;
  np_pi := PI
|}.

#[export] Instance ExactNumPy : NumPy R := {|
  np_exp := exp;
  np_sin := sin;
  np_cos := cos
|}.

(** ** src/core/coil.py *)

Module CoilProperties.
Section Def.
Context {F : Type} `{PyFloat F}.
Local Open Scope py_scope.

Record t : Type := make {
  turns : Z;
  diameter : F;
  length : F;
  resistance : F;
  position : F
}.

(** The dataclass constructor followed by [__post_init__]. *)
Definition init (turns : Z) (diameter length resistance position : F) : result t :=
  if (turns <=? 0)%Z then Raise (ValueError "Turns must be positive")
  else if diameter <=? of_int 0 then Raise (ValueError "Diameter must be positive")
  else if length <=? of_int 0 then Raise (ValueError "Length must be positive")
  else Ok (make turns diameter length resistance position).
End Def.
Arguments t F : clear implicits.
End CoilProperties.

Module Coil.
Section Def.
Context {F : Type} `{PyFloat F}.
Local Open Scope py_scope.

Record t : Type := make {
  properties : CoilProperties.t F;
  current : F
}.

Definition init (properties : CoilProperties.t F) : t :=
  make properties (of_int 0).

Definition _calculate_inductance (self : t) : F :=
  let mu_0 := of_int 4 * np_pi * lit 1 10000000 in
  let radius := CoilProperties.diameter (properties self) / of_int 2 in
  let area := np_pi * pow2 radius in
  let turns_per_length :=
    of_int (CoilProperties.turns (properties self))
    / CoilProperties.length (properties self) in
  mu_0 * pow2 turns_per_length * area * CoilProperties.length (properties self).

Definition inductance (self : t) : F := _calculate_inductance self.

Definition set_current (self : t) (current : F) : result t :=
  if current <? of_int 0 then Raise (ValueError "Current cannot be negative")
  else Ok (make (properties self) current).

Definition get_magnetic_moment (self : t) : F :=
  let radius := CoilProperties.diameter (properties self) / of_int 2 in
  let area := np_pi * pow2 radius in
  of_int (CoilProperties.turns (properties self)) * current self * area.
End Def.
Arguments t F : clear implicits.
End Coil.

(** ** src/core/capsule.py *)

Module Capsule.
Section Def.
Context {F : Type} `{PyFloat F}.
Local Open Scope py_scope.

(** [coil] is the inherited [Coil] part of the object. *)
Record t : Type := make {
  coil : Coil.t F;
  mass : F;
  position : F;
  velocity : F
}.

Definition properties (self : t) : CoilProperties.t F := Coil.properties (coil self).
Definition current (self : t) : F := Coil.current (coil self).

Definition _calculate_resistance (diameter length : F) : F :=
  let rho_aluminum := lit 265 10000000000 in
  let current_path := np_pi * diameter in
  let wall_thickness := lit 1 100 in
  let effective_area := np_pi * diameter * wall_thickness in
  rho_aluminum * current_path / effective_area.

(** The resistance is computed before [CoilProperties] validates the
    geometry.  For a diameter of 0 Python stops there with ZeroDivisionError
    ([0.0 / 0.0]); the total division goes on to the validation, which
    raises for that diameter.  Both are failures of the construction. *)
Definition init (mass diameter length : F) : result t :=
  if mass <=? of_int 0 then Raise (ValueError "Mass must be positive")
  else
    let resistance := _calculate_resistance diameter length in
    props <- CoilProperties.init 1 diameter length resistance (of_int 0) ;;
    Ok (make (Coil.init props) mass (of_int 0) (of_int 0)).

(** [self.position = new_position], then a fresh [CoilProperties] that
    carries the new position. *)
Definition update_position (self : t) (new_position : F) : result t :=
  let p := properties self in
  props <- CoilProperties.init (CoilProperties.turns p) (CoilProperties.diameter p)
             (CoilProperties.length p) (CoilProperties.resistance p) new_position ;;
  Ok (make (Coil.make props (current self)) (mass self) new_position (velocity self)).

Definition update_velocity (self : t) (new_velocity : F) : t :=
  make (coil self) (mass self) (position self) new_velocity.

Definition get_kinetic_energy (self : t) : F :=
  lit 5 10 * mass self * pow2 (velocity self).

Definition get_momentum (self : t) : F := mass self * velocity self.

(** [self.velocity += ...] comes first; the position line then reads
    [self.velocity], which is the velocity just stored. *)
Definition apply_force (self : t) (force time_step : F) : result t :=
  let acceleration := force / mass self in
  let self1 := make (coil self) (mass self) (position self)
                 (velocity self + acceleration * time_step) in
  let self2 := make (coil self1) (mass self1)
                 (position self1
                  + (velocity self1 * time_step
                     + lit 5 10 * acceleration * pow2 time_step))
                 (velocity self1) in
  update_position self2 (position self2).
End Def.
Arguments t F : clear implicits.
End Capsule.

(** ** src/core/acceleration_stage.py *)

Module AccelerationStage.
Section Def.
Context {F : Type} `{PyFloat F}.
Local Open Scope py_scope.

Record t : Type := make {
  coil : Coil.t F;
  stage_id : Z;
  capacitance : F;
  voltage : F;
  activation_time : option F;
  is_active : bool
}.

Definition properties (self : t) : CoilProperties.t F := Coil.properties (coil self).
Definition inductance (self : t) : F := Coil.inductance (coil self).

Definition _calculate_copper_resistance (turns : Z) (diameter length : F) : F :=
  let rho_copper := lit 168 10000000000 in
  let wire_diameter := lit 1628 1000000 in
  let wire_area := np_pi * pow2 (wire_diameter / of_int 2) in
  let wire_length_per_turn := np_pi * diameter in
  let total_wire_length := of_int turns * wire_length_per_turn in
  rho_copper * total_wire_length / wire_area.

Definition init (stage_id : Z) (position : F) (turns : Z)
    (diameter length capacitance voltage : F) : result t :=
  let resistance := _calculate_copper_resistance turns diameter length in
  props <- CoilProperties.init turns diameter length resistance position ;;
  Ok (make (Coil.init props) stage_id capacitance voltage None false).

Definition activate (self : t) (time : F) : t :=
  make (coil self) (stage_id self) (capacitance self) (voltage self) (Some time) true.

Definition stored_energy (self : t) : F :=
  lit 5 10 * capacitance self * pow2 (voltage self).

Definition get_stored_energy (self : t) : F := stored_energy self.

Definition reset (self : t) : t :=
  make (Coil.make (properties self) (of_int 0)) (stage_id self) (capacitance self)
    (voltage self) None false.

Context `{NumPy F}.

Definition get_current (self : t) (time : F) : F :=
  if negb (is_active self) then of_int 0
  else match activation_time self with
  | None => of_int 0
  | Some activation =>
    if time <? activation then of_int 0
    else
      let dt := time - activation in
      let L := inductance self in
      let C := capacitance self in
      let R := CoilProperties.resistance (properties self) in
      let omega_0 := of_int 1 / np_sqrt (L * C) in
      let alpha := R / (of_int 2 * L) in
      let current :=
        if alpha <? omega_0 then
          let omega_d := np_sqrt (pow2 omega_0 - pow2 alpha) in
          (voltage self / (omega_d * L)) * np_exp (- alpha * dt) * np_sin (omega_d * dt)
        else if alpha =? omega_0 then
          (voltage self / L) * dt * np_exp (- alpha * dt)
        else of_int 0 in
      pymax (of_int 0) current
  end.

Definition get_current_derivative (self : t) (time : F) : F :=
  if negb (is_active self) then of_int 0
  else match activation_time self with
  | None => of_int 0
  | Some activation =>
    if time <? activation then of_int 0
    else
      let dt := time - activation in
      let L := inductance self in
      let C := capacitance self in
      let R := CoilProperties.resistance (properties self) in
      let omega_0 := of_int 1 / np_sqrt (L * C) in
      let alpha := R / (of_int 2 * L) in
      if alpha <? omega_0 then
        let omega_d := np_sqrt (pow2 omega_0 - pow2 alpha) in
        let amplitude := voltage self / (omega_d * L) in
        let exp_term := np_exp (- alpha * dt) in
        let cos_term := omega_d * np_cos (omega_d * dt) in
        let sin_term := alpha * np_sin (omega_d * dt) in
        amplitude * exp_term * (cos_term - sin_term)
      else if alpha =? omega_0 then
        (voltage self / L) * np_exp (- alpha * dt) * (of_int 1 - alpha * dt)
      else of_int 0
  end.

Definition get_energy_transferred (self : t) (time : F) : F :=
  if negb (is_active self) then of_int 0
  else match activation_time self with
  | None => of_int 0
  | Some activation =>
    if time <? activation then of_int 0
    else
      let dt := time - activation in
      let tau := CoilProperties.resistance (properties self) * capacitance self in
      let initial_energy := get_stored_energy self in
      let remaining_energy := initial_energy * np_exp (- dt / tau) in
      initial_energy - remaining_energy
  end.
End Def.
Arguments t F : clear implicits.
End AccelerationStage.

(** ** src/physics/physics_engine.py *)

Module PhysicsEngine.
Section Def.
Context {F : Type} `{PyFloat F}.
Local Open Scope py_scope.

Record t : Type := make { mu_0 : F }.

Definition init : t := make (of_int 4 * np_pi * lit 1 10000000).

Definition _calculate_overlapping_inductance (self : t) (coil1 coil2 : Coil.t F)
    (distance : F) : F :=
  let p1 := Coil.properties coil1 in
  let p2 := Coil.properties coil2 in
  let r1 := CoilProperties.diameter p1 / of_int 2 in
  let r2 := CoilProperties.diameter p2 / of_int 2 in
  let reference_length := pymax (CoilProperties.length p1) (CoilProperties.length p2) in
  let overlap := pymax (of_int 0) (of_int 1 - distance / reference_length) in
  mu_0 self * np_sqrt (r1 * r2)
  * np_sqrt (of_int (CoilProperties.turns p1 * CoilProperties.turns p2))
  * overlap.

Definition _calculate_far_field_inductance (self : t) (coil1 coil2 : Coil.t F)
    (distance : F) : F :=
  let p1 := Coil.properties coil1 in
  let p2 := Coil.properties coil2 in
  let r1 := CoilProperties.diameter p1 / of_int 2 in
  let r2 := CoilProperties.diameter p2 / of_int 2 in
  (mu_0 self * np_pi * pow2 r1 * pow2 r2
   * np_sqrt (of_int (CoilProperties.turns p1 * CoilProperties.turns p2)))
  / pow3 distance.

Definition calculate_mutual_inductance (self : t) (coil1 coil2 : Coil.t F)
    (distance : F) : result F :=
  if distance <? of_int 0 then Raise (ValueError "Distance cannot be negative")
  else if distance <? pymax (CoilProperties.length (Coil.properties coil1))
                            (CoilProperties.length (Coil.properties coil2))
  then Ok (_calculate_overlapping_inductance self coil1 coil2 distance)
  else Ok (_calculate_far_field_inductance self coil1 coil2 distance).

Definition calculate_force (self : t) (coil1 coil2 : Coil.t F)
    (distance current1 current2 : F) : result F :=
  if (current1 =? of_int 0) || (current2 =? of_int 0) then Ok (of_int 0)
  else
    let dx := lit 1 1000 in
    m_plus <- calculate_mutual_inductance self coil1 coil2 (distance + dx / of_int 2) ;;
    m_minus <- calculate_mutual_inductance self coil1 coil2 (distance - dx / of_int 2) ;;
    let dm_dx := (m_plus - m_minus) / dx in
    Ok (- current1 * current2 * dm_dx).

Definition update_kinematics (self : t) (capsule : Capsule.t F) (force dt : F)
    : result (Capsule.t F) :=
  let acceleration := force / Capsule.mass capsule in
  let new_position :=
    Capsule.position capsule + Capsule.velocity capsule * dt
    + lit 5 10 * acceleration * pow2 dt in
  let new_velocity := Capsule.velocity capsule + acceleration * dt in
  capsule' <- Capsule.update_position capsule new_position ;;
  Ok (Capsule.update_velocity capsule' new_velocity).

Definition calculate_energy_transfer (self : t) (coil1 coil2 : Coil.t F)
    (current1 current2 current1_rate current2_rate time_step : F) : result F :=
  if (fabs current1 <? lit 1 1000000) && (fabs current2 <? lit 1 1000000)
  then Ok (of_int 0)
  else
    let distance :=
      fabs (CoilProperties.position (Coil.properties coil1)
            - CoilProperties.position (Coil.properties coil2)) in
    mutual_inductance <- calculate_mutual_inductance self coil1 coil2 distance ;;
    let power_12 := current1 * mutual_inductance * current2_rate in
    let power_21 := current2 * mutual_inductance * current1_rate in
    let total_power := power_12 + power_21 in
    Ok (fabs (total_power * time_step)).
End Def.
Arguments t F : clear implicits.
End PhysicsEngine.

(** ** src/services/data_service.py *)

(** One entry of [DataService.history]: the dictionary [record] builds. *)
Module SimulationRecord.
Record t (F : Type) : Type := make {
  time : F;
  position : F;
  velocity : F;
  acceleration : F;
  force : F;
  kinetic_energy : F;
  capsule_current : F;
  active_stages : Z;
  total_stage_current : F
}.
End SimulationRecord.

Module SimulationResult.
Record t (F : Type) : Type := make {
  final_velocity : F;
  final_position : F;
  total_time : F;
  initial_energy : F;
  history : list (SimulationRecord.t F)
}.

Section Def.
Context {F : Type} `{PyFloat F}.
Local Open Scope py_scope.

(** [self.history[-1]['kinetic_energy']], or [0.0] for an empty history. *)
Definition final_kinetic_energy (self : t F) : F :=
  match rev (history self) with
  | [] => of_int 0
  | final_record :: _ => SimulationRecord.kinetic_energy final_record
  end.

(** [max(record['force'] for record in self.history)]: Python's [max] keeps
    the first item until a later one compares greater. *)
Definition max_force (self : t F) : F :=
  match map (@SimulationRecord.force F) (history self) with
  | [] => of_int 0
  | first :: rest => fold_left pymax rest first
  end.

Definition energy_efficiency (self : t F) : F :=
  if of_int 0 <? initial_energy self
  then final_kinetic_energy self / initial_energy self
  else of_int 0.
End Def.
End SimulationResult.

(** A Python [dict] with string keys, as an association list. *)
Section Dict.
Context {V : Type}.

Fixpoint dict_get (d : list (string * V)) (key : string) (default : V) : V :=
  match d with
  | [] => default
  | (k, v) :: rest => if String.eqb k key then v else dict_get rest key default
  end.

Fixpoint dict_set (d : list (string * V)) (key : string) (value : V)
  : list (string * V) :=
  match d with
  | [] => [(key, value)]
  | (k, v) :: rest =>
      if String.eqb k key then (k, value) :: rest else (k, v) :: dict_set rest key value
  end.
End Dict.

Module DataService.
Section Def.
Context {F : Type} `{PyFloat F}.
Local Open Scope py_scope.

Record t : Type := make {
  history : list (SimulationRecord.t F);
  metadata : list (string * F)
}.

Definition init : t := make [] [].

Definition get_results (self : t) : result (SimulationResult.t F) :=
  match rev (history self) with
  | [] => Raise (ValueError "No data collected - cannot generate results")
  | final_record :: _ =>
      let final_velocity := SimulationRecord.velocity final_record in
      let final_position := SimulationRecord.position final_record in
      let total_time := SimulationRecord.time final_record in
      let initial_energy := dict_get (metadata self) "initial_energy" (of_int 0) in
      Ok (SimulationResult.make final_velocity final_position total_time
            initial_energy (history self))
  end.

Definition reset (self : t) : t := make [] [].

Definition set_initial_energy (self : t) (energy : F) : t :=
  make (history self) (dict_set (metadata self) "initial_energy" energy).

Context `{NumPy F}.

Definition record (self : t) (time : F) (capsule : Capsule.t F)
    (stages : list (AccelerationStage.t F)) (force : F) : t :=
  let kinetic_energy := lit 5 10 * Capsule.mass capsule * pow2 (Capsule.velocity capsule) in
  let acceleration := force / Capsule.mass capsule in
  let active := filter (@AccelerationStage.is_active F) stages in
  let active_stages := Z.of_nat (List.length active) in
  let total_stage_current :=
    pysum (map (fun stage => AccelerationStage.get_current stage time) active) in
  let record :=
    SimulationRecord.make time (Capsule.position capsule) (Capsule.velocity capsule)
      acceleration force kinetic_energy (Capsule.current capsule) active_stages
      total_stage_current in
  make (history self ++ [record]) (metadata self).
End Def.
Arguments t F : clear implicits.
End DataService.

(** ** src/services/simulation_service.py *)

(** The configuration object [from_config] reads, with the attributes it
    uses. *)
Module SimulationConfig.
Record t (F : Type) : Type := make {
  capsule_mass : F;
  capsule_diameter : F;
  capsule_length : F;
  tube_length : F;
  num_stages : Z;
  stage_turns : Z;
  tube_diameter : F;
  stage_capacitance : F;
  stage_voltage : F;
  time_step : F
}.
End SimulationConfig.

(** How a call of [from_config] ends: with the service, with an exception of
    a constructor, or with Python's ZeroDivisionError for [num_stages = 0]. *)
Inductive construction (A : Type) : Type :=
| Constructed (a : A)
| Rejected (e : exception)
| ZeroDivisionError.

Arguments Constructed {A} a.
Arguments Rejected {A} e.
Arguments ZeroDivisionError {A}.

Module SimulationService.
Section Def.
Context {F : Type} `{PyFloat F} `{NumPy F}.
Local Open Scope py_scope.

(** [_initial_capsule_state]: the dictionary kept for [reset]. *)
Record initial_state : Type := make_initial {
  initial_position : F;
  initial_velocity : F;
  initial_current : F
}.

Record t : Type := make {
  capsule : Capsule.t F;
  stages : list (AccelerationStage.t F);
  tube_length : F;
  dt : F;
  physics : PhysicsEngine.t F;
  data : DataService.t F;
  time : F;
  _initial_capsule_state : initial_state
}.

Definition init (capsule : Capsule.t F) (stages : list (AccelerationStage.t F))
    (tube_length dt : F) : t :=
  make capsule stages tube_length dt PhysicsEngine.init DataService.init (of_int 0)
    (make_initial (Capsule.position capsule) (Capsule.velocity capsule)
       (Capsule.current capsule)).

(** Assignments to one attribute of the service or of its capsule. *)
Definition with_capsule (self : t) (c : Capsule.t F) : t :=
  make c (stages self) (tube_length self) (dt self) (physics self) (data self)
    (time self) (_initial_capsule_state self).
Definition with_stages (self : t) (l : list (AccelerationStage.t F)) : t :=
  make (capsule self) l (tube_length self) (dt self) (physics self) (data self)
    (time self) (_initial_capsule_state self).
Definition with_data (self : t) (d : DataService.t F) : t :=
  make (capsule self) (stages self) (tube_length self) (dt self) (physics self) d
    (time self) (_initial_capsule_state self).
Definition with_time (self : t) (x : F) : t :=
  make (capsule self) (stages self) (tube_length self) (dt self) (physics self)
    (data self) x (_initial_capsule_state self).

Definition assign_position (c : Capsule.t F) (x : F) : Capsule.t F :=
  Capsule.make (Capsule.coil c) (Capsule.mass c) x (Capsule.velocity c).
Definition assign_velocity (c : Capsule.t F) (x : F) : Capsule.t F :=
  Capsule.make (Capsule.coil c) (Capsule.mass c) (Capsule.position c) x.
Definition assign_current (c : Capsule.t F) (x : F) : Capsule.t F :=
  Capsule.make (Coil.make (Capsule.properties c) x) (Capsule.mass c)
    (Capsule.position c) (Capsule.velocity c).

Definition _check_stage_activations (self : t) : t :=
  with_stages self
    (map (fun stage =>
            if negb (AccelerationStage.is_active stage) then
              let distance_to_stage :=
                fabs (Capsule.position (capsule self)
                      - CoilProperties.position (AccelerationStage.properties stage)) in
              let activation_distance :=
                pymax (CoilProperties.length (AccelerationStage.properties stage))
                      (lit 1 100) in
              if distance_to_stage <=? activation_distance
              then AccelerationStage.activate stage (time self)
              else stage
            else stage)
         (stages self)).

Definition _calculate_mutual_inductance_gradient (self : t)
    (stage : AccelerationStage.t F) (distance : F) : result F :=
  let dx := lit 1 1000 in
  let dist_plus := pymax (lit 1 1000) (distance + dx / of_int 2) in
  let dist_minus := pymax (lit 1 1000) (distance - dx / of_int 2) in
  m_plus <- PhysicsEngine.calculate_mutual_inductance (physics self)
              (AccelerationStage.coil stage) (Capsule.coil (capsule self)) dist_plus ;;
  m_minus <- PhysicsEngine.calculate_mutual_inductance (physics self)
               (AccelerationStage.coil stage) (Capsule.coil (capsule self)) dist_minus ;;
  Ok ((m_plus - m_minus) / dx).

(** The body of the loop of [_update_capsule_current]: one stage's share of
    the induced EMF, added to the running total. *)
Definition induced_emf_of (self : t) (total_induced_emf : F)
    (stage : AccelerationStage.t F) : result F :=
  if AccelerationStage.is_active stage then
    let distance :=
      pymax (lit 1 1000)
        (fabs (Capsule.position (capsule self)
               - CoilProperties.position (AccelerationStage.properties stage))) in
    let stage_current := AccelerationStage.get_current stage (time self) in
    mutual_inductance <- PhysicsEngine.calculate_mutual_inductance (physics self)
                           (AccelerationStage.coil stage) (Capsule.coil (capsule self))
                           distance ;;
    let stage_current_rate := AccelerationStage.get_current_derivative stage (time self) in
    let induced_emf := mutual_inductance * stage_current_rate in
    dm_dx <- _calculate_mutual_inductance_gradient self stage distance ;;
    let motional_emf := Capsule.velocity (capsule self) * stage_current * dm_dx in
    Ok (total_induced_emf + (induced_emf + motional_emf))
  else Ok total_induced_emf.

Definition _update_capsule_current (self : t) : result t :=
  total_induced_emf <- for_each (induced_emf_of self) (stages self) (of_int 0) ;;
  if of_int 0 <? CoilProperties.resistance (Capsule.properties (capsule self)) then
    let induced_current :=
      total_induced_emf / CoilProperties.resistance (Capsule.properties (capsule self)) in
    let damping_factor := lit 1 10 in
    Ok (with_capsule self
          (assign_current (capsule self)
             (Capsule.current (capsule self)
              + damping_factor * (induced_current - Capsule.current (capsule self)))))
  else Ok self.

(** The body of the loop of [_calculate_total_force]. *)
Definition force_of (self : t) (total_force : F) (stage : AccelerationStage.t F)
    : result F :=
  if AccelerationStage.is_active stage then
    let stage_current := AccelerationStage.get_current stage (time self) in
    let distance :=
      pymax (lit 1 1000)
        (fabs (Capsule.position (capsule self)
               - CoilProperties.position (AccelerationStage.properties stage))) in
    if (lit 1 10 <? fabs stage_current)
       && (lit 1 1000 <? fabs (Capsule.current (capsule self))) then
      force <- PhysicsEngine.calculate_force (physics self)
                 (AccelerationStage.coil stage) (Capsule.coil (capsule self)) distance
                 stage_current (Capsule.current (capsule self)) ;;
      let position_relative :=
        Capsule.position (capsule self)
        - CoilProperties.position (AccelerationStage.properties stage) in
      let total_force :=
        if position_relative <? of_int 0 then total_force + force
        else total_force + force in
      if lit 1 100 <? fabs (Capsule.velocity (capsule self)) then
        let back_emf_force := - lit 1 1000 * Capsule.velocity (capsule self) in
        Ok (total_force + back_emf_force)
      else Ok total_force
    else Ok total_force
  else Ok total_force.

Definition _calculate_total_force (self : t) : result F :=
  for_each (force_of self) (stages self) (of_int 0).

Definition _step (self : t) : result t :=
  let self := _check_stage_activations self in
  self <- _update_capsule_current self ;;
  total_force <- _calculate_total_force self ;;
  capsule' <- PhysicsEngine.update_kinematics (physics self) (capsule self)
                total_force (dt self) ;;
  let self := with_capsule self capsule' in
  Ok (with_data self
        (DataService.record (data self) (time self) (capsule self) (stages self)
           total_force)).

(** The [while] loop of [run].  [fuel] bounds the number of iterations the
    model follows; [None] means the bound was reached.  The result counts
    the iterations made. *)
Fixpoint run_loop (fuel : nat) (max_time : F) (steps : nat) (self : t)
  : option (result (nat * t)) :=
  match fuel with
  | O => None
  | S fuel' =>
      if (time self <? max_time)
         && (Capsule.position (capsule self) <? tube_length self)
      then
        match _step self with
        | Ok self' =>
            run_loop fuel' max_time (S steps) (with_time self' (time self' + dt self'))
        | Raise e => Some (Raise e)
        end
      else Some (Ok (steps, self))
  end.

(** What a call of [run] leaves: the service as the call left it, and the
    value returned or the exception raised by [get_results]. *)
Definition run (fuel : nat) (max_time : F) (self : t)
  : option (result (t * result (SimulationResult.t F))) :=
  let initial_energy :=
    pysum (map (@AccelerationStage.stored_energy F _) (stages self)) in
  let self := with_data self (DataService.set_initial_energy (data self) initial_energy) in
  match run_loop fuel max_time 0 self with
  | None => None
  | Some (Raise e) => Some (Raise e)
  | Some (Ok (_, self')) => Some (Ok (self', DataService.get_results (data self')))
  end.

Definition reset (self : t) : t :=
  let self := with_time self (of_int 0) in
  let i := _initial_capsule_state self in
  let self := with_capsule self (assign_position (capsule self) (initial_position i)) in
  let self := with_capsule self (assign_velocity (capsule self) (initial_velocity i)) in
  let self := with_capsule self (assign_current (capsule self) (initial_current i)) in
  let self :=
    with_stages self
      (map (fun stage =>
              AccelerationStage.make (AccelerationStage.coil stage)
                (AccelerationStage.stage_id stage) (AccelerationStage.capacitance stage)
                (AccelerationStage.voltage stage) None false)
           (stages self)) in
  with_data self (DataService.reset (data self)).

(** [range(config.num_stages)] is empty for a count that is not positive. *)
Definition from_config (config : SimulationConfig.t F) : construction t :=
  match Capsule.init (SimulationConfig.capsule_mass config)
          (SimulationConfig.capsule_diameter config)
          (SimulationConfig.capsule_length config) with
  | Raise e => Rejected e
  | Ok capsule =>
    if (SimulationConfig.num_stages config =? 0)%Z then ZeroDivisionError
    else
      let stage_spacing :=
        SimulationConfig.tube_length config / of_int (SimulationConfig.num_stages config) in
      match
        for_each
          (fun stages i =>
             stage <- AccelerationStage.init i (of_int i * stage_spacing)
                        (SimulationConfig.stage_turns config)
                        (SimulationConfig.tube_diameter config)
                        (stage_spacing * lit 6 10)
                        (SimulationConfig.stage_capacitance config)
                        (SimulationConfig.stage_voltage config) ;;
             Ok (stages ++ [stage]))
          (map Z.of_nat (seq 0 (Z.to_nat (SimulationConfig.num_stages config))))
          []
      with
      | Raise e => Rejected e
      | Ok stages =>
          Constructed (init capsule stages (SimulationConfig.tube_length config)
                         (SimulationConfig.time_step config))
      end
  end.
End Def.
Arguments t F : clear implicits.
End SimulationService.

(** * Vocabulary of the properties *)

Local Open Scope R_scope.

(** A binary64 number that compares greater than zero: positive and not a
    NaN. *)
Definition float_positive (x : float) : Prop :=
  PrimFloat.ltb (float_of_int 0) x = true.

(** The elements the constructors accept: [CoilProperties.init] returns for
    exactly these turns, diameter and length. *)
Definition valid_properties (p : CoilProperties.t R) : Prop :=
  (1 <= CoilProperties.turns p)%Z
  /\ (0 < CoilProperties.diameter p)%R
  /\ (0 < CoilProperties.length p)%R.

Definition valid_coil (c : Coil.t R) : Prop := valid_properties (Coil.properties c).

(** The capsule and the stage of the repository's unit tests
    (tests/unit/test_physics_engine.py): [Capsule(1.0, 0.083, 0.02)] and
    [AccelerationStage(0, 0.083, 100, 0.09, 0.05, 1000e-6, 400)]. *)
Definition test_capsule {F : Type} `{PyFloat F} : result (Capsule.t F) :=
  Capsule.init (lit 1 1) (lit 83 1000) (lit 2 100).

Definition test_stage {F : Type} `{PyFloat F} : result (AccelerationStage.t F) :=
  AccelerationStage.init 0 (lit 83 1000) 100 (lit 9 100) (lit 5 100)
    (lit 1000 1000000) (of_int 400).

(** A capsule of 5 cm diameter: [Capsule(1.0, 0.05, 0.02)]. *)
Definition slim_capsule {F : Type} `{PyFloat F} : result (Capsule.t F) :=
  Capsule.init (lit 1 1) (lit 5 100) (lit 2 100).

(** The RLC discharge of a stage in the specification's words: the solenoid
    inductance [L = mu_0 (N/l)^2 A l] with [A = pi (d/2)^2], the natural
    frequency [1 / sqrt (L C)], the damping [R / (2 L)], the damped frequency
    [sqrt (omega_0^2 - alpha^2)], and the current of each regime as a function
    of the time [delta] since activation, before it is clamped. *)
Definition solenoid_inductance (p : CoilProperties.t R) : R :=
  (4 * PI * / 10000000)
  * (IZR (CoilProperties.turns p) / CoilProperties.length p) ^ 2
  * (PI * (CoilProperties.diameter p / 2) ^ 2)
  * CoilProperties.length p.

Definition natural_frequency (s : AccelerationStage.t R) : R :=
  1 / sqrt (solenoid_inductance (AccelerationStage.properties s)
            * AccelerationStage.capacitance s).

Definition damping (s : AccelerationStage.t R) : R :=
  CoilProperties.resistance (AccelerationStage.properties s)
  / (2 * solenoid_inductance (AccelerationStage.properties s)).

Definition damped_frequency (s : AccelerationStage.t R) : R :=
  sqrt ((natural_frequency s) ^ 2 - (damping s) ^ 2).

Definition underdamped_current (s : AccelerationStage.t R) (delta : R) : R :=
  AccelerationStage.voltage s
  / (damped_frequency s * solenoid_inductance (AccelerationStage.properties s))
  * exp (- damping s * delta) * sin (damped_frequency s * delta).

Definition critically_damped_current (s : AccelerationStage.t R) (delta : R) : R :=
  AccelerationStage.voltage s / solenoid_inductance (AccelerationStage.properties s)
  * delta * exp (- damping s * delta).

Definition discharge_waveform (s : AccelerationStage.t R) (delta : R) : R :=
  if Rlt_dec (damping s) (natural_frequency s) then underdamped_current s delta
  else if Req_dec_T (damping s) (natural_frequency s) then critically_damped_current s delta
  else 0.

(** The test stage as [test_stage] builds it over the reals, and the same
    stage fired at time 0. *)
Definition test_stage_value : AccelerationStage.t R :=
  AccelerationStage.make
    (Coil.make
       (CoilProperties.make 100 (9 / 100) (5 / 100)
          (AccelerationStage._calculate_copper_resistance 100 (9 / 100) (5 / 100))
          (83 / 1000)) 0)
    0 (1000 / 1000000) 400 None false.

Definition fired_test_stage : AccelerationStage.t R :=
  AccelerationStage.activate test_stage_value 0.

(** What the constructors guarantee of a capsule and of a stage, and a
    service around such elements.  On these the mass, the lengths and the
    inductances that the modelled code divides by are positive. *)
Definition valid_capsule (c : Capsule.t R) : Prop :=
  valid_properties (Capsule.properties c) /\ 0 < Capsule.mass c.

Definition valid_stage (st : AccelerationStage.t R) : Prop :=
  valid_properties (AccelerationStage.properties st).

(** A stage whose discharge circuit is defined: the constructor accepts any
    capacitance, and the natural frequency [1 / sqrt (L C)] is a number only
    for a positive one. *)
Definition valid_circuit (st : AccelerationStage.t R) : Prop :=
  valid_stage st /\ 0 < AccelerationStage.capacitance st.

Definition valid_service (s : SimulationService.t R) : Prop :=
  valid_capsule (SimulationService.capsule s)
  /\ Forall valid_stage (SimulationService.stages s).

(** The states a step goes through, given the induced EMF and the total
    force it computes: the service after the capsule's current has been
    moved toward [emf / R], the capsule after the kinematic update, and the
    service at the end of [_step]. *)
Definition after_current (s : SimulationService.t R) (emf : R) : SimulationService.t R :=
  let c := SimulationService.capsule s in
  let resistance := CoilProperties.resistance (Capsule.properties c) in
  if Rlt_dec 0 resistance then
    SimulationService.with_capsule s
      (SimulationService.assign_current c
         (Capsule.current c + 1 / 10 * (emf / resistance - Capsule.current c)))
  else s.

Definition moved (c : Capsule.t R) (force dt : R) : Capsule.t R :=
  let p := Capsule.properties c in
  let x := Capsule.position c + Capsule.velocity c * dt
           + 5 / 10 * (force / Capsule.mass c) * (dt * dt) in
  Capsule.make
    (Coil.make
       (CoilProperties.make (CoilProperties.turns p) (CoilProperties.diameter p)
          (CoilProperties.length p) (CoilProperties.resistance p) x)
       (Capsule.current c))
    (Capsule.mass c) x (Capsule.velocity c + force / Capsule.mass c * dt).

Definition after_step (s : SimulationService.t R) (emf force : R) : SimulationService.t R :=
  let s2 := after_current s emf in
  let c := moved (SimulationService.capsule s2) force (SimulationService.dt s2) in
  SimulationService.with_data (SimulationService.with_capsule s2 c)
    (DataService.record (SimulationService.data s2) (SimulationService.time s2) c
       (SimulationService.stages s2) force).

(** The test capsule as [test_capsule] builds it over the reals, and a
    service around it and the test stage: a tube of 0.5 m, a step of 10
    microseconds. *)
Definition test_capsule_value : Capsule.t R :=
  Capsule.make
    (Coil.make
       (CoilProperties.make 1 (83 / 1000) (2 / 100)
          (Capsule._calculate_resistance (83 / 1000) (2 / 100)) 0) 0)
    1 0 0.

Definition test_service : SimulationService.t R :=
  SimulationService.init test_capsule_value [test_stage_value] (5 / 10) (1 / 100000).

(** A service that has not run: the clock at 0 and nothing recorded, as
    after [SimulationService.init] or [reset]. *)
Definition idle (s : SimulationService.t R) : Prop :=
  SimulationService.time s = 0
  /\ DataService.history (SimulationService.data s) = [].

(** The test stage placed at the origin and charged to [voltage], as
    [AccelerationStage(0, 0.0, 100, 0.09, 0.05, 1000e-6, voltage)] builds it:
    with 400 V it is the first stage of tests/unit/test_simulation_service.py.
    [reversed_service] is a service around the test capsule and this stage
    charged to -400 V; [discharging_service t] is the service around the test
    capsule, at rest at the origin, and the stage charged to 400 V, at time
    [t] after the stage fired at time 0. *)
Definition stage_at_origin (voltage : R) : AccelerationStage.t R :=
  AccelerationStage.make
    (Coil.make
       (CoilProperties.make 100 (9 / 100) (5 / 100)
          (AccelerationStage._calculate_copper_resistance 100 (9 / 100) (5 / 100)) 0) 0)
    0 (1000 / 1000000) voltage None false.

Definition reversed_service : SimulationService.t R :=
  SimulationService.init test_capsule_value [stage_at_origin (- 400)]
    (5 / 10) (1 / 100000).

Definition discharging_service (t : R) : SimulationService.t R :=
  SimulationService.with_time
    (SimulationService.init test_capsule_value
       [AccelerationStage.activate (stage_at_origin 400) 0] (5 / 10) (1 / 100000))
    t.

(** A stage is in reach of the capsule of a service when the capsule is no
    further from it than the longer of the stage's length and 1 cm: the
    test of [_check_stage_activations].  A stage is dormant when it is not
    active. *)
Definition in_reach (s : SimulationService.t R) (st : AccelerationStage.t R) : Prop :=
  Rabs (Capsule.position (SimulationService.capsule s)
        - CoilProperties.position (AccelerationStage.properties st))
  <= Rmax (CoilProperties.length (AccelerationStage.properties st)) (1 / 100).

Definition dormant (st : AccelerationStage.t R) : Prop :=
  AccelerationStage.is_active st = false.

(** A stage as the constructor leaves it: not active, never fired, no
    current. *)
Definition fresh (st : AccelerationStage.t R) : Prop :=
  AccelerationStage.is_active st = false
  /\ AccelerationStage.activation_time st = None
  /\ Coil.current (AccelerationStage.coil st) = 0.

(** The configurations [from_config] builds a launcher from: a capsule and
    a stage geometry the constructors accept, a tube of positive length and
    at least one stage. *)
Definition valid_config (config : SimulationConfig.t R) : Prop :=
  0 < SimulationConfig.capsule_mass config
  /\ 0 < SimulationConfig.capsule_diameter config
  /\ 0 < SimulationConfig.capsule_length config
  /\ 0 < SimulationConfig.tube_length config
  /\ (1 <= SimulationConfig.num_stages config)%Z
  /\ (1 <= SimulationConfig.stage_turns config)%Z
  /\ 0 < SimulationConfig.tube_diameter config.

(** The distance between two stages of a configuration, and the stage
    [from_config] builds in place [i]. *)
Definition stage_spacing (config : SimulationConfig.t R) : R :=
  SimulationConfig.tube_length config / IZR (SimulationConfig.num_stages config).

Definition config_stage (config : SimulationConfig.t R) (i : nat)
  : AccelerationStage.t R :=
  AccelerationStage.make
    (Coil.make
       (CoilProperties.make (SimulationConfig.stage_turns config)
          (SimulationConfig.tube_diameter config)
          (stage_spacing config * (6 / 10))
          (AccelerationStage._calculate_copper_resistance
             (SimulationConfig.stage_turns config)
             (SimulationConfig.tube_diameter config)
             (stage_spacing config * (6 / 10)))
          (IZR (Z.of_nat i) * stage_spacing config))
       0)
    (Z.of_nat i) (SimulationConfig.stage_capacitance config)
    (SimulationConfig.stage_voltage config) None false.

(** A configuration with the capsule and the stage coil of the unit tests:
    six stages of 100 turns and 9 cm across in a tube of 0.5 m, 1000
    microfarad at 400 V, a time step of 10 microseconds. *)
Definition test_config : SimulationConfig.t R :=
  SimulationConfig.make 1 (83 / 1000) (2 / 100) (5 / 10) 6 100 (9 / 100)
    (1000 / 1000000) 400 (1 / 100000).

(** The mutual inductance of two coils that overlap completely:
    [mu_0 sqrt(r1 r2) sqrt(N1 N2)]. *)
Definition full_overlap_inductance (a b : Coil.t R) : R :=
  4 * PI * (1 / 10000000)
  * sqrt (CoilProperties.diameter (Coil.properties a) / 2
          * (CoilProperties.diameter (Coil.properties b) / 2))
  * sqrt (IZR (CoilProperties.turns (Coil.properties a)
               * CoilProperties.turns (Coil.properties b))).

(** The test capsule on binary64, as [Capsule(1.0, 0.083, 0.02)] builds it,
    and two services around it with no stage, a tube of 0.5 m and a time
    step of 10 microseconds: the service as [SimulationService(capsule, [],
    0.5)] builds it, and the same service with its clock at [2^37] seconds
    and the data [d] collected so far. *)
Definition test_capsule_binary64 : Capsule.t float :=
  Capsule.make
    (Coil.make
       (CoilProperties.make 1 (lit 83 1000) (lit 2 100)
          (Capsule._calculate_resistance (lit 83 1000) (lit 2 100)) (of_int 0))
       (of_int 0))
    (lit 1 1) (of_int 0) (of_int 0).

Definition binary64_service : SimulationService.t float :=
  SimulationService.init test_capsule_binary64 [] (lit 5 10) (lit 1 100000).

Definition stalled_service (d : DataService.t float) : SimulationService.t float :=
  SimulationService.with_data
    (SimulationService.with_time binary64_service 0x1p37%float) d.


(** The test stage on binary64, as the constructor builds it. *)
Definition test_stage_binary64 : AccelerationStage.t float :=
  AccelerationStage.make
    (Coil.make
       (CoilProperties.make 100 (lit 9 100) (lit 5 100)
          (AccelerationStage._calculate_copper_resistance 100 (lit 9 100) (lit 5 100))
          (lit 83 1000))
       (of_int 0))
    0 (lit 1000 1000000) (of_int 400) None false.

(** * Properties *)

(** ** Binary64 facts *)

Lemma SFmul_comm (prec emax : Z) (x y : spec_float) :
  SFmul prec emax x y = SFmul prec emax y x.
Proof.
  destruct x as [sx|sx| |sx mx ex], y as [sy|sy| |sy my ey]; simpl;
    try reflexivity; try (now rewrite xorb_comm).
  now rewrite xorb_comm, Pos.mul_comm, Z.add_comm.
Qed.

Lemma float_mul_comm (x y : float) : PrimFloat.mul x y = PrimFloat.mul y x.
Proof.
  apply Prim2SF_inj.
  rewrite !FloatAxioms.mul_spec.
  apply SFmul_comm.
Qed.

Lemma SFcompare_antisym (x y : spec_float) :
  SFcompare y x = option_map CompOpp (SFcompare x y).
Proof.
  destruct x as [sx|sx| |sx mx ex], y as [sy|sy| |sy my ey]; simpl;
    try reflexivity;
    try (destruct sx; reflexivity); try (destruct sy; reflexivity);
    try (destruct sx, sy; reflexivity).
  destruct sx, sy; simpl; try reflexivity;
    rewrite (Z.compare_antisym ex ey);
    destruct (ex ?= ey)%Z; simpl; try reflexivity; f_equal.
  - rewrite CompOpp_involutive. exact (Pos.compare_cont_antisym my mx Eq).
  - symmetry. exact (Pos.compare_cont_antisym mx my Eq).
Qed.

(** Equal under the comparison means the same number, for positive ones. *)
Lemma SFcompare_Eq_eq (x y : spec_float) :
  SFcompare x y = Some Eq ->
  SFcompare (S754_zero false) x = Some Lt ->
  x = y.
Proof.
  destruct x as [sx|sx| |sx mx ex], y as [sy|sy| |sy my ey]; simpl;
    try discriminate;
    try (destruct sx; discriminate); try (destruct sy; discriminate).
  - destruct sx, sy; try discriminate; reflexivity.
  - destruct sx; try discriminate.
    destruct sy; try discriminate.
    destruct (ex ?= ey)%Z eqn:He; try discriminate.
    apply Z.compare_eq in He. subst ey.
    intros Hm _. inversion Hm as [Hc].
    apply Pos.compare_eq in Hc. now subst my.
Qed.

Lemma float_pymax_comm (a b : float) :
  float_positive a -> float_positive b -> pymax a b = pymax b a.
Proof.
  unfold float_positive, pymax; simpl.
  rewrite !FloatAxioms.ltb_spec. unfold SFltb.
  rewrite (SFcompare_antisym (Prim2SF a) (Prim2SF b)).
  change (Prim2SF (float_of_int 0)) with (S754_zero false).
  intros Ha Hb.
  destruct (SFcompare (Prim2SF a) (Prim2SF b)) as [[ | | ]|] eqn:Hc; simpl;
    try reflexivity.
  - apply Prim2SF_inj. apply SFcompare_Eq_eq; [exact Hc|].
    destruct (SFcompare (S754_zero false) (Prim2SF a)) as [[ | | ]|];
      try discriminate; reflexivity.
  - exfalso.
    destruct (Prim2SF a) as [sx|sx| |sx mx ex], (Prim2SF b) as [sy|sy| |sy my ey];
      simpl in *; try discriminate.
Qed.

(** ** Exact-arithmetic facts *)

Lemma Rltb_true (x y : R) : Rltb x y = true <-> x < y.
Proof. unfold Rltb. destruct (Rlt_dec x y); split; intros; try discriminate; tauto. Qed.

Lemma Rltb_false (x y : R) : Rltb x y = false <-> y <= x.
Proof.
  unfold Rltb. destruct (Rlt_dec x y); split; intros; try discriminate; try lra; auto.
Qed.

Lemma Rleb_true (x y : R) : Rleb x y = true <-> x <= y.
Proof. unfold Rleb. destruct (Rle_dec x y); split; intros; try discriminate; tauto. Qed.

Lemma Rleb_false (x y : R) : Rleb x y = false <-> y < x.
Proof.
  unfold Rleb. destruct (Rle_dec x y); split; intros; try discriminate; try lra; auto.
Qed.

Lemma Reqb_true (x y : R) : Reqb x y = true <-> x = y.
Proof. unfold Reqb. destruct (Req_dec_T x y); split; intros; try discriminate; tauto. Qed.

Lemma Reqb_false (x y : R) : Reqb x y = false <-> x <> y.
Proof. unfold Reqb. destruct (Req_dec_T x y); split; intros; try discriminate; tauto. Qed.

Lemma R_pymax (a b : R) : pymax a b = Rmax a b.
Proof.
  unfold pymax, Rmax; simpl. unfold Rltb.
  destruct (Rlt_dec a b), (Rle_dec a b); try reflexivity; lra.
Qed.

Section MutualInductanceSymmetry.

Lemma float_mutual_inductance_near_symmetric
    (pe : PhysicsEngine.t float) (a b : Coil.t float) (d : float) :
  float_positive (CoilProperties.length (Coil.properties a)) ->
  float_positive (CoilProperties.length (Coil.properties b)) ->
  flt d (pymax (CoilProperties.length (Coil.properties a))
               (CoilProperties.length (Coil.properties b))) = true ->
  PhysicsEngine.calculate_mutual_inductance pe a b d
  = PhysicsEngine.calculate_mutual_inductance pe b a d.
Proof.
  intros Ha Hb Hnear.
  unfold PhysicsEngine.calculate_mutual_inductance,
    PhysicsEngine._calculate_overlapping_inductance.
  rewrite <- (float_pymax_comm Ha Hb).
  rewrite Hnear.
  destruct (flt d (of_int 0)); [reflexivity|].
  f_equal. simpl.
  rewrite (float_mul_comm (PrimFloat.div (CoilProperties.diameter (Coil.properties b)) _)).
  rewrite (Z.mul_comm (CoilProperties.turns (Coil.properties b))).
  reflexivity.
Qed.

Lemma exact_mutual_inductance_symmetric
    (pe : PhysicsEngine.t R) (a b : Coil.t R) (d : R) :
  PhysicsEngine.calculate_mutual_inductance pe a b d
  = PhysicsEngine.calculate_mutual_inductance pe b a d.
Proof.
  unfold PhysicsEngine.calculate_mutual_inductance,
    PhysicsEngine._calculate_overlapping_inductance,
    PhysicsEngine._calculate_far_field_inductance.
  rewrite !R_pymax.
  rewrite (Rmax_comm (CoilProperties.length (Coil.properties b))).
  rewrite (Z.mul_comm (CoilProperties.turns (Coil.properties b))).
  destruct (flt d (of_int 0)); [reflexivity|].
  destruct (flt d _); f_equal; simpl; unfold pow2, pow3; simpl.
  - rewrite (Rmult_comm (CoilProperties.diameter (Coil.properties b) / 2)). reflexivity.
  - unfold Rdiv. ring.
Qed.
End MutualInductanceSymmetry.

(** ** C6: symmetry of the mutual inductance *)

(** C6, as stated, fails on binary64: for the 5 cm capsule and the test stage
    half a metre apart (far-field branch) the two argument orders give
    results one unit in the last place apart, because
    [mu_0 * pi * r1**2 * r2**2] multiplies the two squared radii in a
    different order. *)
Lemma far_field_inductance_not_bitwise_symmetric :
  exists (c : Capsule.t float) (s : AccelerationStage.t float) (m_cs m_sc : float),
    slim_capsule = Ok c
    /\ test_stage = Ok s
    /\ PhysicsEngine.calculate_mutual_inductance PhysicsEngine.init
         (Capsule.coil c) (AccelerationStage.coil s) (lit 5 10) = Ok m_cs
    /\ PhysicsEngine.calculate_mutual_inductance PhysicsEngine.init
         (AccelerationStage.coil s) (Capsule.coil c) (lit 5 10) = Ok m_sc
    /\ m_cs = 0x1.b77ee3dd12edcp-32%float
    /\ m_sc = 0x1.b77ee3dd12edbp-32%float
    /\ PrimFloat.ltb m_sc m_cs = true.
Proof.
  do 4 eexists.
  split; [vm_compute; reflexivity|].
  split; [vm_compute; reflexivity|].
  split; [vm_compute; reflexivity|].
  split; [vm_compute; reflexivity|].
  repeat split; vm_compute; reflexivity.
Qed.

(** C6, amended: the two argument orders give the same binary64 result in
    the near-field branch, for coils of positive length; and in exact
    arithmetic they give the same result in both branches. *)
Theorem mutual_inductance_symmetry :
  (forall (pe : PhysicsEngine.t float) (a b : Coil.t float) (d : float),
      float_positive (CoilProperties.length (Coil.properties a)) ->
      float_positive (CoilProperties.length (Coil.properties b)) ->
      PrimFloat.ltb d (pymax (CoilProperties.length (Coil.properties a))
                             (CoilProperties.length (Coil.properties b))) = true ->
      PhysicsEngine.calculate_mutual_inductance pe a b d
      = PhysicsEngine.calculate_mutual_inductance pe b a d)
  /\ (forall (pe : PhysicsEngine.t R) (a b : Coil.t R) (d : R),
        PhysicsEngine.calculate_mutual_inductance pe a b d
        = PhysicsEngine.calculate_mutual_inductance pe b a d).
Proof.
  split.
  - intros pe a b d Ha Hb Hnear.
    now apply float_mutual_inductance_near_symmetric.
  - apply exact_mutual_inductance_symmetric.
Qed.

(** The test capsule and the test stage one centimetre apart are in the
    near-field branch. *)
Lemma mutual_inductance_symmetry_witness :
  exists (c : Capsule.t float) (s : AccelerationStage.t float),
    test_capsule = Ok c
    /\ test_stage = Ok s
    /\ PhysicsEngine.calculate_mutual_inductance PhysicsEngine.init
         (Capsule.coil c) (AccelerationStage.coil s) (lit 1 100)
       = PhysicsEngine.calculate_mutual_inductance PhysicsEngine.init
           (AccelerationStage.coil s) (Capsule.coil c) (lit 1 100).
Proof.
  do 2 eexists.
  split; [vm_compute; reflexivity|].
  split; [vm_compute; reflexivity|].
  apply (proj1 mutual_inductance_symmetry); vm_compute; reflexivity.
Defined.

(** ** C1: decay of the mutual inductance with distance *)

Lemma Rdiv_lt_one (a b : R) : 0 < b -> a < b -> a / b < 1.
Proof.
  intros Hb Hab. apply (Rmult_lt_reg_r b); [exact Hb|].
  unfold Rdiv. rewrite Rmult_assoc, Rinv_l; lra.
Qed.

Lemma turns_product_positive (p q : CoilProperties.t R) :
  valid_properties p -> valid_properties q ->
  0 < sqrt (IZR (CoilProperties.turns p * CoilProperties.turns q)).
Proof.
  intros (Hp & _) (Hq & _).
  apply sqrt_lt_R0. apply IZR_lt. nia.
Qed.

Lemma calculate_mutual_inductance_exact (pe : PhysicsEngine.t R) (a b : Coil.t R) (d : R) :
  0 <= d ->
  PhysicsEngine.calculate_mutual_inductance pe a b d
  = Ok (if Rlt_dec d (Rmax (CoilProperties.length (Coil.properties a))
                           (CoilProperties.length (Coil.properties b)))
        then PhysicsEngine._calculate_overlapping_inductance pe a b d
        else PhysicsEngine._calculate_far_field_inductance pe a b d).
Proof.
  intros Hd. unfold PhysicsEngine.calculate_mutual_inductance.
  rewrite R_pymax. simpl.
  rewrite (proj2 (Rltb_false d 0)) by exact Hd.
  unfold Rltb. destruct (Rlt_dec d _); reflexivity.
Qed.

(** Inside one branch the formula does decrease.  In exact arithmetic, for
    two valid coils held fixed, the mutual inductance is strictly decreasing
    in the distance as long as both distances select the same formula: both
    below [max(length_a, length_b)] (overlap formula) or both at or above it
    (dipole formula).  On binary64 the decrease is not strict: neighbouring
    distances can round to the same value. *)
Theorem mutual_inductance_decreasing_within_branch
    (a b : Coil.t R) (d1 d2 : R) :
  valid_coil a -> valid_coil b ->
  0 <= d1 < d2 ->
  d2 < Rmax (CoilProperties.length (Coil.properties a))
            (CoilProperties.length (Coil.properties b))
  \/ Rmax (CoilProperties.length (Coil.properties a))
          (CoilProperties.length (Coil.properties b)) <= d1 ->
  exists m1 m2 : R,
    PhysicsEngine.calculate_mutual_inductance PhysicsEngine.init a b d1 = Ok m1
    /\ PhysicsEngine.calculate_mutual_inductance PhysicsEngine.init a b d2 = Ok m2
    /\ m2 < m1.
Proof.
  intros Ha Hb [Hd1 Hd12] Hbranch.
  rewrite !calculate_mutual_inductance_exact by lra.
  do 2 eexists. split; [reflexivity|]. split; [reflexivity|].
  pose proof (turns_product_positive Ha Hb) as Hn.
  destruct Ha as (_ & Hda & Hla), Hb as (_ & Hdb & Hlb).
  set (ref := Rmax _ _) in *.
  assert (Href : 0 < ref).
  { unfold ref. apply Rlt_le_trans with (1 := Hla). apply Rmax_l. }
  destruct Hbranch as [Hnear | Hfar].
  - destruct (Rlt_dec d1 ref); [|lra]. destruct (Rlt_dec d2 ref); [|lra].
    unfold PhysicsEngine._calculate_overlapping_inductance.
    rewrite !R_pymax. fold ref. simpl.
    assert (Hs : 0 < sqrt (CoilProperties.diameter (Coil.properties a) / 2
                           * (CoilProperties.diameter (Coil.properties b) / 2))).
    { apply sqrt_lt_R0. nra. }
    set (K := _ * sqrt _ * sqrt _).
    assert (HK : 0 < K).
    { unfold K. pose proof PI_RGT_0.
      apply Rmult_lt_0_compat; [apply Rmult_lt_0_compat; [lra | exact Hs] | exact Hn]. }
    assert (H1 : 0 < 1 - d1 / ref).
    { apply Rlt_0_minus. apply Rdiv_lt_one; lra. } 
    assert (H2 : 0 < 1 - d2 / ref).
    { apply Rlt_0_minus. apply Rdiv_lt_one; lra. } 
    rewrite !Rmax_right by lra.
    apply Rmult_lt_compat_l; [exact HK|].
    assert (d1 / ref < d2 / ref); [|lra].
    unfold Rdiv. apply Rmult_lt_compat_r; [apply Rinv_0_lt_compat; lra | lra].
  - destruct (Rlt_dec d1 ref); [lra|]. destruct (Rlt_dec d2 ref); [lra|].
    unfold PhysicsEngine._calculate_far_field_inductance, pow2, pow3. simpl.
    set (K := _ * sqrt _).
    assert (HK : 0 < K).
    { unfold K. pose proof PI_RGT_0.
      apply Rmult_lt_0_compat; [|exact Hn].
      apply Rmult_lt_0_compat; [|nra].
      apply Rmult_lt_0_compat; [|nra].
      nra. }
    assert (Hc1 : 0 < d1 * d1 * d1) by (repeat apply Rmult_lt_0_compat; lra).
    assert (Hc : d1 * d1 * d1 < d2 * d2 * d2).
    { assert (Hsq : d1 * d1 < d2 * d2) by nra.
      apply Rmult_le_0_lt_compat; nra. }
    unfold Rdiv. apply Rmult_lt_compat_l; [exact HK|].
    apply Rinv_lt_contravar; [nra | exact Hc].
Qed.

Lemma PI_bounds : 3 < PI <= 4.
Proof. pose proof PI2_3_2. pose proof PI_4. lra. Qed.

(** Settle the comparisons of the exact instance on closed numbers. *)
Ltac decide_Rcmp :=
  repeat match goal with
  | |- context [Rltb ?x ?y] =>
      first [ rewrite (proj2 (Rltb_true x y)) by lra
            | rewrite (proj2 (Rltb_false x y)) by lra ]
  | |- context [Rleb ?x ?y] =>
      first [ rewrite (proj2 (Rleb_true x y)) by lra
            | rewrite (proj2 (Rleb_false x y)) by lra ]
  | |- context [Reqb ?x ?y] =>
      first [ rewrite (proj2 (Reqb_true x y)) by lra
            | rewrite (proj2 (Reqb_false x y)) by lra ]
  end.

Lemma test_capsule_exact : test_capsule (F:=R) = Ok test_capsule_value.
Proof.
  unfold test_capsule_value, test_capsule, Capsule.init, CoilProperties.init, lit; simpl.
  decide_Rcmp. simpl. unfold Coil.init. simpl. repeat f_equal; lra.
Qed.

Lemma test_stage_exact : test_stage (F:=R) = Ok test_stage_value.
Proof.
  unfold test_stage_value, test_stage, AccelerationStage.init, CoilProperties.init, lit; simpl.
  decide_Rcmp. reflexivity.
Qed.

Lemma sqrt_le_bound (x y : R) : 0 <= y -> x <= y * y -> sqrt x <= y.
Proof.
  intros Hy Hxy. rewrite <- (sqrt_square y Hy).
  apply sqrt_le_1_alt. exact Hxy.
Qed.

(** Across the boundary between the two formulas the value goes up: for
    the test capsule and the test stage the reference length is 5 cm, and
    the value at 5 cm (dipole formula) is larger than the value at 1 cm
    (overlap formula). *)
Lemma mutual_inductance_increases_across_boundary :
  exists (c : Capsule.t R) (s : AccelerationStage.t R) (m1 m2 : R),
    test_capsule = Ok c
    /\ test_stage = Ok s
    /\ PhysicsEngine.calculate_mutual_inductance PhysicsEngine.init
         (Capsule.coil c) (AccelerationStage.coil s) (1 / 100) = Ok m1
    /\ PhysicsEngine.calculate_mutual_inductance PhysicsEngine.init
         (Capsule.coil c) (AccelerationStage.coil s) (5 / 100) = Ok m2
    /\ 0 <= 1 / 100 < 5 / 100
    /\ m1 < m2.
Proof.
  do 4 eexists.
  split; [apply test_capsule_exact|].
  split; [apply test_stage_exact|].
  rewrite !calculate_mutual_inductance_exact by lra. simpl.
  rewrite Rmax_right by lra.
  destruct (Rlt_dec (1 / 100) (5 / 100)); [|lra].
  destruct (Rlt_dec (5 / 100) (5 / 100)); [lra|].
  split; [reflexivity|]. split; [reflexivity|]. split; [lra|].
  unfold PhysicsEngine._calculate_overlapping_inductance,
    PhysicsEngine._calculate_far_field_inductance, pow2, pow3; simpl.
  rewrite !R_pymax. rewrite (Rmax_right (2 / 100)) by lra.
  rewrite (Rmax_right 0) by lra.
  set (S := sqrt 100).
  assert (HS : 0 < S) by (apply sqrt_lt_R0; lra).
  pose proof PI_bounds as [Hpi _].
  assert (Hq : sqrt (83 / 1000 / 2 * (9 / 100 / 2)) <= 5 / 100).
  { apply sqrt_le_bound; lra. }
  assert (Hq0 : 0 <= sqrt (83 / 1000 / 2 * (9 / 100 / 2))) by apply sqrt_pos.
  set (q := sqrt (83 / 1000 / 2 * (9 / 100 / 2))) in *.
  set (K := 4 * PI * (1 / 10000000) * S).
  assert (HK : 0 < K) by (unfold K; apply Rmult_lt_0_compat; [lra | exact HS]).
  replace (4 * PI * (1 / 10000000) * q * S * (1 - 1 / 100 / (5 / 100)))
    with (K * (q * (4 / 5))) by (unfold K; field).
  replace (4 * PI * (1 / 10000000) * PI * (83 / 1000 / 2 * (83 / 1000 / 2))
           * (9 / 100 / 2 * (9 / 100 / 2)) * S / (5 / 100 * (5 / 100) * (5 / 100)))
    with (K * (PI * (83 / 1000 / 2 * (83 / 1000 / 2) * (9 / 100 / 2 * (9 / 100 / 2))
                     / (5 / 100 * (5 / 100) * (5 / 100)))))
    by (unfold K; field).
  apply Rmult_lt_compat_l; [exact HK|].
  lra.
Qed.

(** The same two distances on binary64, as the program computes them: the
    value at 5 cm is more than twice the value at 1 cm. *)
Example mutual_inductance_across_boundary_binary64 :
  exists (c : Capsule.t float) (s : AccelerationStage.t float) (m1 m2 : float),
    test_capsule = Ok c
    /\ test_stage = Ok s
    /\ PhysicsEngine.calculate_mutual_inductance PhysicsEngine.init
         (Capsule.coil c) (AccelerationStage.coil s) (lit 1 100) = Ok m1
    /\ PhysicsEngine.calculate_mutual_inductance PhysicsEngine.init
         (Capsule.coil c) (AccelerationStage.coil s) (lit 5 100) = Ok m2
    /\ PrimFloat.ltb (PrimFloat.mul (float_of_int 2) m1) m2 = true.
Proof.
  do 4 eexists.
  split; [vm_compute; reflexivity|].
  split; [vm_compute; reflexivity|].
  split; [vm_compute; reflexivity|].
  split; vm_compute; reflexivity.
Qed.

(** C1 fails in the code: the mutual inductance of the test capsule and
    the test stage is larger at 5 cm than at 1 cm.  The two distances fall
    on the two sides of the branch boundary [max(0.02, 0.05)]: the overlap
    formula gives the value at 1 cm, the dipole formula the value at 5 cm,
    and the two formulas do not meet.  In exact arithmetic the second value
    is the larger one; on binary64, as the program computes it, it is more
    than twice the first. *)
Theorem mutual_inductance_not_monotone_across_boundary :
  (exists (c : Capsule.t R) (s : AccelerationStage.t R) (m1 m2 : R),
      test_capsule = Ok c
      /\ test_stage = Ok s
      /\ PhysicsEngine.calculate_mutual_inductance PhysicsEngine.init
           (Capsule.coil c) (AccelerationStage.coil s) (1 / 100) = Ok m1
      /\ PhysicsEngine.calculate_mutual_inductance PhysicsEngine.init
           (Capsule.coil c) (AccelerationStage.coil s) (5 / 100) = Ok m2
      /\ 0 <= 1 / 100 < 5 / 100
      /\ m1 < m2)
  /\ (exists (c : Capsule.t float) (s : AccelerationStage.t float) (m1 m2 : float),
        test_capsule = Ok c
        /\ test_stage = Ok s
        /\ PhysicsEngine.calculate_mutual_inductance PhysicsEngine.init
             (Capsule.coil c) (AccelerationStage.coil s) (lit 1 100) = Ok m1
        /\ PhysicsEngine.calculate_mutual_inductance PhysicsEngine.init
             (Capsule.coil c) (AccelerationStage.coil s) (lit 5 100) = Ok m2
        /\ PrimFloat.ltb (lit 1 100) (lit 5 100) = true
        /\ PrimFloat.ltb m1 m2 = true
        /\ PrimFloat.ltb (PrimFloat.mul (float_of_int 2) m1) m2 = true).
Proof.
  split.
  - exact mutual_inductance_increases_across_boundary.
  - do 4 eexists.
    split; [vm_compute; reflexivity|].
    split; [vm_compute; reflexivity|].
    split; [vm_compute; reflexivity|].
    split; [vm_compute; reflexivity|].
    repeat split; vm_compute; reflexivity.
Qed.

(** On binary64 the decrease inside a branch is not strict either: the
    two binary64 numbers that follow 0.01 give the same mutual inductance. *)
Example mutual_inductance_binary64_plateau :
  exists (c : Capsule.t float) (s : AccelerationStage.t float) (d1 d2 m : float),
    test_capsule = Ok c
    /\ test_stage = Ok s
    /\ d1 = PrimFloat.next_up (lit 1 100)
    /\ d2 = PrimFloat.next_up d1
    /\ PrimFloat.ltb d1 d2 = true
    /\ PhysicsEngine.calculate_mutual_inductance PhysicsEngine.init
         (Capsule.coil c) (AccelerationStage.coil s) d1 = Ok m
    /\ PhysicsEngine.calculate_mutual_inductance PhysicsEngine.init
         (Capsule.coil c) (AccelerationStage.coil s) d2 = Ok m.
Proof.
  do 5 eexists.
  split; [vm_compute; reflexivity|].
  split; [vm_compute; reflexivity|].
  split; [reflexivity|].
  split; [reflexivity|].
  split; [vm_compute; reflexivity|].
  split; vm_compute; reflexivity.
Qed.

(** The test capsule and stage at 1 cm and at 2 cm, both in the near field. *)
Lemma mutual_inductance_decreasing_witness :
  exists (c : Capsule.t R) (s : AccelerationStage.t R) (m1 m2 : R),
    test_capsule = Ok c
    /\ test_stage = Ok s
    /\ PhysicsEngine.calculate_mutual_inductance PhysicsEngine.init
         (Capsule.coil c) (AccelerationStage.coil s) (1 / 100) = Ok m1
    /\ PhysicsEngine.calculate_mutual_inductance PhysicsEngine.init
         (Capsule.coil c) (AccelerationStage.coil s) (2 / 100) = Ok m2
    /\ m2 < m1.
Proof.
  do 2 eexists.
  assert (W := @mutual_inductance_decreasing_within_branch
                 (Capsule.coil test_capsule_value)
                 (AccelerationStage.coil test_stage_value)
                 (1 / 100) (2 / 100)).
  destruct W as (m1 & m2 & H1 & H2 & Hlt).
  - unfold valid_coil, valid_properties; simpl. repeat split; [lia | lra | lra].
  - unfold valid_coil, valid_properties; simpl. repeat split; [lia | lra | lra].
  - lra.
  - left. simpl. rewrite Rmax_right; lra.
  - exists m1, m2.
    split; [apply test_capsule_exact|].
    split; [apply test_stage_exact|].
    simpl. auto.
Defined.

(** ** Construction and validation *)

Lemma CoilProperties_init_valid (turns : Z) (diameter length resistance position : R) :
  (1 <= turns)%Z -> 0 < diameter -> 0 < length ->
  CoilProperties.init turns diameter length resistance position
  = Ok (CoilProperties.make turns diameter length resistance position).
Proof.
  intros Ht Hd Hl. unfold CoilProperties.init.
  rewrite (proj2 (Z.leb_gt turns 0)) by lia. simpl.
  now decide_Rcmp.
Qed.

Lemma CoilProperties_init_invalid (turns : Z) (diameter length resistance position : R) :
  (turns <= 0)%Z \/ diameter <= 0 \/ length <= 0 ->
  exists msg, CoilProperties.init turns diameter length resistance position
              = Raise (ValueError msg).
Proof.
  intros Hbad. unfold CoilProperties.init.
  destruct (turns <=? 0)%Z eqn:Ht; [eexists; reflexivity|].
  apply Z.leb_gt in Ht. simpl.
  destruct (Rleb diameter 0) eqn:Hd; [eexists; reflexivity|].
  apply Rleb_false in Hd.
  destruct (Rleb length 0) eqn:Hl; [eexists; reflexivity|].
  apply Rleb_false in Hl.
  exfalso. destruct Hbad as [H | [H | H]]; [lia | lra | lra].
Qed.

Lemma update_position_exact (c : Capsule.t R) (x : R) :
  valid_properties (Capsule.properties c) ->
  Capsule.update_position c x
  = Ok (Capsule.make
          (Coil.make
             (CoilProperties.make (CoilProperties.turns (Capsule.properties c))
                (CoilProperties.diameter (Capsule.properties c))
                (CoilProperties.length (Capsule.properties c))
                (CoilProperties.resistance (Capsule.properties c)) x)
             (Capsule.current c))
          (Capsule.mass c) x (Capsule.velocity c)).
Proof.
  intros (Ht & Hd & Hl). unfold Capsule.update_position.
  now rewrite CoilProperties_init_valid.
Qed.

(** ** C5: [Capsule.apply_force] *)

(** C5: what [apply_force] computes.  The velocity is [v0 + (F/m) dt], as the
    claim says; the position is [x0 + v0 dt + 1.5 (F/m) dt^2], not the
    claim's [x0 + v0 dt + 0.5 (F/m) dt^2]: the position line reads the
    velocity that was just overwritten. *)
Theorem apply_force_uses_updated_velocity (c : Capsule.t R) (force time_step : R) :
  valid_capsule c ->
  exists c' : Capsule.t R,
    Capsule.apply_force c force time_step = Ok c'
    /\ Capsule.velocity c' = Capsule.velocity c + force / Capsule.mass c * time_step
    /\ Capsule.position c'
       = Capsule.position c + Capsule.velocity c * time_step
         + 3 / 2 * (force / Capsule.mass c) * (time_step * time_step)
    /\ CoilProperties.position (Capsule.properties c') = Capsule.position c'.
Proof.
  intros [Hvalid _]. unfold Capsule.apply_force.
  rewrite update_position_exact by exact Hvalid.
  eexists. split; [reflexivity|]. simpl. unfold lit, pow2; simpl.
  split; [reflexivity|]. split; [|reflexivity].
  set (a := force / Capsule.mass c). field.
Qed.

(** The test capsule at rest at the origin, pushed by 1 N for 1 s: the
    claim's formula gives position 1/2, the code gives 3/2. *)
Lemma apply_force_uses_updated_velocity_witness :
  exists c c' : Capsule.t R,
    test_capsule = Ok c
    /\ Capsule.apply_force c 1 1 = Ok c'
    /\ Capsule.velocity c' = 1
    /\ Capsule.position c' = 3 / 2
    /\ Capsule.position c + Capsule.velocity c * 1
       + 1 / 2 * (1 / Capsule.mass c) * (1 * 1) = 1 / 2.
Proof.
  eexists.
  destruct (@apply_force_uses_updated_velocity test_capsule_value 1 1)
    as (c' & Hrun & Hv & Hx & _).
  - unfold valid_capsule, valid_properties; simpl. repeat split; [lia | lra | lra | lra].
  - exists c'. split; [apply test_capsule_exact|].
    split; [exact Hrun|]. simpl in *.
    split; [rewrite Hv; field|]. split; [rewrite Hx; field | field].
Defined.

(** The same input on binary64, as the program computes it. *)
Example apply_force_binary64 :
  exists c c' : Capsule.t float,
    test_capsule = Ok c
    /\ Capsule.apply_force c (of_int 1) (of_int 1) = Ok c'
    /\ Capsule.velocity c' = 1%float
    /\ Capsule.position c' = 1.5%float.
Proof.
  do 2 eexists.
  split; [vm_compute; reflexivity|].
  split; [vm_compute; reflexivity|].
  split; reflexivity.
Qed.

(** ** C3: the capsule's two positions *)

(** [update_position] and [apply_force] leave the two positions equal. *)
Lemma update_position_agrees (c c' : Capsule.t R) (x : R) :
  Capsule.update_position c x = Ok c' ->
  Capsule.position c' = x
  /\ CoilProperties.position (Capsule.properties c') = x.
Proof.
  unfold Capsule.update_position.
  destruct (CoilProperties.init _ _ _ _ _) as [props|e] eqn:Hinit; simpl; [|discriminate].
  intros Heq. inversion Heq; subst c'; clear Heq. simpl.
  split; [reflexivity|].
  unfold CoilProperties.init in Hinit.
  repeat match type of Hinit with
         | (if ?b then _ else _) = _ => destruct b; [discriminate|]
         end.
  inversion Hinit. reflexivity.
Qed.

(** [reset] assigns [capsule.position] and leaves [capsule.properties] as it
    was, on any arithmetic. *)
Lemma reset_capsule_fields {F : Type} `{PyFloat F} (s : SimulationService.t F) :
  Capsule.position (SimulationService.capsule (SimulationService.reset s))
  = SimulationService.initial_position (SimulationService._initial_capsule_state s)
  /\ Capsule.properties (SimulationService.capsule (SimulationService.reset s))
     = Capsule.properties (SimulationService.capsule s).
Proof. split; reflexivity. Qed.

(** C3 fails at [reset]: a service is built around the test capsule (at
    position 0), the capsule is moved to 0.1 m with [update_position], and the
    service is reset.  The capsule's position is 0 again, the position inside
    its properties is still 0.1. *)
Theorem reset_desynchronises_position :
  exists c c1 : Capsule.t float,
    test_capsule = Ok c
    /\ let s0 := SimulationService.init c [] (lit 5 10) (lit 1 100000) in
       Capsule.update_position (SimulationService.capsule s0) (lit 1 10) = Ok c1
       /\ Capsule.position c1 = CoilProperties.position (Capsule.properties c1)
       /\ let s2 := SimulationService.reset (SimulationService.with_capsule s0 c1) in
          Capsule.position (SimulationService.capsule s2) = of_int 0
          /\ CoilProperties.position
               (Capsule.properties (SimulationService.capsule s2)) = lit 1 10
          /\ PrimFloat.ltb (Capsule.position (SimulationService.capsule s2))
               (CoilProperties.position
                  (Capsule.properties (SimulationService.capsule s2))) = true.
Proof.
  do 2 eexists.
  split; [vm_compute; reflexivity|].
  cbv zeta.
  split; [vm_compute; reflexivity|].
  repeat split; vm_compute; reflexivity.
Qed.

(** ** C4: validation at the construction of a stage *)

(** C4, as stated, fails: the test stage with capacitance -0.001 F (and with
    0 F) is constructed, on binary64 as the program runs. *)
Lemma stage_accepts_nonpositive_capacitance :
  exists s s0 : AccelerationStage.t float,
    AccelerationStage.init 0 (lit 83 1000) 100 (lit 9 100) (lit 5 100)
      (fneg (lit 1 1000)) (of_int 400) = Ok s
    /\ PrimFloat.ltb (AccelerationStage.capacitance s) (of_int 0) = true
    /\ AccelerationStage.init 0 (lit 83 1000) 100 (lit 9 100) (lit 5 100)
         (of_int 0) (of_int 400) = Ok s0
    /\ PrimFloat.eqb (AccelerationStage.capacitance s0) (of_int 0) = true.
Proof.
  do 2 eexists.
  split; [vm_compute; reflexivity|].
  split; [vm_compute; reflexivity|].
  split; vm_compute; reflexivity.
Qed.

(** C4, amended: the constructor raises a validation error exactly when the
    turns, the diameter or the length is not positive; the capacitance and the
    voltage are stored as given, whatever their sign. *)
Theorem stage_init_validates_geometry_only
    (stage_id : Z) (position : R) (turns : Z) (diameter length capacitance voltage : R) :
  ((turns <= 0)%Z \/ diameter <= 0 \/ length <= 0 ->
   exists msg,
     AccelerationStage.init stage_id position turns diameter length capacitance voltage
     = Raise (ValueError msg))
  /\ ((1 <= turns)%Z /\ 0 < diameter /\ 0 < length ->
      exists s,
        AccelerationStage.init stage_id position turns diameter length capacitance voltage
        = Ok s
        /\ AccelerationStage.capacitance s = capacitance
        /\ AccelerationStage.voltage s = voltage
        /\ AccelerationStage.is_active s = false
        /\ AccelerationStage.activation_time s = None).
Proof.
  unfold AccelerationStage.init. split.
  - intros Hbad.
    destruct (CoilProperties_init_invalid
                (AccelerationStage._calculate_copper_resistance turns diameter length)
                position Hbad) as (msg & Hmsg).
    exists msg. now rewrite Hmsg.
  - intros (Ht & Hd & Hl).
    rewrite CoilProperties_init_valid by assumption.
    eexists. split; [reflexivity|]. simpl. auto.
Qed.

(** ** C7: the current of a stage *)

Lemma inductance_solenoid (s : AccelerationStage.t R) :
  AccelerationStage.inductance s = solenoid_inductance (AccelerationStage.properties s).
Proof.
  unfold AccelerationStage.inductance, Coil.inductance, Coil._calculate_inductance,
    solenoid_inductance, AccelerationStage.properties, lit, pow2; simpl.
  unfold Rdiv. ring.
Qed.

(** After activation the code returns the waveform of its regime, clamped. *)
Lemma get_current_after_activation (s : AccelerationStage.t R) (t t0 : R) :
  AccelerationStage.is_active s = true ->
  AccelerationStage.activation_time s = Some t0 ->
  t0 <= t ->
  AccelerationStage.get_current s t = Rmax 0 (discharge_waveform s (t - t0)).
Proof.
  intros Hactive Ht0 Hle.
  unfold AccelerationStage.get_current. rewrite Hactive, Ht0.
  cbv beta iota zeta delta [negb].
  rewrite !inductance_solenoid.
  change (flt t t0) with (Rltb t t0).
  rewrite (proj2 (Rltb_false t t0)) by exact Hle.
  rewrite R_pymax. f_equal. simpl.
  unfold discharge_waveform, underdamped_current, critically_damped_current,
    damped_frequency, natural_frequency, damping, Rltb, Reqb.
  rewrite <- !Rsqr_pow2. unfold Rsqr.
  destruct (Rlt_dec _ _); [reflexivity|].
  destruct (Req_dec_T _ _); reflexivity.
Qed.

Lemma get_current_before_activation (s : AccelerationStage.t R) (t : R) :
  AccelerationStage.is_active s = false
  \/ AccelerationStage.activation_time s = None
  \/ (exists t0, AccelerationStage.activation_time s = Some t0 /\ t < t0) ->
  AccelerationStage.get_current s t = 0.
Proof.
  unfold AccelerationStage.get_current.
  intros [Hoff | [Hnone | (t0 & Ht0 & Hlt)]].
  - now rewrite Hoff.
  - rewrite Hnone. now destruct (negb _).
  - rewrite Ht0. destruct (negb _); [reflexivity|].
    change (flt t t0) with (Rltb t t0).
    now rewrite (proj2 (Rltb_true t t0)).
Qed.

(** C7: [get_current] is 0 for an inactive stage and before the activation
    time; from the activation time on, for a stage of valid geometry and
    positive capacitance and with [delta] the time since activation, it is
    the underdamped
    waveform when [alpha < omega_0], the critically damped one when
    [alpha = omega_0] and 0 when [alpha > omega_0], clamped at 0 from below;
    it is never negative. *)
Theorem get_current_spec (s : AccelerationStage.t R) (t : R) :
  0 <= AccelerationStage.get_current s t
  /\ (AccelerationStage.is_active s = false -> AccelerationStage.get_current s t = 0)
  /\ (AccelerationStage.activation_time s = None -> AccelerationStage.get_current s t = 0)
  /\ (forall t0, AccelerationStage.activation_time s = Some t0 -> t < t0 ->
        AccelerationStage.get_current s t = 0)
  /\ (forall t0,
        valid_circuit s ->
        AccelerationStage.is_active s = true ->
        AccelerationStage.activation_time s = Some t0 ->
        t0 <= t ->
        (damping s < natural_frequency s ->
           AccelerationStage.get_current s t = Rmax 0 (underdamped_current s (t - t0)))
        /\ (damping s = natural_frequency s ->
              AccelerationStage.get_current s t
              = Rmax 0 (critically_damped_current s (t - t0)))
        /\ (natural_frequency s < damping s ->
              AccelerationStage.get_current s t = 0)).
Proof.
  split; [|split; [|split; [|split]]].
  - destruct (AccelerationStage.is_active s) eqn:Hactive;
      [|rewrite get_current_before_activation by auto; lra].
    destruct (AccelerationStage.activation_time s) as [t0|] eqn:Ht0;
      [|rewrite get_current_before_activation by auto; lra].
    destruct (Rlt_dec t t0) as [Hlt | Hge].
    + rewrite get_current_before_activation by eauto. lra.
    + rewrite (get_current_after_activation s Hactive Ht0) by lra. apply Rmax_l.
  - intros Hoff. apply get_current_before_activation. auto.
  - intros Hnone. apply get_current_before_activation. auto.
  - intros t0 Ht0 Hlt. apply get_current_before_activation. eauto.
  - intros t0 _ Hactive Ht0 Hle.
    rewrite (get_current_after_activation s Hactive Ht0 Hle).
    unfold discharge_waveform.
    repeat split; intros Hregime.
    + destruct (Rlt_dec _ _); [reflexivity | lra].
    + destruct (Rlt_dec _ _); [lra|]. destruct (Req_dec_T _ _); [reflexivity | lra].
    + destruct (Rlt_dec _ _); [lra|]. destruct (Req_dec_T _ _); [lra|].
      apply Rmax_left. lra.
Qed.

(** ** C8: the derivative of the current of a stage *)

Lemma derivable_pt_lim_value (f : R -> R) (x l l' : R) :
  derivable_pt_lim f x l -> l = l' -> derivable_pt_lim f x l'.
Proof. intros H Heq. now rewrite <- Heq. Qed.

Lemma derivable_exp_linear (a x : R) :
  derivable_pt_lim (fun d => exp (- a * d)) x (- a * exp (- a * x)).
Proof.
  apply derivable_pt_lim_value
    with (l := exp (- a * x) * (- a * 1)); [|ring].
  apply (derivable_pt_lim_comp (fun d => - a * d) exp).
  - apply (derivable_pt_lim_scal id (- a) x 1). apply derivable_pt_lim_id.
  - apply derivable_pt_lim_exp.
Qed.

Lemma derivable_sin_linear (w x : R) :
  derivable_pt_lim (fun d => sin (w * d)) x (w * cos (w * x)).
Proof.
  apply derivable_pt_lim_value
    with (l := cos (w * x) * (w * 1)); [|ring].
  apply (derivable_pt_lim_comp (fun d => w * d) sin).
  - apply (derivable_pt_lim_scal id w x 1). apply derivable_pt_lim_id.
  - apply derivable_pt_lim_sin.
Qed.

Lemma derivable_damped_sine (A a w x : R) :
  derivable_pt_lim (fun d => A * exp (- a * d) * sin (w * d)) x
    (A * exp (- a * x) * (w * cos (w * x) - a * sin (w * x))).
Proof.
  apply derivable_pt_lim_value
    with (l := A * (- a * exp (- a * x)) * sin (w * x)
               + A * exp (- a * x) * (w * cos (w * x))); [|ring].
  apply (derivable_pt_lim_mult (fun d => A * exp (- a * d)) (fun d => sin (w * d))).
  - apply (derivable_pt_lim_scal (fun d => exp (- a * d)) A).
    apply derivable_exp_linear.
  - apply derivable_sin_linear.
Qed.

Lemma derivable_critical (B a x : R) :
  derivable_pt_lim (fun d => B * d * exp (- a * d)) x
    (B * exp (- a * x) * (1 - a * x)).
Proof.
  apply derivable_pt_lim_value
    with (l := B * 1 * exp (- a * x) + B * x * (- a * exp (- a * x))); [|ring].
  apply (derivable_pt_lim_mult (fun d => B * d) (fun d => exp (- a * d))).
  - apply (derivable_pt_lim_scal id B x 1). apply derivable_pt_lim_id.
  - apply derivable_exp_linear.
Qed.

(** The value the code returns after activation, in the specification's
    vocabulary. *)
Lemma get_current_derivative_after_activation (s : AccelerationStage.t R) (t t0 : R) :
  AccelerationStage.is_active s = true ->
  AccelerationStage.activation_time s = Some t0 ->
  t0 <= t ->
  AccelerationStage.get_current_derivative s t
  = if Rlt_dec (damping s) (natural_frequency s) then
      AccelerationStage.voltage s
      / (damped_frequency s * solenoid_inductance (AccelerationStage.properties s))
      * exp (- damping s * (t - t0))
      * (damped_frequency s * cos (damped_frequency s * (t - t0))
         - damping s * sin (damped_frequency s * (t - t0)))
    else if Req_dec_T (damping s) (natural_frequency s) then
      AccelerationStage.voltage s / solenoid_inductance (AccelerationStage.properties s)
      * exp (- damping s * (t - t0)) * (1 - damping s * (t - t0))
    else 0.
Proof.
  intros Hactive Ht0 Hle.
  unfold AccelerationStage.get_current_derivative. rewrite Hactive, Ht0.
  cbv beta iota zeta delta [negb].
  rewrite !inductance_solenoid.
  change (flt t t0) with (Rltb t t0).
  rewrite (proj2 (Rltb_false t t0)) by exact Hle.
  simpl.
  unfold damped_frequency, natural_frequency, damping, Rltb, Reqb.
  rewrite <- !Rsqr_pow2. unfold Rsqr.
  destruct (Rlt_dec _ _); [reflexivity|].
  destruct (Req_dec_T _ _); reflexivity.
Qed.

Lemma get_current_derivative_is_derivative (s : AccelerationStage.t R) (t t0 : R) :
  AccelerationStage.is_active s = true ->
  AccelerationStage.activation_time s = Some t0 ->
  t0 <= t ->
  derivable_pt_lim (discharge_waveform s) (t - t0)
    (AccelerationStage.get_current_derivative s t).
Proof.
  intros Hactive Ht0 Hle.
  rewrite (get_current_derivative_after_activation s Hactive Ht0 Hle).
  unfold discharge_waveform, underdamped_current, critically_damped_current.
  destruct (Rlt_dec _ _); [apply derivable_damped_sine|].
  destruct (Req_dec_T _ _); [|apply derivable_pt_lim_const].
  apply derivable_critical.
Qed.

Lemma solenoid_inductance_positive (p : CoilProperties.t R) :
  valid_properties p -> 0 < solenoid_inductance p.
Proof.
  intros (Ht & Hd & Hl). unfold solenoid_inductance.
  pose proof PI_RGT_0 as Hpi.
  assert (Hn : 0 < IZR (CoilProperties.turns p) / CoilProperties.length p).
  { apply Rdiv_lt_0_compat; [apply IZR_lt; lia | exact Hl]. }
  apply Rmult_lt_0_compat; [|exact Hl].
  apply Rmult_lt_0_compat.
  - apply Rmult_lt_0_compat; [lra|]. apply pow_lt. exact Hn.
  - apply Rmult_lt_0_compat; [lra|]. apply pow_lt. lra.
Qed.

Lemma clamped_current_with_negative_derivative (s : AccelerationStage.t R) (t0 : R) :
  AccelerationStage.is_active s = true ->
  AccelerationStage.activation_time s = Some t0 ->
  valid_properties (AccelerationStage.properties s) ->
  0 <= CoilProperties.resistance (AccelerationStage.properties s) ->
  0 < AccelerationStage.voltage s ->
  damping s < natural_frequency s ->
  exists t : R,
    t0 <= t
    /\ discharge_waveform s (t - t0) < 0
    /\ AccelerationStage.get_current s t = 0
    /\ AccelerationStage.get_current_derivative s t < 0.
Proof.
  intros Hactive Ht0 Hvalid HR HV Hunder.
  pose proof (solenoid_inductance_positive Hvalid) as HL.
  assert (Ha : 0 <= damping s).
  { unfold damping. apply Rmult_le_pos; [exact HR|].
    apply Rlt_le. apply Rinv_0_lt_compat. lra. }
  assert (Hw : 0 < damped_frequency s).
  { unfold damped_frequency. apply sqrt_lt_R0. nra. }
  set (w := damped_frequency s) in *.
  set (a := damping s) in *.
  set (x := w / (a + 1)).
  assert (Hx : 0 < x) by (unfold x; apply Rdiv_lt_0_compat; lra).
  set (th := atan x).
  assert (Hth : 0 < th < PI / 2).
  { split.
    - unfold th. rewrite <- atan_0. apply atan_increasing. exact Hx.
    - apply (atan_bound x). }
  pose proof PI_RGT_0 as Hpi.
  assert (Hsin : 0 < sin th) by (apply sin_gt_0; lra).
  assert (Hcos : 0 < cos th) by (apply cos_gt_0; lra).
  assert (Htan : sin th = x * cos th).
  { pose proof (tan_atan x) as Ht. fold th in Ht. unfold tan in Ht.
    rewrite <- Ht. field. lra. }
  set (delta := (th + PI) / w).
  assert (Hdelta : 0 < delta) by (unfold delta; apply Rdiv_lt_0_compat; lra).
  assert (Hwd : w * delta = th + PI) by (unfold delta; field; lra).
  assert (HA : 0 < AccelerationStage.voltage s
                   / (w * solenoid_inductance (AccelerationStage.properties s))).
  { apply Rdiv_lt_0_compat; [exact HV|]. apply Rmult_lt_0_compat; assumption. }
  assert (HE : 0 < exp (- a * delta)) by apply exp_pos.
  assert (Hwave : discharge_waveform s delta < 0).
  { unfold discharge_waveform. fold a.
    destruct (Rlt_dec a (natural_frequency s)); [|lra].
    unfold underdamped_current. fold w. fold a.
    rewrite Hwd, neg_sin.
    rewrite Ropp_mult_distr_r_reverse.
    apply Ropp_lt_gt_0_contravar.
    apply Rmult_lt_0_compat; [|exact Hsin].
    apply Rmult_lt_0_compat; [exact HA | exact HE]. }
  exists (t0 + delta).
  replace (t0 + delta - t0) with delta by ring.
  split; [lra|]. split; [exact Hwave|]. split.
  - rewrite (get_current_after_activation s Hactive Ht0) by lra.
    replace (t0 + delta - t0) with delta by ring.
    apply Rmax_left. lra.
  - rewrite (get_current_derivative_after_activation s Hactive Ht0) by lra.
    replace (t0 + delta - t0) with delta by ring. fold a.
    destruct (Rlt_dec a (natural_frequency s)); [|lra]. fold w.
    rewrite Hwd, neg_sin, neg_cos, Htan.
    assert (Hneg : w * - cos th - a * - (x * cos th) < 0).
    { replace (w * - cos th - a * - (x * cos th))
        with (- (cos th * (w / (a + 1)))) by (unfold x; field; lra).
      assert (0 < cos th * (w / (a + 1))); [|lra].
      apply Rmult_lt_0_compat; [exact Hcos | exact Hx]. }
    rewrite <- (Rmult_0_r
                  (AccelerationStage.voltage s
                   / (w * solenoid_inductance (AccelerationStage.properties s))
                   * exp (- a * delta))).
    apply Rmult_lt_compat_l; [|exact Hneg].
    apply Rmult_lt_0_compat; [exact HA | exact HE].
Qed.

(** The test stage is underdamped: its damping is below 80 /s, its natural
    frequency above 500 /s. *)
Lemma test_stage_resistance :
  AccelerationStage._calculate_copper_resistance (F:=R) 100 (9 / 100) (5 / 100)
  = 168 / 10000000000 * 9 / ((1628 / 1000000 / 2) * (1628 / 1000000 / 2)).
Proof.
  unfold AccelerationStage._calculate_copper_resistance, lit, pow2; simpl.
  pose proof PI_RGT_0. field. lra.
Qed.

Lemma test_stage_inductance :
  solenoid_inductance (AccelerationStage.properties fired_test_stage)
  = PI * PI * (162 / 1000000).
Proof. unfold solenoid_inductance; simpl. field. Qed.

Lemma test_stage_valid : valid_stage fired_test_stage.
Proof. unfold valid_stage, valid_properties; simpl. repeat split; [lia | lra | lra]. Qed.

Lemma test_stage_circuit : valid_circuit fired_test_stage.
Proof. split; [exact test_stage_valid | simpl; lra]. Qed.

Lemma test_stage_underdamped :
  damping fired_test_stage < 80 /\ 500 <= natural_frequency fired_test_stage.
Proof.
  pose proof PI_bounds as [Hpi3 Hpi4].
  pose proof test_stage_inductance as HL.
  set (L := solenoid_inductance (AccelerationStage.properties fired_test_stage)) in *.
  assert (HLlo : 1458 / 1000000 < L) by (rewrite HL; nra).
  assert (HLhi : L <= 2592 / 1000000) by (rewrite HL; nra).
  split.
  - unfold damping. fold L.
    change (CoilProperties.resistance (AccelerationStage.properties fired_test_stage))
      with (AccelerationStage._calculate_copper_resistance (F:=R) 100 (9 / 100) (5 / 100)).
    rewrite test_stage_resistance.
    apply (Rmult_lt_reg_r (2 * L)); [lra|].
    unfold Rdiv at 1. rewrite Rmult_assoc, Rinv_l by lra. lra.
  - unfold natural_frequency. fold L.
    change (AccelerationStage.capacitance fired_test_stage) with (1000 / 1000000).
    assert (Hpos : 0 < sqrt (L * (1000 / 1000000))) by (apply sqrt_lt_R0; nra).
    assert (Hle : sqrt (L * (1000 / 1000000)) <= 1 / 500)
      by (apply sqrt_le_bound; nra).
    unfold Rdiv at 1. rewrite Rmult_1_l.
    replace 500 with (/ (1 / 500)) by field.
    apply Rinv_le_contravar; assumption.
Qed.

(** The test stage fired at time 0, one millisecond later: it is underdamped,
    so its current is the clamped underdamped waveform. *)
Lemma get_current_spec_witness :
  AccelerationStage.get_current fired_test_stage (1 / 1000)
  = Rmax 0 (underdamped_current fired_test_stage (1 / 1000 - 0))
  /\ 0 <= AccelerationStage.get_current fired_test_stage (1 / 1000).
Proof.
  destruct (get_current_spec fired_test_stage (1 / 1000)) as (Hnn & _ & _ & _ & Hactive).
  destruct (Hactive 0 test_stage_circuit eq_refl eq_refl) as (Hunder & _); [lra|].
  split; [|exact Hnn].
  apply Hunder. pose proof test_stage_underdamped. lra.
Defined.


(** C8: for an active stage of valid geometry and positive capacitance,
    from the activation time on, [get_current] is the waveform of the
    stage's regime clamped at 0, and [get_current_derivative] is the
    derivative of that waveform itself, not of the clamped current.  For an
    underdamped stage of positive voltage there is a time at which the
    waveform is negative, so that the current is clamped to 0, while the
    derivative returned is negative. *)
Theorem get_current_derivative_unclamped (s : AccelerationStage.t R) (t0 : R) :
  valid_circuit s ->
  AccelerationStage.is_active s = true ->
  AccelerationStage.activation_time s = Some t0 ->
  (forall t : R,
      t0 <= t ->
      AccelerationStage.get_current s t = Rmax 0 (discharge_waveform s (t - t0))
      /\ derivable_pt_lim (discharge_waveform s) (t - t0)
           (AccelerationStage.get_current_derivative s t))
  /\ (0 <= CoilProperties.resistance (AccelerationStage.properties s) ->
      0 < AccelerationStage.voltage s ->
      damping s < natural_frequency s ->
      exists t : R,
        t0 <= t
        /\ discharge_waveform s (t - t0) < 0
        /\ AccelerationStage.get_current s t = 0
        /\ AccelerationStage.get_current_derivative s t < 0).
Proof.
  intros [Hvalid _] Hactive Ht0. split.
  - intros t Hle. split.
    + now apply get_current_after_activation.
    + now apply get_current_derivative_is_derivative.
  - intros HR HV Hunder.
    now apply clamped_current_with_negative_derivative.
Qed.

(** The test stage, fired at time 0. *)
Lemma get_current_derivative_unclamped_witness :
  exists s : AccelerationStage.t R,
    test_stage = Ok s
    /\ (forall t : R,
           0 <= t ->
           AccelerationStage.get_current (AccelerationStage.activate s 0) t
           = Rmax 0 (discharge_waveform (AccelerationStage.activate s 0) (t - 0))
           /\ derivable_pt_lim (discharge_waveform (AccelerationStage.activate s 0)) (t - 0)
                (AccelerationStage.get_current_derivative
                   (AccelerationStage.activate s 0) t))
    /\ exists t : R,
         0 <= t
         /\ discharge_waveform (AccelerationStage.activate s 0) (t - 0) < 0
         /\ AccelerationStage.get_current (AccelerationStage.activate s 0) t = 0
         /\ AccelerationStage.get_current_derivative
              (AccelerationStage.activate s 0) t < 0.
Proof.
  exists test_stage_value.
  split; [apply test_stage_exact|].
  destruct (@get_current_derivative_unclamped fired_test_stage 0
              test_stage_circuit eq_refl eq_refl)
    as [Hall Hex].
  split; [exact Hall|].
  apply Hex.
  - change (CoilProperties.resistance (AccelerationStage.properties fired_test_stage))
      with (AccelerationStage._calculate_copper_resistance (F:=R) 100 (9 / 100) (5 / 100)).
    rewrite test_stage_resistance. lra.
  - simpl. lra.
  - pose proof test_stage_underdamped. lra.
Defined.

(** ** The simulation step *)

Lemma for_each_ok {A S : Type} (body : S -> A -> result S) (xs : list A) :
  (forall acc x, exists acc', body acc x = Ok acc') ->
  forall acc, exists acc', for_each body xs acc = Ok acc'.
Proof.
  intros Hbody. induction xs as [|x rest IH]; intros acc; simpl.
  - eexists; reflexivity.
  - destruct (Hbody acc x) as (acc' & Hx). rewrite Hx. cbn [bind]. apply IH.
Qed.

Lemma calculate_mutual_inductance_ok (pe : PhysicsEngine.t R) (a b : Coil.t R) (d : R) :
  0 <= d -> exists m, PhysicsEngine.calculate_mutual_inductance pe a b d = Ok m.
Proof.
  intros Hd. rewrite calculate_mutual_inductance_exact by exact Hd.
  eexists; reflexivity.
Qed.

Lemma pymax_floor (x : R) : 1 / 1000 <= pymax (lit 1 1000) x.
Proof. rewrite R_pymax. unfold lit; simpl. apply Rmax_l. Qed.

Lemma gradient_ok (s : SimulationService.t R) (stage : AccelerationStage.t R) (d : R) :
  exists g, SimulationService._calculate_mutual_inductance_gradient s stage d = Ok g.
Proof.
  unfold SimulationService._calculate_mutual_inductance_gradient.
  destruct (calculate_mutual_inductance_ok (SimulationService.physics s)
              (AccelerationStage.coil stage)
              (Capsule.coil (SimulationService.capsule s))
              (d := pymax (lit 1 1000) (fadd d (fdiv (lit 1 1000) (of_int 2)))))
    as (m1 & H1); [pose proof (pymax_floor (fadd d (fdiv (lit 1 1000) (of_int 2)))); lra|].
  destruct (calculate_mutual_inductance_ok (SimulationService.physics s)
              (AccelerationStage.coil stage)
              (Capsule.coil (SimulationService.capsule s))
              (d := pymax (lit 1 1000) (fsub d (fdiv (lit 1 1000) (of_int 2)))))
    as (m2 & H2); [pose proof (pymax_floor (fsub d (fdiv (lit 1 1000) (of_int 2)))); lra|].
  rewrite H1. cbn [bind]. rewrite H2. cbn [bind]. eexists; reflexivity.
Qed.

Lemma induced_emf_of_ok (s : SimulationService.t R) (acc : R)
    (stage : AccelerationStage.t R) :
  exists acc', SimulationService.induced_emf_of s acc stage = Ok acc'.
Proof.
  unfold SimulationService.induced_emf_of.
  destruct (AccelerationStage.is_active stage); [|eexists; reflexivity].
  set (d := pymax (lit 1 1000) _).
  destruct (calculate_mutual_inductance_ok (SimulationService.physics s)
              (AccelerationStage.coil stage)
              (Capsule.coil (SimulationService.capsule s)) (d := d))
    as (m & Hm); [pose proof (pymax_floor
                    (fabs (fsub (Capsule.position (SimulationService.capsule s))
                             (CoilProperties.position (AccelerationStage.properties stage)))));
                  fold d in H; lra|].
  rewrite Hm. cbn [bind].
  destruct (gradient_ok s stage d) as (g & Hg). rewrite Hg. cbn [bind].
  eexists; reflexivity.
Qed.

Lemma calculate_force_ok (pe : PhysicsEngine.t R) (a b : Coil.t R) (d c1 c2 : R) :
  1 / 1000 <= d -> exists f, PhysicsEngine.calculate_force pe a b d c1 c2 = Ok f.
Proof.
  intros Hd. unfold PhysicsEngine.calculate_force.
  destruct (_ || _); [eexists; reflexivity|].
  destruct (calculate_mutual_inductance_ok pe a b
              (d := fadd d (fdiv (lit 1 1000) (of_int 2)))) as (m1 & H1);
    [unfold lit; simpl; lra|].
  destruct (calculate_mutual_inductance_ok pe a b
              (d := fsub d (fdiv (lit 1 1000) (of_int 2)))) as (m2 & H2);
    [unfold lit; simpl; lra|].
  rewrite H1. cbn [bind]. rewrite H2. cbn [bind]. eexists; reflexivity.
Qed.

Lemma force_of_ok (s : SimulationService.t R) (acc : R) (stage : AccelerationStage.t R) :
  exists acc', SimulationService.force_of s acc stage = Ok acc'.
Proof.
  unfold SimulationService.force_of.
  destruct (AccelerationStage.is_active stage); [|eexists; reflexivity].
  destruct (_ && _); [|eexists; reflexivity].
  set (d := pymax (lit 1 1000) _).
  destruct (calculate_force_ok (SimulationService.physics s)
              (AccelerationStage.coil stage)
              (Capsule.coil (SimulationService.capsule s)) (d := d)
              (AccelerationStage.get_current stage (SimulationService.time s))
              (Capsule.current (SimulationService.capsule s)))
    as (f & Hf); [apply pymax_floor|].
  rewrite Hf. cbn [bind].
  destruct (flt _ _); eexists; reflexivity.
Qed.

Lemma update_capsule_current_exact (s : SimulationService.t R) :
  exists emf,
    for_each (SimulationService.induced_emf_of s) (SimulationService.stages s) 0 = Ok emf
    /\ SimulationService._update_capsule_current s = Ok (after_current s emf).
Proof.
  destruct (for_each_ok (SimulationService.induced_emf_of s) (SimulationService.stages s)
              (induced_emf_of_ok s) 0) as (emf & Hemf).
  exists emf. split; [exact Hemf|].
  unfold SimulationService._update_capsule_current, after_current.
  change (of_int 0) with 0. rewrite Hemf. cbn [bind].
  change (flt 0 ?x) with (Rltb 0 x). unfold Rltb.
  destruct (Rlt_dec 0 _); reflexivity.
Qed.

Lemma calculate_total_force_ok (s : SimulationService.t R) :
  exists force, SimulationService._calculate_total_force s = Ok force.
Proof. apply for_each_ok. apply force_of_ok. Qed.

Lemma update_kinematics_exact (pe : PhysicsEngine.t R) (c : Capsule.t R) (force dt : R) :
  valid_capsule c ->
  PhysicsEngine.update_kinematics pe c force dt = Ok (moved c force dt).
Proof.
  intros [Hvalid _]. unfold PhysicsEngine.update_kinematics.
  rewrite update_position_exact by exact Hvalid. reflexivity.
Qed.

Lemma after_current_frame (s : SimulationService.t R) (emf : R) :
  SimulationService.stages (after_current s emf) = SimulationService.stages s
  /\ SimulationService.tube_length (after_current s emf) = SimulationService.tube_length s
  /\ SimulationService.dt (after_current s emf) = SimulationService.dt s
  /\ SimulationService.physics (after_current s emf) = SimulationService.physics s
  /\ SimulationService.data (after_current s emf) = SimulationService.data s
  /\ SimulationService.time (after_current s emf) = SimulationService.time s
  /\ Capsule.properties (SimulationService.capsule (after_current s emf))
     = Capsule.properties (SimulationService.capsule s)
  /\ Capsule.mass (SimulationService.capsule (after_current s emf))
     = Capsule.mass (SimulationService.capsule s)
  /\ Capsule.position (SimulationService.capsule (after_current s emf))
     = Capsule.position (SimulationService.capsule s)
  /\ Capsule.velocity (SimulationService.capsule (after_current s emf))
     = Capsule.velocity (SimulationService.capsule s).
Proof. unfold after_current. destruct (Rlt_dec 0 _); repeat split. Qed.

Lemma step_exact (s : SimulationService.t R) :
  valid_capsule (SimulationService.capsule s) ->
  exists emf force,
    for_each
      (SimulationService.induced_emf_of (SimulationService._check_stage_activations s))
      (SimulationService.stages (SimulationService._check_stage_activations s)) 0 = Ok emf
    /\ SimulationService._calculate_total_force
         (after_current (SimulationService._check_stage_activations s) emf) = Ok force
    /\ SimulationService._step s
       = Ok (after_step (SimulationService._check_stage_activations s) emf force).
Proof.
  intros Hvalid.
  set (s1 := SimulationService._check_stage_activations s).
  destruct (update_capsule_current_exact s1) as (emf & Hemf & Hupdate).
  destruct (calculate_total_force_ok (after_current s1 emf)) as (force & Hforce).
  exists emf, force. split; [exact Hemf|]. split; [exact Hforce|].
  unfold SimulationService._step. fold s1.
  rewrite Hupdate. cbn [bind]. rewrite Hforce. cbn [bind].
  rewrite update_kinematics_exact; [reflexivity|].
  unfold valid_capsule.
  destruct (after_current_frame s1 emf) as (_ & _ & _ & _ & _ & _ & Hp & Hm & _).
  rewrite Hp, Hm. exact Hvalid.
Qed.

Lemma moved_valid (c : Capsule.t R) (force dt : R) :
  valid_capsule c -> valid_capsule (moved c force dt).
Proof. intros H. exact H. Qed.

Lemma after_step_frame (s : SimulationService.t R) (emf force : R) :
  SimulationService.time (after_step s emf force) = SimulationService.time s
  /\ SimulationService.dt (after_step s emf force) = SimulationService.dt s
  /\ SimulationService.tube_length (after_step s emf force)
     = SimulationService.tube_length s
  /\ SimulationService.stages (after_step s emf force) = SimulationService.stages s
  /\ (valid_capsule (SimulationService.capsule s) ->
      valid_capsule (SimulationService.capsule (after_step s emf force)))
  /\ Capsule.current (SimulationService.capsule (after_step s emf force))
     = Capsule.current (SimulationService.capsule (after_current s emf))
  /\ Capsule.position (SimulationService.capsule (after_step s emf force))
     = Capsule.position (SimulationService.capsule s)
       + Capsule.velocity (SimulationService.capsule s) * SimulationService.dt s
       + 5 / 10 * (force / Capsule.mass (SimulationService.capsule s))
         * (SimulationService.dt s * SimulationService.dt s)
  /\ Capsule.velocity (SimulationService.capsule (after_step s emf force))
     = Capsule.velocity (SimulationService.capsule s)
       + force / Capsule.mass (SimulationService.capsule s) * SimulationService.dt s
  /\ exists record,
       DataService.history (SimulationService.data (after_step s emf force))
       = DataService.history (SimulationService.data s) ++ [record]
       /\ SimulationRecord.time record = SimulationService.time s
       /\ SimulationRecord.capsule_current record
          = Capsule.current (SimulationService.capsule (after_current s emf)).
Proof.
  destruct (after_current_frame s emf)
    as (Hst & Htube & Hdt & Hpe & Hdata & Htime & Hprops & Hmass & Hpos & Hvel).
  unfold after_step. cbv zeta. cbn.
  rewrite Htime, Hdt, Htube, Hst, Hdata, Hmass, Hpos, Hvel.
  do 4 (split; [reflexivity|]).
  split.
  { intros Hvalid. apply moved_valid. unfold valid_capsule. now rewrite Hprops, Hmass. }
  do 3 (split; [reflexivity|]).
  eexists. split; [reflexivity|]. split; reflexivity.
Qed.

(** ** C9 and C10: the loop of [run] *)

Lemma check_stage_activations_frame (s : SimulationService.t R) :
  SimulationService.capsule (SimulationService._check_stage_activations s)
  = SimulationService.capsule s
  /\ SimulationService.time (SimulationService._check_stage_activations s)
     = SimulationService.time s
  /\ SimulationService.dt (SimulationService._check_stage_activations s)
     = SimulationService.dt s
  /\ SimulationService.tube_length (SimulationService._check_stage_activations s)
     = SimulationService.tube_length s
  /\ SimulationService.data (SimulationService._check_stage_activations s)
     = SimulationService.data s.
Proof. repeat split. Qed.

(** Firing a stage leaves its geometry alone. *)
Lemma check_stage_activations_valid (s : SimulationService.t R) :
  Forall valid_stage (SimulationService.stages s) ->
  Forall valid_stage
    (SimulationService.stages (SimulationService._check_stage_activations s)).
Proof.
  intros Hvalid. unfold SimulationService._check_stage_activations. cbn.
  apply Forall_map. revert Hvalid. apply Forall_impl. intros stage Hstage.
  destruct (negb (AccelerationStage.is_active stage)); [|exact Hstage].
  match goal with |- valid_stage (if ?b then _ else _) => destruct b end;
    exact Hstage.
Qed.

(** One step of the simulation of a valid service: it does not raise, it
    leaves the clock, the time step and the tube alone, the service stays
    valid, and one record, stamped with the current time, is appended. *)
Lemma loop_body_ok (s : SimulationService.t R) :
  valid_service s ->
  exists s1,
    SimulationService._step s = Ok s1
    /\ SimulationService.time s1 = SimulationService.time s
    /\ SimulationService.dt s1 = SimulationService.dt s
    /\ SimulationService.tube_length s1 = SimulationService.tube_length s
    /\ valid_service s1
    /\ exists record,
         DataService.history (SimulationService.data s1)
         = DataService.history (SimulationService.data s) ++ [record]
         /\ SimulationRecord.time record = SimulationService.time s.
Proof.
  intros [Hvalid Hstages].
  destruct (step_exact s Hvalid) as (emf & force & _ & _ & Hstep).
  eexists. split; [exact Hstep|].
  destruct (after_step_frame (SimulationService._check_stage_activations s) emf force)
    as (Htime & Hdt & Htube & Hst & Hval & _ & _ & _ & (record & Hhist & Hrt & _)).
  repeat (split; [assumption|]).
  split.
  { split; [apply Hval; exact Hvalid|].
    rewrite Hst. apply check_stage_activations_valid. exact Hstages. }
  exists record. split; assumption.
Qed.

Lemma run_loop_terminates (max_time : R) (n : nat) :
  forall (s : SimulationService.t R) (k : nat),
    valid_service s ->
    0 < SimulationService.dt s ->
    max_time - SimulationService.time s <= INR n * SimulationService.dt s ->
    exists (k' : nat) (s' : SimulationService.t R),
      SimulationService.run_loop (S n) max_time k s = Some (Ok (k', s'))
      /\ (max_time <= SimulationService.time s'
          \/ SimulationService.tube_length s'
             <= Capsule.position (SimulationService.capsule s'))
      /\ SimulationService.dt s' = SimulationService.dt s
      /\ SimulationService.tube_length s' = SimulationService.tube_length s
      /\ ((k' = k /\ s' = s)
          \/ ((k < k')%nat
              /\ exists history record,
                   DataService.history (SimulationService.data s') = history ++ [record]
                   /\ SimulationRecord.time record
                      = SimulationService.time s' - SimulationService.dt s'
                   /\ SimulationRecord.time record < max_time)).
Proof.
  induction n as [|n IH]; intros s k Hvalid Hdt Hbound.
  - simpl in Hbound. rewrite Rmult_0_l in Hbound.
    exists k, s. cbn [SimulationService.run_loop].
    change (flt ?x ?y) with (Rltb x y).
    rewrite (proj2 (Rltb_false (SimulationService.time s) max_time)) by lra.
    cbn [andb]. split; [reflexivity|]. split; [left; lra|]. auto.
  - rewrite S_INR in Hbound.
    cbn [SimulationService.run_loop].
    change (flt ?x ?y) with (Rltb x y).
    destruct (Rltb (SimulationService.time s) max_time) eqn:Htime; cbn [andb].
    2:{ exists k, s. apply Rltb_false in Htime.
        split; [reflexivity|]. split; [left; exact Htime|]. auto. }
    destruct (Rltb (Capsule.position (SimulationService.capsule s))
                (SimulationService.tube_length s)) eqn:Hpos.
    2:{ exists k, s. apply Rltb_false in Hpos.
        split; [reflexivity|]. split; [right; exact Hpos|]. auto. }
    apply Rltb_true in Htime.
    destruct (@loop_body_ok s Hvalid)
      as (s1 & Hstep & Ht1 & Hdt1 & Htube1 & Hvalid1 & (record & Hhist & Hrt)).
    rewrite Hstep.
    set (s2 := SimulationService.with_time s1 _).
    destruct (IH s2 (S k)) as (k' & s' & Hrun & Hexit & Hdt' & Htube' & Hsteps).
    + exact Hvalid1.
    + unfold s2; cbn. lra.
    + unfold s2; cbn. rewrite Ht1, Hdt1. lra.
    + exists k', s'. split; [exact Hrun|]. split; [exact Hexit|].
      split; [rewrite Hdt'; unfold s2; cbn; exact Hdt1|].
      split; [rewrite Htube'; unfold s2; cbn; exact Htube1|].
      right. destruct Hsteps as [[Hk Hs] | (Hk & Hrec)].
      * subst k' s'. split; [lia|].
        exists (DataService.history (SimulationService.data s)), record.
        unfold s2; cbn. split; [exact Hhist|].
        rewrite Hrt, Ht1, Hdt1. split; [ring | exact Htime].
      * split; [lia | exact Hrec].
Qed.

Lemma get_results_last (d : DataService.t R) (history : list (SimulationRecord.t R))
    (record : SimulationRecord.t R) :
  DataService.history d = history ++ [record] ->
  exists res,
    DataService.get_results d = Ok res
    /\ SimulationResult.total_time res = SimulationRecord.time record
    /\ SimulationResult.final_position res = SimulationRecord.position record
    /\ SimulationResult.final_velocity res = SimulationRecord.velocity record.
Proof.
  intros Hhist. unfold DataService.get_results.
  rewrite Hhist, rev_unit. eexists. split; [reflexivity|]. simpl. auto.
Qed.

(** C9, amended: in exact arithmetic, where the clock gains exactly [dt] at
    every pass and [max_time] is a real number, with a positive time step and
    a capsule and stages as the constructors build them, [run] terminates,
    and on exit the elapsed time is at least [max_time] or the capsule is at
    or beyond the end of the tube.  If the loop ran at all, the elapsed time
    is less than one step beyond [max_time], and the result returned carries
    the time of the last step, which is below [max_time].  On binary64 none
    of this holds without more: see [run_binary64_nan_max_time] and
    [run_binary64_stalled_clock] below. *)
Theorem run_terminates (s : SimulationService.t R) (max_time : R) :
  valid_service s ->
  0 < SimulationService.dt s ->
  exists (fuel : nat) (s' : SimulationService.t R)
         (r : result (SimulationResult.t R)),
    SimulationService.run fuel max_time s = Some (Ok (s', r))
    /\ (max_time <= SimulationService.time s'
        \/ SimulationService.tube_length s'
           <= Capsule.position (SimulationService.capsule s'))
    /\ (SimulationService.time s' = SimulationService.time s
        \/ (SimulationService.time s' < max_time + SimulationService.dt s
            /\ exists res,
                 r = Ok res
                 /\ SimulationResult.total_time res
                    = SimulationService.time s' - SimulationService.dt s
                 /\ SimulationResult.total_time res < max_time)).
Proof.
  intros Hvalid Hdt.
  destruct (INR_unbounded ((max_time - SimulationService.time s) / SimulationService.dt s))
    as (n & Hn).
  assert (Hbound : max_time - SimulationService.time s <= INR n * SimulationService.dt s).
  { apply Rlt_le. apply (Rmult_lt_compat_r (SimulationService.dt s)) in Hn; [|exact Hdt].
    unfold Rdiv in Hn. rewrite Rmult_assoc, Rinv_l, Rmult_1_r in Hn by lra. exact Hn. }
  unfold SimulationService.run.
  set (s0 := SimulationService.with_data s _).
  destruct (@run_loop_terminates max_time n s0 0%nat Hvalid Hdt Hbound)
    as (k' & s' & Hrun & Hexit & Hdt' & Htube' & Hsteps).
  exists (S n), s', (DataService.get_results (SimulationService.data s')).
  rewrite Hrun. split; [reflexivity|]. split; [exact Hexit|].
  destruct Hsteps as [[_ Hs] | (_ & history & record & Hhist & Hrt & Hlt)].
  - left. subst s'. reflexivity.
  - right. change (SimulationService.dt s0) with (SimulationService.dt s) in Hdt'.
    rewrite Hdt' in Hrt. split; [lra|].
    destruct (@get_results_last _ _ _ Hhist) as (res & Hres & Htotal & _).
    exists res. split; [exact Hres|]. rewrite Htotal, Hrt. split; [reflexivity | lra].
Qed.

Lemma run_makes_no_pass (s : SimulationService.t R) (max_time : R) (fuel : nat) :
  max_time <= SimulationService.time s
  \/ SimulationService.tube_length s <= Capsule.position (SimulationService.capsule s) ->
  exists s0 : SimulationService.t R,
    SimulationService.run_loop (S fuel) max_time 0 s0 = Some (Ok (0%nat, s0))
    /\ SimulationService.run (S fuel) max_time s
       = Some (Ok (s0, DataService.get_results (SimulationService.data s0)))
    /\ SimulationService.capsule s0 = SimulationService.capsule s
    /\ SimulationService.stages s0 = SimulationService.stages s
    /\ SimulationService.time s0 = SimulationService.time s
    /\ DataService.history (SimulationService.data s0)
       = DataService.history (SimulationService.data s).
Proof.
  intros Hcase.
  unfold SimulationService.run.
  set (s0 := SimulationService.with_data s _).
  assert (Hloop : SimulationService.run_loop (S fuel) max_time 0 s0 = Some (Ok (0%nat, s0))).
  { cbn [SimulationService.run_loop].
    change (flt ?x ?y) with (Rltb x y).
    change (SimulationService.time s0) with (SimulationService.time s).
    change (SimulationService.capsule s0) with (SimulationService.capsule s).
    change (SimulationService.tube_length s0) with (SimulationService.tube_length s).
    destruct Hcase as [Hmax | Hpos].
    - rewrite (proj2 (Rltb_false (SimulationService.time s) max_time)) by lra.
      reflexivity.
    - rewrite (proj2 (Rltb_false (Capsule.position (SimulationService.capsule s))
                        (SimulationService.tube_length s))) by exact Hpos.
      now rewrite andb_false_r. }
  exists s0. split; [exact Hloop|]. rewrite Hloop. repeat split.
Qed.

(** C10, amended: with [max_time <= 0] (the clock is never negative), or
    with the capsule already at or beyond the end of the tube, [run] makes no
    pass through its loop and leaves capsule, stages, clock and history as
    they were.  What it returns depends on the history alone: with no record
    it raises the error of [get_results]; with records, as after an earlier
    run that was not reset, it returns the result of that history, whose
    total time is the time of the last record. *)
Theorem run_without_steps (s : SimulationService.t R) (max_time : R) (fuel : nat) :
  0 <= SimulationService.time s ->
  max_time <= 0
  \/ SimulationService.tube_length s <= Capsule.position (SimulationService.capsule s) ->
  exists s' : SimulationService.t R,
    SimulationService.run_loop (S fuel) max_time 0 s' = Some (Ok (0%nat, s'))
    /\ SimulationService.capsule s' = SimulationService.capsule s
    /\ SimulationService.stages s' = SimulationService.stages s
    /\ SimulationService.time s' = SimulationService.time s
    /\ DataService.history (SimulationService.data s')
       = DataService.history (SimulationService.data s)
    /\ (DataService.history (SimulationService.data s) = [] ->
        SimulationService.run (S fuel) max_time s
        = Some (Ok (s', Raise (ValueError "No data collected - cannot generate results"))))
    /\ (forall (history : list (SimulationRecord.t R)) (record : SimulationRecord.t R),
          DataService.history (SimulationService.data s) = history ++ [record] ->
          exists res : SimulationResult.t R,
            SimulationService.run (S fuel) max_time s = Some (Ok (s', Ok res))
            /\ SimulationResult.total_time res = SimulationRecord.time record
            /\ SimulationResult.history res = history ++ [record]).
Proof.
  intros Htime Hcase.
  destruct (@run_makes_no_pass s max_time fuel)
    as (s0 & Hloop & Hrun & Hcapsule & Hstages & Hclock & Hhist).
  { destruct Hcase as [Hmax | Hpos]; [left; lra | right; exact Hpos]. }
  exists s0. do 5 (split; [assumption|]). split.
  - intros Hempty. rewrite Hrun. unfold DataService.get_results.
    now rewrite Hhist, Hempty.
  - intros history record Hrecords. rewrite Hrun.
    unfold DataService.get_results. rewrite Hhist, Hrecords, rev_unit.
    eexists. split; [reflexivity|]. split; reflexivity.
Qed.


Lemma test_capsule_valid : valid_capsule test_capsule_value.
Proof.
  unfold valid_capsule, valid_properties; simpl. repeat split; [lia | lra | lra | lra].
Qed.

Lemma inactive_emf (s : SimulationService.t R) (acc : R) (stage : AccelerationStage.t R) :
  AccelerationStage.is_active stage = false ->
  SimulationService.induced_emf_of s acc stage = Ok acc.
Proof. intros Hoff. unfold SimulationService.induced_emf_of. now rewrite Hoff. Qed.

Lemma inactive_force (s : SimulationService.t R) (acc : R) (stage : AccelerationStage.t R) :
  AccelerationStage.is_active stage = false ->
  SimulationService.force_of s acc stage = Ok acc.
Proof. intros Hoff. unfold SimulationService.force_of. now rewrite Hoff. Qed.

(** With the capsule at the origin the test stage, 8.3 cm away, does not
    fire. *)
Lemma test_stage_stays_idle (s : SimulationService.t R) :
  SimulationService.stages s = [test_stage_value] ->
  Capsule.position (SimulationService.capsule s) = 0 ->
  SimulationService.stages (SimulationService._check_stage_activations s)
  = [test_stage_value].
Proof.
  intros Hstages Hpos.
  unfold SimulationService._check_stage_activations. cbn. rewrite Hstages, Hpos. cbn.
  rewrite R_pymax. unfold lit; cbn.
  replace (0 - 83 / 1000) with (- (83 / 1000)) by ring.
  rewrite Rabs_Ropp, Rabs_pos_eq by lra.
  rewrite Rmax_left by lra.
  now rewrite (proj2 (Rleb_false (83 / 1000) (5 / 100))) by lra.
Qed.

Lemma quiet_step (s : SimulationService.t R) :
  valid_capsule (SimulationService.capsule s) ->
  SimulationService.stages s = [test_stage_value] ->
  Capsule.position (SimulationService.capsule s) = 0 ->
  Capsule.velocity (SimulationService.capsule s) = 0 ->
  exists s1,
    SimulationService._step s = Ok s1
    /\ valid_capsule (SimulationService.capsule s1)
    /\ SimulationService.stages s1 = [test_stage_value]
    /\ Capsule.position (SimulationService.capsule s1) = 0
    /\ Capsule.velocity (SimulationService.capsule s1) = 0
    /\ SimulationService.time s1 = SimulationService.time s
    /\ SimulationService.dt s1 = SimulationService.dt s
    /\ SimulationService.tube_length s1 = SimulationService.tube_length s.
Proof.
  intros Hvalid Hstages Hpos Hvel.
  destruct (step_exact s Hvalid) as (emf & force & Hemf & Hforce & Hstep).
  pose proof (test_stage_stays_idle s Hstages Hpos) as Hidle.
  set (s1 := SimulationService._check_stage_activations s) in *.
  rewrite Hidle in Hemf. cbn [for_each] in Hemf.
  rewrite inactive_emf in Hemf by reflexivity. cbn [bind] in Hemf.
  inversion Hemf; subst emf; clear Hemf.
  unfold SimulationService._calculate_total_force in Hforce.
  destruct (after_current_frame s1 0) as (Hst & _).
  rewrite Hst, Hidle in Hforce. cbn [for_each] in Hforce.
  rewrite inactive_force in Hforce by reflexivity. cbn [bind] in Hforce.
  change (of_int 0) with 0 in Hforce.
  inversion Hforce; subst force; clear Hforce.
  eexists. split; [exact Hstep|].
  destruct (after_step_frame s1 0 0)
    as (Htime & Hdt & Htube & Hstages' & Hval & _ & Hx & Hv & _).
  split; [apply Hval; exact Hvalid|].
  split; [rewrite Hstages'; exact Hidle|].
  split; [rewrite Hx; change (SimulationService.capsule s1) with (SimulationService.capsule s);
          rewrite Hpos, Hvel; unfold Rdiv; ring|].
  split; [rewrite Hv; change (SimulationService.capsule s1) with (SimulationService.capsule s);
          rewrite Hvel; unfold Rdiv; ring|].
  auto.
Qed.

Lemma test_service_valid : valid_service test_service.
Proof.
  split; [exact test_capsule_valid|].
  constructor; [exact test_stage_valid | constructor].
Qed.

(** C9, as stated, fails: the test service run with [max_time] 15
    microseconds makes two steps of 10 microseconds; on exit the elapsed time
    is 20 microseconds, beyond [max_time], and the capsule is still at the
    origin, inside the tube. *)
Lemma run_overshoots_max_time :
  exists (s' : SimulationService.t R) (r : result (SimulationResult.t R)),
    SimulationService.run 3 (15 / 1000000) test_service = Some (Ok (s', r))
    /\ SimulationService.time s' = 2 / 100000
    /\ 15 / 1000000 < SimulationService.time s'
    /\ Capsule.position (SimulationService.capsule s') = 0
    /\ Capsule.position (SimulationService.capsule s') < SimulationService.tube_length s'.
Proof.
  unfold SimulationService.run.
  set (s0 := SimulationService.with_data test_service _).
  destruct (quiet_step s0 test_capsule_valid eq_refl eq_refl eq_refl)
    as (s1 & Hstep1 & Hvalid1 & Hstages1 & Hpos1 & Hvel1 & Htime1 & Hdt1 & Htube1).
  set (s1' := SimulationService.with_time s1
                (fadd (SimulationService.time s1) (SimulationService.dt s1))).
  destruct (quiet_step s1' Hvalid1 Hstages1 Hpos1 Hvel1)
    as (s2 & Hstep2 & Hvalid2 & Hstages2 & Hpos2 & Hvel2 & Htime2 & Hdt2 & Htube2).
  set (s2' := SimulationService.with_time s2
                (fadd (SimulationService.time s2) (SimulationService.dt s2))).
  assert (Ht1 : SimulationService.time s1' = 1 / 100000).
  { unfold s1'; cbn. rewrite Htime1, Hdt1. cbn. unfold lit; cbn. lra. }
  assert (Ht2 : SimulationService.time s2' = 2 / 100000).
  { unfold s2'; cbn. rewrite Htime2, Hdt2, Ht1. unfold s1'; cbn. rewrite Hdt1. cbn.
    unfold lit; cbn. lra. }
  assert (Htb2 : SimulationService.tube_length s2' = 5 / 10).
  { unfold s2'; cbn. rewrite Htube2. unfold s1'; cbn. rewrite Htube1. cbn.
    unfold lit; cbn. lra. }
  exists s2', (DataService.get_results (SimulationService.data s2')).
  cbn [SimulationService.run_loop].
  change (flt ?x ?y) with (Rltb x y).
  (* first pass *)
  rewrite (proj2 (Rltb_true (SimulationService.time s0) (15 / 1000000)))
    by (cbn; lra).
  rewrite (proj2 (Rltb_true (Capsule.position (SimulationService.capsule s0))
                    (SimulationService.tube_length s0)))
    by (cbn; unfold lit; cbn; lra).
  cbn [andb]. rewrite Hstep1. cbv beta iota. fold s1'.
  (* second pass *)
  rewrite (proj2 (Rltb_true (SimulationService.time s1') (15 / 1000000)))
    by (rewrite Ht1; lra).
  rewrite (proj2 (Rltb_true (Capsule.position (SimulationService.capsule s1'))
                    (SimulationService.tube_length s1')))
    by (unfold s1'; cbn; rewrite Hpos1, Htube1; cbn; unfold lit; cbn; lra).
  cbn [andb]. rewrite Hstep2. cbv beta iota. fold s2'.
  (* exit *)
  rewrite (proj2 (Rltb_false (SimulationService.time s2') (15 / 1000000)))
    by (rewrite Ht2; lra).
  cbn [andb].
  split; [reflexivity|]. split; [exact Ht2|]. split; [rewrite Ht2; lra|].
  assert (Hp2 : Capsule.position (SimulationService.capsule s2') = 0)
    by (unfold s2'; cbn; exact Hpos2).
  split; [exact Hp2|]. rewrite Hp2, Htb2. lra.
Qed.

(** The test service, run for 15 microseconds. *)
Lemma run_terminates_witness :
  exists (fuel : nat) (s' : SimulationService.t R)
         (r : result (SimulationResult.t R)),
    SimulationService.run fuel (15 / 1000000) test_service = Some (Ok (s', r))
    /\ (15 / 1000000 <= SimulationService.time s'
        \/ SimulationService.tube_length s'
           <= Capsule.position (SimulationService.capsule s'))
    /\ (SimulationService.time s' = SimulationService.time test_service
        \/ (SimulationService.time s' < 15 / 1000000 + SimulationService.dt test_service
            /\ exists res,
                 r = Ok res
                 /\ SimulationResult.total_time res
                    = SimulationService.time s' - SimulationService.dt test_service
                 /\ SimulationResult.total_time res < 15 / 1000000)).
Proof.
  apply (@run_terminates test_service (15 / 1000000)).
  - exact test_service_valid.
  - cbn. unfold lit; cbn. lra.
Defined.

(** The test service, asked to run for no time at all: it has no history,
    and [run] raises. *)
Lemma run_without_steps_witness :
  exists s' : SimulationService.t R,
    SimulationService.run_loop 1 0 0 s' = Some (Ok (0%nat, s'))
    /\ SimulationService.capsule s' = SimulationService.capsule test_service
    /\ SimulationService.stages s' = SimulationService.stages test_service
    /\ SimulationService.time s' = SimulationService.time test_service
    /\ DataService.history (SimulationService.data s')
       = DataService.history (SimulationService.data test_service)
    /\ (DataService.history (SimulationService.data test_service) = [] ->
        SimulationService.run 1 0 test_service
        = Some (Ok (s', Raise (ValueError "No data collected - cannot generate results"))))
    /\ (forall (history : list (SimulationRecord.t R)) (record : SimulationRecord.t R),
          DataService.history (SimulationService.data test_service)
          = history ++ [record] ->
          exists res : SimulationResult.t R,
            SimulationService.run 1 0 test_service = Some (Ok (s', Ok res))
            /\ SimulationResult.total_time res = SimulationRecord.time record
            /\ SimulationResult.history res = history ++ [record]).
Proof.
  apply (@run_without_steps test_service 0 0).
  - cbn. lra.
  - left. lra.
Defined.

(** C10, as stated, fails on a service that has run before: the test service
    is run for 15 microseconds and then, without a reset, for no time at
    all.  The second call makes no pass and raises nothing: it returns the
    result of the first run, whose total time is that of the first run's
    last record. *)
Lemma run_without_steps_returns_earlier_result :
  exists (s1 s2 : SimulationService.t R) (res1 res : SimulationResult.t R),
    SimulationService.run 3 (15 / 1000000) test_service = Some (Ok (s1, Ok res1))
    /\ SimulationService.run_loop 1 0 0 s2 = Some (Ok (0%nat, s2))
    /\ SimulationService.run 1 0 s1 = Some (Ok (s2, Ok res))
    /\ SimulationResult.history res = SimulationResult.history res1
    /\ SimulationResult.total_time res = SimulationResult.total_time res1
    /\ SimulationResult.final_position res = SimulationResult.final_position res1
    /\ SimulationResult.final_velocity res = SimulationResult.final_velocity res1
    /\ SimulationResult.total_time res < 15 / 1000000.
Proof.
  set (s0 := SimulationService.with_data test_service
               (DataService.set_initial_energy (SimulationService.data test_service)
                  (pysum (map (@AccelerationStage.stored_energy R _)
                            (SimulationService.stages test_service))))).
  destruct (@run_loop_terminates (15 / 1000000) 2 s0 0%nat)
    as (k & s1 & Hrun & Hexit & _ & Htube & Hsteps).
  { exact test_service_valid. }
  { cbn. unfold lit; cbn. lra. }
  { cbn. unfold lit; cbn. lra. }
  destruct Hsteps as [[_ Hsame] | (_ & history & record & Hhist & _ & Hstamp)].
  { exfalso. subst s1. cbn in Hexit. unfold lit in Hexit; cbn in Hexit. lra. }
  destruct (@run_makes_no_pass s1 0 0)
    as (s2 & Hloop2 & Hrun2 & _ & _ & _ & Hhist2).
  { destruct Hexit as [Hclock | Hpos]; [left; lra | right; exact Hpos]. }
  eexists s1, s2, _, _.
  split.
  { unfold SimulationService.run. fold s0. rewrite Hrun.
    unfold DataService.get_results. rewrite Hhist, rev_unit. reflexivity. }
  split; [exact Hloop2|].
  split.
  { rewrite Hrun2. unfold DataService.get_results.
    rewrite Hhist2, Hhist, rev_unit. reflexivity. }
  cbn. do 4 (split; [reflexivity|]). exact Hstamp.
Qed.

(** ** The loop of [run] on binary64 *)

Lemma test_capsule_binary64_built : test_capsule = Ok test_capsule_binary64.
Proof. vm_compute. reflexivity. Qed.

Lemma float_ltb_nan (x : float) : PrimFloat.ltb x nan = false.
Proof.
  rewrite FloatAxioms.ltb_spec.
  replace (Prim2SF nan) with S754_nan by (vm_compute; reflexivity).
  unfold SFltb. destruct (Prim2SF x) as [sx|sx| |sx mx ex]; reflexivity.
Qed.

Section Binary64Clock.
Context (numpy : NumPy float).

(** With [max_time] a NaN the loop of [run] makes no pass, whatever the
    service: the test [time < max_time] is false. *)
Lemma run_loop_binary64_nan (s : SimulationService.t float) (fuel k : nat) :
  SimulationService.run_loop (S fuel) nan k s = Some (Ok (k, s)).
Proof.
  cbn [SimulationService.run_loop].
  change (flt ?x nan) with (PrimFloat.ltb x nan).
  now rewrite float_ltb_nan.
Qed.

(** On binary64, [run] with [max_time] a NaN on a service that was just
    built exits at once with the clock at 0 and the capsule at the origin,
    inside the tube: the elapsed time compares neither [>=] nor [<=]
    [max_time], and the position does not compare [>=] the tube length. *)
Lemma run_binary64_nan_max_time :
  exists (s' : SimulationService.t float) (r : result (SimulationResult.t float)),
    SimulationService.run 1 nan binary64_service = Some (Ok (s', r))
    /\ SimulationService.run_loop 1 nan 0 s' = Some (Ok (0%nat, s'))
    /\ SimulationService.time s' = 0%float
    /\ PrimFloat.leb nan (SimulationService.time s') = false
    /\ PrimFloat.leb (SimulationService.time s') nan = false
    /\ PrimFloat.leb (SimulationService.tube_length s')
         (Capsule.position (SimulationService.capsule s')) = false.
Proof.
  do 2 eexists.
  split; [vm_compute; reflexivity|].
  split; [apply run_loop_binary64_nan|].
  repeat split; vm_compute; reflexivity.
Qed.

(** With the clock at [2^37] s and a time step of 10 microseconds the sum
    [time + dt] rounds back to [time]: a pass through the loop appends a
    record and leaves the service where it was. *)
Lemma stalled_pass (d : DataService.t float) :
  exists record : SimulationRecord.t float,
    SimulationService._step (stalled_service d)
    = Ok (stalled_service
            (DataService.make (DataService.history d ++ [record])
               (DataService.metadata d)))
    /\ SimulationRecord.time record = 0x1p37%float
    /\ forall d' : DataService.t float,
         SimulationService.with_time (stalled_service d')
           (fadd (SimulationService.time (stalled_service d'))
                 (SimulationService.dt (stalled_service d')))
         = stalled_service d'.
Proof.
  eexists. split; [vm_compute; reflexivity|].
  split; [reflexivity|]. intros d'. vm_compute. reflexivity.
Qed.

(** On binary64 the loop of [run] does not exit once the clock has stopped
    advancing: from the stalled service, with any [max_time] above the clock
    (a finite one, or infinity), no number of passes ends the loop. *)
Lemma run_binary64_stalled_clock (max_time : float) :
  PrimFloat.ltb 0x1p37 max_time = true ->
  forall (fuel k : nat) (d : DataService.t float),
    SimulationService.run_loop fuel max_time k (stalled_service d) = None.
Proof.
  intros Habove. induction fuel as [|fuel IH]; intros k d; [reflexivity|].
  cbn [SimulationService.run_loop].
  change (flt (SimulationService.time (stalled_service d)) max_time)
    with (PrimFloat.ltb 0x1p37 max_time).
  rewrite Habove.
  replace (flt (Capsule.position (SimulationService.capsule (stalled_service d)))
             (SimulationService.tube_length (stalled_service d)))
    with true by (vm_compute; reflexivity).
  cbn [andb].
  destruct (stalled_pass d) as (record & Hstep & _ & Hclock).
  rewrite Hstep, Hclock. apply IH.
Qed.

(** In particular [run] with [max_time] infinite, or [2^38] s, never returns
    from the stalled service. *)
Lemma run_binary64_never_returns (fuel : nat) (d : DataService.t float) :
  SimulationService.run fuel infinity (stalled_service d) = None
  /\ SimulationService.run fuel 0x1p38%float (stalled_service d) = None.
Proof.
  unfold SimulationService.run.
  change (SimulationService.with_data (stalled_service d) ?d') with (stalled_service d').
  rewrite !run_binary64_stalled_clock by (vm_compute; reflexivity).
  split; reflexivity.
Qed.
End Binary64Clock.

(** ** C2: the current of the capsule *)

Lemma near_field_positive (a b : Coil.t R) (d m : R) :
  valid_coil a -> valid_coil b ->
  0 <= d ->
  d < Rmax (CoilProperties.length (Coil.properties a))
           (CoilProperties.length (Coil.properties b)) ->
  PhysicsEngine.calculate_mutual_inductance PhysicsEngine.init a b d = Ok m ->
  0 < m.
Proof.
  intros Ha Hb Hd Hnear Hm.
  rewrite calculate_mutual_inductance_exact in Hm by exact Hd.
  destruct (Rlt_dec d _); [|lra].
  inversion Hm; subst m; clear Hm.
  pose proof (turns_product_positive Ha Hb) as Hn.
  destruct Ha as (_ & Hda & Hla), Hb as (_ & Hdb & Hlb).
  unfold PhysicsEngine._calculate_overlapping_inductance.
  rewrite !R_pymax. simpl.
  set (ref := Rmax _ _) in *.
  assert (Href : 0 < ref) by lra.
  assert (Hs : 0 < sqrt (CoilProperties.diameter (Coil.properties a) / 2
                         * (CoilProperties.diameter (Coil.properties b) / 2))).
  { apply sqrt_lt_R0. nra. }
  assert (H1 : 0 < 1 - d / ref).
  { apply Rlt_0_minus. apply Rdiv_lt_one; lra. }
  rewrite Rmax_right by lra.
  pose proof PI_RGT_0.
  apply Rmult_lt_0_compat; [|exact H1].
  apply Rmult_lt_0_compat; [|exact Hn].
  apply Rmult_lt_0_compat; [lra | exact Hs].
Qed.

Lemma test_capsule_resistance :
  CoilProperties.resistance (Capsule.properties test_capsule_value) = 265 / 100000000.
Proof.
  cbn. unfold Capsule._calculate_resistance, lit; cbn.
  pose proof PI_RGT_0. field. lra.
Qed.

Lemma set_current_spec (coil : Coil.t R) (current : R) :
  (current < 0 ->
   Coil.set_current coil current = Raise (ValueError "Current cannot be negative"))
  /\ (0 <= current ->
      Coil.set_current coil current = Ok (Coil.make (Coil.properties coil) current)).
Proof.
  unfold Coil.set_current. change (flt current (of_int 0)) with (Rltb current 0).
  split; intros Hc.
  - now rewrite (proj2 (Rltb_true current 0)).
  - now rewrite (proj2 (Rltb_false current 0)).
Qed.

(** C2, amended: [set_current] rejects a negative value and stores any other.
    The induction update of the orchestrator neither validates nor clamps: it
    never raises (on a service of valid elements), and with a positive
    capsule resistance it assigns
    [current + 0.1 (emf / R - current)], which is non-negative exactly when
    [emf / R >= -9 current]; with a non-positive resistance it changes
    nothing. *)
Theorem capsule_current_mutations :
  (forall (coil : Coil.t R) (current : R),
      (current < 0 ->
       Coil.set_current coil current = Raise (ValueError "Current cannot be negative"))
      /\ (0 <= current ->
          Coil.set_current coil current = Ok (Coil.make (Coil.properties coil) current)))
  /\ (forall s : SimulationService.t R,
        valid_service s ->
        exists (emf : R) (s' : SimulationService.t R),
          for_each (SimulationService.induced_emf_of s) (SimulationService.stages s) 0
          = Ok emf
          /\ SimulationService._update_capsule_current s = Ok s'
          /\ (0 < CoilProperties.resistance (Capsule.properties (SimulationService.capsule s)) ->
              Capsule.current (SimulationService.capsule s')
              = Capsule.current (SimulationService.capsule s)
                + 1 / 10
                  * (emf / CoilProperties.resistance
                             (Capsule.properties (SimulationService.capsule s))
                     - Capsule.current (SimulationService.capsule s))
              /\ (0 <= Capsule.current (SimulationService.capsule s')
                  <-> - 9 * Capsule.current (SimulationService.capsule s)
                      <= emf / CoilProperties.resistance
                                 (Capsule.properties (SimulationService.capsule s))))
          /\ (CoilProperties.resistance (Capsule.properties (SimulationService.capsule s)) <= 0
              -> s' = s)).
Proof.
  split; [apply set_current_spec|].
  intros s _. destruct (update_capsule_current_exact s) as (emf & Hemf & Hupdate).
  exists emf, (after_current s emf).
  split; [exact Hemf|]. split; [exact Hupdate|].
  unfold after_current. cbv zeta.
  destruct (Rlt_dec 0 _) as [Hpos | Hneg]; split; intros Hr; try lra; try reflexivity.
  cbn. split; [reflexivity|]. lra.
Qed.

(** At the instant of activation an underdamped stage carries no current and
    its current changes at the rate [V / L]. *)
Lemma at_activation (s : AccelerationStage.t R) (t0 : R) :
  AccelerationStage.is_active s = true ->
  AccelerationStage.activation_time s = Some t0 ->
  valid_properties (AccelerationStage.properties s) ->
  0 <= CoilProperties.resistance (AccelerationStage.properties s) ->
  damping s < natural_frequency s ->
  AccelerationStage.get_current s t0 = 0
  /\ AccelerationStage.get_current_derivative s t0
     = AccelerationStage.voltage s / solenoid_inductance (AccelerationStage.properties s).
Proof.
  intros Hactive Ht0 Hvalid HR Hunder.
  pose proof (solenoid_inductance_positive Hvalid) as HL.
  assert (Ha : 0 <= damping s).
  { unfold damping. apply Rmult_le_pos; [exact HR|].
    apply Rlt_le. apply Rinv_0_lt_compat. lra. }
  assert (Hw : 0 < damped_frequency s).
  { unfold damped_frequency. apply sqrt_lt_R0. nra. }
  split.
  - rewrite (get_current_after_activation s Hactive Ht0) by lra.
    unfold discharge_waveform. destruct (Rlt_dec _ _); [|lra].
    unfold underdamped_current.
    replace (t0 - t0) with 0 by ring.
    rewrite !Rmult_0_r, sin_0, Rmult_0_r. apply Rmax_left. lra.
  - rewrite (get_current_derivative_after_activation s Hactive Ht0) by lra.
    destruct (Rlt_dec _ _); [|lra].
    replace (t0 - t0) with 0 by ring.
    rewrite !Rmult_0_r, sin_0, cos_0, exp_0. field. lra.
Qed.

Lemma stage_at_origin_fires (s : SimulationService.t R) (voltage : R) :
  SimulationService.stages s = [stage_at_origin voltage] ->
  Capsule.position (SimulationService.capsule s) = 0 ->
  SimulationService.stages (SimulationService._check_stage_activations s)
  = [AccelerationStage.activate (stage_at_origin voltage) (SimulationService.time s)].
Proof.
  intros Hstages Hpos.
  unfold SimulationService._check_stage_activations. cbn. rewrite Hstages, Hpos. cbn.
  rewrite R_pymax. unfold lit; cbn.
  replace (0 - 0) with 0 by ring.
  rewrite Rabs_R0, Rmax_left by lra.
  now rewrite (proj2 (Rleb_true 0 (5 / 100))) by lra.
Qed.

Lemma stage_at_origin_valid (voltage t0 : R) :
  valid_stage (AccelerationStage.activate (stage_at_origin voltage) t0).
Proof. unfold valid_stage, valid_properties; cbn. repeat split; [lia | lra | lra]. Qed.

Lemma stage_at_origin_underdamped (voltage t0 : R) :
  0 <= CoilProperties.resistance
         (AccelerationStage.properties
            (AccelerationStage.activate (stage_at_origin voltage) t0))
  /\ damping (AccelerationStage.activate (stage_at_origin voltage) t0)
     < natural_frequency (AccelerationStage.activate (stage_at_origin voltage) t0).
Proof.
  split.
  - change (CoilProperties.resistance _)
      with (AccelerationStage._calculate_copper_resistance (F:=R) 100 (9 / 100) (5 / 100)).
    rewrite test_stage_resistance. lra.
  - change (damping _) with (damping fired_test_stage).
    change (natural_frequency _) with (natural_frequency fired_test_stage).
    pose proof test_stage_underdamped. lra.
Qed.

(** The EMF induced in the test capsule, at rest at the origin, by the one
    fired stage at the origin: the mutual inductance, which is positive,
    times the rate of the stage's current. *)
Lemma emf_of_stage_at_origin (s : SimulationService.t R) (voltage t0 : R) :
  SimulationService.capsule s = test_capsule_value ->
  SimulationService.physics s = PhysicsEngine.init ->
  SimulationService.stages s
  = [AccelerationStage.activate (stage_at_origin voltage) t0] ->
  exists m emf : R,
    0 < m
    /\ for_each (SimulationService.induced_emf_of s) (SimulationService.stages s) 0 = Ok emf
    /\ emf = m * AccelerationStage.get_current_derivative
                   (AccelerationStage.activate (stage_at_origin voltage) t0)
                   (SimulationService.time s).
Proof.
  intros Hcapsule Hphysics Hstages.
  set (fired := AccelerationStage.activate (stage_at_origin voltage) t0) in *.
  rewrite Hstages. cbn [for_each].
  unfold SimulationService.induced_emf_of.
  change (AccelerationStage.is_active fired) with true. cbv iota.
  rewrite Hcapsule, Hphysics.
  set (d := pymax (lit 1 1000) _).
  assert (Hd : d = 1 / 1000).
  { unfold d. rewrite R_pymax. unfold lit; cbn.
    replace (0 - 0) with 0 by ring. rewrite Rabs_R0. apply Rmax_left. lra. }
  destruct (calculate_mutual_inductance_ok PhysicsEngine.init
              (AccelerationStage.coil fired) (Capsule.coil test_capsule_value) (d := d))
    as (m & Hm); [lra|].
  assert (Hmpos : 0 < m).
  { apply (@near_field_positive (AccelerationStage.coil fired)
             (Capsule.coil test_capsule_value) d m).
    - apply (stage_at_origin_valid voltage t0).
    - apply test_capsule_valid.
    - lra.
    - cbn. rewrite Rmax_left; lra.
    - exact Hm. }
  rewrite Hm. cbn [bind].
  destruct (gradient_ok s fired d) as (g & Hg).
  rewrite Hg. cbn [bind].
  exists m. eexists. split; [exact Hmpos|]. split; [reflexivity|].
  cbn. ring.
Qed.

(** C2, as stated, fails: the test capsule at rest next to a stage charged to
    -400 V.  One step of [run] fires the stage; its current rises from 0 at the
    rate [V / L < 0], the induced EMF is negative, and the step leaves the
    capsule with a negative current. *)
Lemma capsule_current_goes_negative :
  exists (s' : SimulationService.t R) (r : result (SimulationResult.t R)),
    SimulationService.run 2 (1 / 100000) reversed_service = Some (Ok (s', r))
    /\ Capsule.current (SimulationService.capsule reversed_service) = 0
    /\ Capsule.current (SimulationService.capsule s') < 0.
Proof.
  unfold SimulationService.run.
  set (s0 := SimulationService.with_data reversed_service _).
  destruct (step_exact s0 test_capsule_valid) as (emf & force & Hemf & Hforce & Hstep).
  pose proof (@stage_at_origin_fires s0 (- 400) eq_refl eq_refl) as Hfire.
  set (s1 := SimulationService._check_stage_activations s0) in *.
  change (SimulationService.time s0) with 0 in Hfire.
  set (fired := AccelerationStage.activate (stage_at_origin (- 400)) 0) in *.
  (* the induced EMF *)
  destruct (@emf_of_stage_at_origin s1 (- 400) 0 eq_refl eq_refl Hfire)
    as (m & emf' & Hm & Hemf' & Hvalue).
  rewrite Hemf in Hemf'. injection Hemf' as Heq. rewrite <- Heq in Hvalue. clear Heq.
  destruct (stage_at_origin_underdamped (- 400) 0) as (HR & Hunder).
  destruct (@at_activation fired 0 eq_refl eq_refl
              (stage_at_origin_valid (- 400) 0) HR Hunder) as (_ & Hrate).
  change (SimulationService.time s1) with 0 in Hvalue. fold fired in Hvalue.
  rewrite Hrate in Hvalue.
  assert (HL : 0 < solenoid_inductance (AccelerationStage.properties fired)).
  { apply solenoid_inductance_positive. apply (stage_at_origin_valid (- 400) 0). }
  assert (Hneg : emf < 0).
  { assert (Hinv : 0 < / solenoid_inductance (AccelerationStage.properties fired))
      by (apply Rinv_0_lt_compat; exact HL).
    rewrite Hvalue. change (AccelerationStage.voltage fired) with (- 400).
    unfold Rdiv. nra. }
  (* the loop: one pass, then the clock has reached max_time *)
  destruct (after_step_frame s1 emf force)
    as (Htime & Hdt & Htube & _ & _ & Hcurrent & Hx & _).
  set (s2 := after_step s1 emf force) in *.
  set (s2' := SimulationService.with_time s2
                (fadd (SimulationService.time s2) (SimulationService.dt s2))).
  exists s2', (DataService.get_results (SimulationService.data s2')).
  cbn [SimulationService.run_loop].
  change (flt ?x ?y) with (Rltb x y).
  rewrite (proj2 (Rltb_true (SimulationService.time s0) (1 / 100000))) by (cbn; lra).
  rewrite (proj2 (Rltb_true (Capsule.position (SimulationService.capsule s0))
                    (SimulationService.tube_length s0)))
    by (cbn; unfold lit; cbn; lra).
  cbn [andb]. rewrite Hstep. cbv beta iota. fold s2'.
  assert (Ht2 : SimulationService.time s2' = 1 / 100000).
  { unfold s2', SimulationService.with_time. cbn [SimulationService.time].
    rewrite Htime, Hdt. cbn. unfold lit; cbn. lra. }
  rewrite (proj2 (Rltb_false (SimulationService.time s2') (1 / 100000)))
    by (rewrite Ht2; lra).
  cbn [andb].
  split; [reflexivity|]. split; [reflexivity|].
  change (SimulationService.capsule s2') with (SimulationService.capsule s2).
  rewrite Hcurrent. unfold after_current. cbv zeta.
  change (SimulationService.capsule s1) with test_capsule_value.
  rewrite test_capsule_resistance.
  destruct (Rlt_dec 0 (265 / 100000000)); [|lra].
  cbn.
  assert (emf / (265 / 100000000) < 0).
  { unfold Rdiv. apply Ropp_lt_cancel. rewrite Ropp_0, Ropp_mult_distr_l.
    apply Rmult_lt_0_compat; [lra|]. apply Rinv_0_lt_compat. lra. }
  lra.
Qed.

(** The same with the stage charged to +400 V: some time after it fired, its
    current is clamped at 0 while its waveform is falling; the induction
    update, applied to the capsule at rest beside it, assigns a negative
    current. *)
Lemma capsule_current_negative_while_stage_clamped :
  exists (t : R) (s' : SimulationService.t R),
    0 <= t
    /\ SimulationService._update_capsule_current (discharging_service t) = Ok s'
    /\ Capsule.current (SimulationService.capsule (discharging_service t)) = 0
    /\ Capsule.current (SimulationService.capsule s') < 0.
Proof.
  set (fired := AccelerationStage.activate (stage_at_origin 400) 0).
  destruct (stage_at_origin_underdamped 400 0) as (HR & Hunder).
  destruct (@clamped_current_with_negative_derivative fired 0 eq_refl eq_refl
              (stage_at_origin_valid 400 0) HR) as (t & Ht & _ & _ & Hrate);
    [cbn; lra | exact Hunder |].
  exists t.
  destruct (update_capsule_current_exact (discharging_service t))
    as (emf & Hemf & Hupdate).
  destruct (@emf_of_stage_at_origin (discharging_service t) 400 0
              eq_refl eq_refl eq_refl) as (m & emf' & Hm & Hemf' & Hvalue).
  rewrite Hemf in Hemf'. injection Hemf' as Heq. rewrite <- Heq in Hvalue. clear Heq.
  change (SimulationService.time (discharging_service t)) with t in Hvalue.
  fold fired in Hvalue.
  assert (Hneg : emf < 0) by (rewrite Hvalue; nra).
  exists (after_current (discharging_service t) emf).
  split; [exact Ht|]. split; [exact Hupdate|]. split; [reflexivity|].
  unfold after_current. cbv zeta.
  change (SimulationService.capsule (discharging_service t)) with test_capsule_value.
  rewrite test_capsule_resistance.
  destruct (Rlt_dec 0 (265 / 100000000)); [|lra].
  cbn.
  assert (emf / (265 / 100000000) < 0).
  { unfold Rdiv. apply Ropp_lt_cancel. rewrite Ropp_0, Ropp_mult_distr_l.
    apply Rmult_lt_0_compat; [lra|]. apply Rinv_0_lt_compat. lra. }
  lra.
Qed.

(** The test service before its first step, and a current of -1 A. *)
Lemma capsule_current_mutations_witness :
  Coil.set_current (Capsule.coil test_capsule_value) (- 1)
  = Raise (ValueError "Current cannot be negative")
  /\ exists (emf : R) (s' : SimulationService.t R),
       for_each (SimulationService.induced_emf_of test_service)
         (SimulationService.stages test_service) 0 = Ok emf
       /\ SimulationService._update_capsule_current test_service = Ok s'
       /\ Capsule.current (SimulationService.capsule s')
          = Capsule.current (SimulationService.capsule test_service)
            + 1 / 10
              * (emf / CoilProperties.resistance
                         (Capsule.properties (SimulationService.capsule test_service))
                 - Capsule.current (SimulationService.capsule test_service)).
Proof.
  destruct capsule_current_mutations as [Hset Hupdate].
  split; [apply (Hset (Capsule.coil test_capsule_value) (- 1)); lra|].
  destruct (Hupdate test_service test_service_valid)
    as (emf & s' & Hemf & Hup & Hpos & _).
  exists emf, s'. split; [exact Hemf|]. split; [exact Hup|].
  apply Hpos.
  change (SimulationService.capsule test_service) with test_capsule_value.
  rewrite test_capsule_resistance. lra.
Defined.

(** * Further properties of the code *)

(** ** Construction: src/core/coil.py, capsule.py, acceleration_stage.py *)

(** X1: on binary64 the validation of [CoilProperties] succeeds exactly when
    the turns are at least 1 and neither the diameter nor the length compares
    [<= 0].  A NaN compares false with everything, so a NaN diameter and a
    NaN length pass the validation. *)
Theorem CoilProperties_validation_binary64
    (turns : Z) (diameter length resistance position : float) :
  (CoilProperties.init turns diameter length resistance position
   = Ok (CoilProperties.make turns diameter length resistance position)
   <-> (1 <= turns)%Z
       /\ PrimFloat.leb diameter (of_int 0) = false
       /\ PrimFloat.leb length (of_int 0) = false)
  /\ ((1 <= turns)%Z ->
      CoilProperties.init turns nan nan resistance position
      = Ok (CoilProperties.make turns nan nan resistance position)).
Proof.
  split.
  - unfold CoilProperties.init.
    change (fle ?x ?y) with (PrimFloat.leb x y).
    destruct (turns <=? 0)%Z eqn:Ht.
    + apply Z.leb_le in Ht. split; [discriminate | intros (H1 & _); lia].
    + apply Z.leb_gt in Ht.
      destruct (PrimFloat.leb diameter (of_int 0)) eqn:Hd.
      * split; [discriminate | intros (_ & H2 & _); discriminate].
      * destruct (PrimFloat.leb length (of_int 0)) eqn:Hl.
        -- split; [discriminate | intros (_ & _ & H3); discriminate].
        -- split; [intros _; repeat split; lia | reflexivity].
  - intros Ht. unfold CoilProperties.init.
    rewrite (proj2 (Z.leb_gt turns 0)) by lia. reflexivity.
Qed.

(** X2: [Capsule.__init__] checks the mass first, then the geometry through
    [CoilProperties]; a capsule that is built is a single-turn conductor at
    rest at the origin, carrying no current, with its properties' position
    at 0 as well. *)
Theorem Capsule_init_spec (mass diameter length : R) :
  (mass <= 0 ->
   Capsule.init mass diameter length = Raise (ValueError "Mass must be positive"))
  /\ (0 < mass -> diameter < 0 ->
      Capsule.init mass diameter length = Raise (ValueError "Diameter must be positive"))
  /\ (0 < mass -> 0 < diameter -> length <= 0 ->
      Capsule.init mass diameter length = Raise (ValueError "Length must be positive"))
  /\ (0 < mass -> 0 < diameter -> 0 < length ->
      exists c : Capsule.t R,
        Capsule.init mass diameter length = Ok c
        /\ Capsule.mass c = mass
        /\ Capsule.position c = 0
        /\ Capsule.velocity c = 0
        /\ Capsule.current c = 0
        /\ CoilProperties.turns (Capsule.properties c) = 1%Z
        /\ CoilProperties.diameter (Capsule.properties c) = diameter
        /\ CoilProperties.length (Capsule.properties c) = length
        /\ CoilProperties.position (Capsule.properties c) = 0
        /\ valid_capsule c).
Proof.
  unfold Capsule.init, CoilProperties.init.
  change (fle ?x ?y) with (Rleb x y).
  change (of_int 0) with 0.
  repeat split.
  - intros Hm. now rewrite (proj2 (Rleb_true mass 0)) by exact Hm.
  - intros Hm Hd. rewrite (proj2 (Rleb_false mass 0)) by exact Hm.
    cbv zeta. cbn [Z.leb Z.compare bind].
    now rewrite (proj2 (Rleb_true diameter 0)) by lra.
  - intros Hm Hd Hl. rewrite (proj2 (Rleb_false mass 0)) by exact Hm.
    cbv zeta. cbn [Z.leb Z.compare bind].
    rewrite (proj2 (Rleb_false diameter 0)) by lra.
    now rewrite (proj2 (Rleb_true length 0)) by lra.
  - intros Hm Hd Hl. rewrite (proj2 (Rleb_false mass 0)) by exact Hm.
    cbv zeta. cbn [Z.leb Z.compare bind].
    rewrite (proj2 (Rleb_false diameter 0)) by lra.
    rewrite (proj2 (Rleb_false length 0)) by lra.
    eexists. split; [reflexivity|].
    unfold valid_capsule, valid_properties. cbn.
    repeat split; try reflexivity; try lia; assumption.
Qed.

(** X3: the resistance of the capsule does not depend on its geometry: the
    circumference [pi d] cancels against the area [pi d * 0.01], and every
    capsule of non-zero diameter has [2.65e-8 / 0.01] ohm, whatever its
    diameter and its length. *)
Theorem capsule_resistance_constant (diameter length : R) :
  diameter <> 0 ->
  Capsule._calculate_resistance diameter length = 265 / 100000000.
Proof.
  intros Hd. unfold Capsule._calculate_resistance, lit; simpl.
  pose proof PI_RGT_0. field. split; lra.
Qed.

Lemma capsule_resistance_constant_witness :
  Capsule._calculate_resistance (83 / 1000) (2 / 100) = 265 / 100000000.
Proof. apply capsule_resistance_constant. lra. Defined.

(** X4: the copper resistance of a stage is proportional to the number of
    turns and to the diameter, [rho N d / (w / 2)^2] with [w] the wire
    diameter of 1.628 mm; it does not depend on the length of the coil, and
    it is positive for a coil the constructor accepts. *)
Theorem copper_resistance_spec (turns : Z) (diameter length : R) :
  AccelerationStage._calculate_copper_resistance turns diameter length
  = 168 / 10000000000 * (IZR turns * diameter)
    / ((1628 / 1000000 / 2) * (1628 / 1000000 / 2))
  /\ (forall length' : R,
        AccelerationStage._calculate_copper_resistance turns diameter length'
        = AccelerationStage._calculate_copper_resistance turns diameter length)
  /\ ((1 <= turns)%Z -> 0 < diameter ->
      0 < AccelerationStage._calculate_copper_resistance turns diameter length).
Proof.
  assert (Hformula :
    AccelerationStage._calculate_copper_resistance turns diameter length
    = 168 / 10000000000 * (IZR turns * diameter)
      / ((1628 / 1000000 / 2) * (1628 / 1000000 / 2))).
  { unfold AccelerationStage._calculate_copper_resistance, lit, pow2; simpl.
    pose proof PI_RGT_0. field. lra. }
  split; [exact Hformula|]. split; [reflexivity|].
  intros Ht Hd. rewrite Hformula.
  assert (0 < IZR turns) by (apply IZR_lt; lia).
  apply Rdiv_lt_0_compat; [|lra].
  apply Rmult_lt_0_compat; [lra|]. now apply Rmult_lt_0_compat.
Qed.

(** X5: the inductance of a coil is the solenoid value
    [mu_0 (N / l)^2 (pi (d / 2)^2) l = pi^2 N^2 d^2 / (10^7 l)], and it is
    positive for a coil the constructor accepts. *)
Theorem coil_inductance_closed_form (c : Coil.t R) :
  valid_coil c ->
  Coil.inductance c
  = PI * PI * (IZR (CoilProperties.turns (Coil.properties c))
               * IZR (CoilProperties.turns (Coil.properties c)))
    * (CoilProperties.diameter (Coil.properties c)
       * CoilProperties.diameter (Coil.properties c))
    / (10000000 * CoilProperties.length (Coil.properties c))
  /\ 0 < Coil.inductance c.
Proof.
  intros (Ht & Hd & Hl).
  assert (Hformula :
    Coil.inductance c
    = PI * PI * (IZR (CoilProperties.turns (Coil.properties c))
                 * IZR (CoilProperties.turns (Coil.properties c)))
      * (CoilProperties.diameter (Coil.properties c)
         * CoilProperties.diameter (Coil.properties c))
      / (10000000 * CoilProperties.length (Coil.properties c))).
  { unfold Coil.inductance, Coil._calculate_inductance, lit, pow2; simpl.
    field. lra. }
  split; [exact Hformula|]. rewrite Hformula.
  assert (0 < IZR (CoilProperties.turns (Coil.properties c))) by (apply IZR_lt; lia).
  pose proof PI_RGT_0.
  apply Rdiv_lt_0_compat; [|lra].
  apply Rmult_lt_0_compat; [apply Rmult_lt_0_compat|]; nra.
Qed.

(** The coil of the test stage: 100 turns, 9 cm across, 5 cm long. *)
Lemma coil_inductance_closed_form_witness :
  Coil.inductance (AccelerationStage.coil test_stage_value)
  = PI * PI * (IZR 100 * IZR 100) * (9 / 100 * (9 / 100)) / (10000000 * (5 / 100))
  /\ 0 < Coil.inductance (AccelerationStage.coil test_stage_value).
Proof.
  apply (@coil_inductance_closed_form (AccelerationStage.coil test_stage_value)).
  unfold valid_coil, valid_properties; simpl. repeat split; [lia | lra | lra].
Defined.

(** ** Kinematics: src/physics/physics_engine.py, src/core/capsule.py *)

(** X6: on a capsule as the constructor builds it, [update_kinematics] does
    not raise; the new position is [x + v dt + 0.5 (F / m) dt^2] with the
    velocity [v] from before the call, the new velocity is [v + (F / m) dt],
    the position inside the properties moves with the capsule, and mass,
    current and geometry are left alone. *)
Theorem update_kinematics_spec
    (pe : PhysicsEngine.t R) (c : Capsule.t R) (force dt : R) :
  valid_capsule c ->
  exists c' : Capsule.t R,
    PhysicsEngine.update_kinematics pe c force dt = Ok c'
    /\ Capsule.position c'
       = Capsule.position c + Capsule.velocity c * dt
         + 1 / 2 * (force / Capsule.mass c) * (dt * dt)
    /\ Capsule.velocity c' = Capsule.velocity c + force / Capsule.mass c * dt
    /\ CoilProperties.position (Capsule.properties c') = Capsule.position c'
    /\ Capsule.mass c' = Capsule.mass c
    /\ Capsule.current c' = Capsule.current c
    /\ valid_capsule c'.
Proof.
  intros Hvalid. rewrite (update_kinematics_exact pe force dt Hvalid).
  eexists. split; [reflexivity|].
  unfold moved; cbn.
  split; [set (a := force / Capsule.mass c); field|].
  do 4 (split; [reflexivity|]). exact Hvalid.
Qed.

(** The test capsule pushed by 2 N for 1 s. *)
Lemma update_kinematics_spec_witness :
  exists c' : Capsule.t R,
    PhysicsEngine.update_kinematics PhysicsEngine.init test_capsule_value 2 1 = Ok c'
    /\ Capsule.position c'
       = Capsule.position test_capsule_value + Capsule.velocity test_capsule_value * 1
         + 1 / 2 * (2 / Capsule.mass test_capsule_value) * (1 * 1)
    /\ Capsule.velocity c'
       = Capsule.velocity test_capsule_value + 2 / Capsule.mass test_capsule_value * 1
    /\ CoilProperties.position (Capsule.properties c') = Capsule.position c'
    /\ Capsule.mass c' = Capsule.mass test_capsule_value
    /\ Capsule.current c' = Capsule.current test_capsule_value
    /\ valid_capsule c'.
Proof.
  apply (@update_kinematics_spec PhysicsEngine.init test_capsule_value 2 1).
  exact test_capsule_valid.
Defined.

(** X7: the step of [update_kinematics] obeys the work-energy theorem and
    the impulse law exactly: the kinetic energy grows by the force times the
    distance covered, and the momentum by the force times the time step. *)
Theorem update_kinematics_work_energy
    (pe : PhysicsEngine.t R) (c : Capsule.t R) (force dt : R) :
  valid_capsule c ->
  exists c' : Capsule.t R,
    PhysicsEngine.update_kinematics pe c force dt = Ok c'
    /\ Capsule.get_kinetic_energy c' - Capsule.get_kinetic_energy c
       = force * (Capsule.position c' - Capsule.position c)
    /\ Capsule.get_momentum c' - Capsule.get_momentum c = force * dt.
Proof.
  intros Hvalid. rewrite (update_kinematics_exact pe force dt Hvalid).
  destruct Hvalid as [_ Hm].
  eexists. split; [reflexivity|].
  unfold moved, Capsule.get_kinetic_energy, Capsule.get_momentum, lit, pow2; cbn.
  split; field; lra.
Qed.

Lemma update_kinematics_work_energy_witness :
  exists c' : Capsule.t R,
    PhysicsEngine.update_kinematics PhysicsEngine.init test_capsule_value 2 1 = Ok c'
    /\ Capsule.get_kinetic_energy c' - Capsule.get_kinetic_energy test_capsule_value
       = 2 * (Capsule.position c' - Capsule.position test_capsule_value)
    /\ Capsule.get_momentum c' - Capsule.get_momentum test_capsule_value = 2 * 1.
Proof.
  apply (@update_kinematics_work_energy PhysicsEngine.init test_capsule_value 2 1).
  exact test_capsule_valid.
Defined.

(** X8: [Capsule.apply_force] and [PhysicsEngine.update_kinematics] give the
    same velocity for the same force and time step, but not the same
    position: [apply_force] lands [(F / m) dt^2] further, and its gain in
    kinetic energy falls short of the work [F (x' - x)] by [F (F / m) dt^2]. *)
Theorem apply_force_overshoots_update_kinematics
    (pe : PhysicsEngine.t R) (c : Capsule.t R) (force dt : R) :
  valid_capsule c ->
  exists ca ck : Capsule.t R,
    Capsule.apply_force c force dt = Ok ca
    /\ PhysicsEngine.update_kinematics pe c force dt = Ok ck
    /\ Capsule.velocity ca = Capsule.velocity ck
    /\ Capsule.position ca = Capsule.position ck + force / Capsule.mass c * (dt * dt)
    /\ Capsule.get_kinetic_energy ca - Capsule.get_kinetic_energy c
       = force * (Capsule.position ca - Capsule.position c)
         - force * (force / Capsule.mass c) * (dt * dt).
Proof.
  intros Hvalid. rewrite (update_kinematics_exact pe force dt Hvalid).
  unfold Capsule.apply_force.
  rewrite update_position_exact by exact (proj1 Hvalid).
  destruct Hvalid as [_ Hm].
  do 2 eexists. split; [reflexivity|]. split; [reflexivity|].
  unfold moved, Capsule.get_kinetic_energy, lit, pow2; cbn.
  split; [reflexivity|]. split; field; lra.
Qed.

Lemma apply_force_overshoots_update_kinematics_witness :
  exists ca ck : Capsule.t R,
    Capsule.apply_force test_capsule_value 2 1 = Ok ca
    /\ PhysicsEngine.update_kinematics PhysicsEngine.init test_capsule_value 2 1 = Ok ck
    /\ Capsule.velocity ca = Capsule.velocity ck
    /\ Capsule.position ca
       = Capsule.position ck + 2 / Capsule.mass test_capsule_value * (1 * 1)
    /\ Capsule.get_kinetic_energy ca - Capsule.get_kinetic_energy test_capsule_value
       = 2 * (Capsule.position ca - Capsule.position test_capsule_value)
         - 2 * (2 / Capsule.mass test_capsule_value) * (1 * 1).
Proof.
  apply (@apply_force_overshoots_update_kinematics PhysicsEngine.init
           test_capsule_value 2 1).
  exact test_capsule_valid.
Defined.

(** ** Energy: src/core/acceleration_stage.py, src/physics/physics_engine.py *)

Lemma get_energy_transferred_after (s : AccelerationStage.t R) (t t0 : R) :
  AccelerationStage.is_active s = true ->
  AccelerationStage.activation_time s = Some t0 ->
  t0 <= t ->
  AccelerationStage.get_energy_transferred s t
  = AccelerationStage.stored_energy s
    - AccelerationStage.stored_energy s
      * exp (- (t - t0) / (CoilProperties.resistance (AccelerationStage.properties s)
                           * AccelerationStage.capacitance s)).
Proof.
  intros Hactive Ht0 Hle. unfold AccelerationStage.get_energy_transferred.
  rewrite Hactive, Ht0. cbn [negb].
  change (flt ?x ?y) with (Rltb x y).
  rewrite (proj2 (Rltb_false t t0)) by exact Hle. reflexivity.
Qed.

Lemma exp_le_one (x : R) : x <= 0 -> exp x <= 1.
Proof.
  intros [Hlt | Heq].
  - left. rewrite <- exp_0. now apply exp_increasing.
  - rewrite Heq, exp_0. lra.
Qed.

(** X9: the energy a fired stage reports as transferred starts at 0 at the
    activation time, never decreases afterwards, and stays between 0 and the
    stored energy [0.5 C V^2]; before the activation time, and for a stage
    that is not active, it is 0.  The resistance and the capacitance are
    positive, so that the time constant [R C] is. *)
Theorem energy_transferred_bounds (s : AccelerationStage.t R) (t0 : R) :
  AccelerationStage.is_active s = true ->
  AccelerationStage.activation_time s = Some t0 ->
  0 < CoilProperties.resistance (AccelerationStage.properties s) ->
  0 < AccelerationStage.capacitance s ->
  AccelerationStage.get_energy_transferred s t0 = 0
  /\ (forall t : R,
        t < t0 -> AccelerationStage.get_energy_transferred s t = 0)
  /\ (forall t : R,
        t0 <= t ->
        0 <= AccelerationStage.get_energy_transferred s t
        <= AccelerationStage.stored_energy s)
  /\ (forall t1 t2 : R,
        t0 <= t1 <= t2 ->
        AccelerationStage.get_energy_transferred s t1
        <= AccelerationStage.get_energy_transferred s t2)
  /\ AccelerationStage.get_energy_transferred (AccelerationStage.reset s) t0 = 0.
Proof.
  intros Hactive Ht0 HR HC.
  set (tau := CoilProperties.resistance (AccelerationStage.properties s)
              * AccelerationStage.capacitance s).
  assert (Htau : 0 < tau) by (unfold tau; now apply Rmult_lt_0_compat).
  assert (HE : 0 <= AccelerationStage.stored_energy s).
  { unfold AccelerationStage.stored_energy, lit, pow2; simpl.
    apply Rmult_le_pos; [lra | nra]. }
  assert (Hneg : forall t, t0 <= t -> - (t - t0) / tau <= 0).
  { intros t Hle. unfold Rdiv.
    assert (0 < / tau) by now apply Rinv_0_lt_compat.
    nra. }
  split; [|split; [|split; [|split]]].
  - rewrite (get_energy_transferred_after s Hactive Ht0) by lra.
    replace (- (t0 - t0) / _) with 0 by (unfold Rdiv; ring).
    rewrite exp_0. ring.
  - intros t Hlt. unfold AccelerationStage.get_energy_transferred.
    rewrite Hactive, Ht0. cbn [negb].
    change (flt ?x ?y) with (Rltb x y).
    now rewrite (proj2 (Rltb_true t t0)) by exact Hlt.
  - intros t Hle.
    rewrite (get_energy_transferred_after s Hactive Ht0 Hle). fold tau.
    pose proof (exp_pos (- (t - t0) / tau)) as Hpos.
    pose proof (exp_le_one (Hneg t Hle)) as Hone.
    nra.
  - intros t1 t2 [H1 H12].
    rewrite !(get_energy_transferred_after s Hactive Ht0) by lra. fold tau.
    assert (Hmono : exp (- (t2 - t0) / tau) <= exp (- (t1 - t0) / tau)).
    { destruct H12 as [Hlt | Heq]; [|rewrite Heq; lra].
      left. apply exp_increasing. unfold Rdiv.
      assert (0 < / tau) by now apply Rinv_0_lt_compat.
      nra. }
    nra.
  - reflexivity.
Qed.

(** The test stage, fired at time 0: its resistance is positive. *)
Lemma energy_transferred_bounds_witness :
  AccelerationStage.get_energy_transferred fired_test_stage 0 = 0
  /\ (forall t : R,
        t < 0 -> AccelerationStage.get_energy_transferred fired_test_stage t = 0)
  /\ (forall t : R,
        0 <= t ->
        0 <= AccelerationStage.get_energy_transferred fired_test_stage t
        <= AccelerationStage.stored_energy fired_test_stage)
  /\ (forall t1 t2 : R,
        0 <= t1 <= t2 ->
        AccelerationStage.get_energy_transferred fired_test_stage t1
        <= AccelerationStage.get_energy_transferred fired_test_stage t2)
  /\ AccelerationStage.get_energy_transferred
       (AccelerationStage.reset fired_test_stage) 0 = 0.
Proof.
  apply (@energy_transferred_bounds fired_test_stage 0 eq_refl eq_refl).
  - change (CoilProperties.resistance (AccelerationStage.properties fired_test_stage))
      with (AccelerationStage._calculate_copper_resistance (F:=R) 100 (9 / 100) (5 / 100)).
    rewrite test_stage_resistance. lra.
  - simpl. lra.
Defined.

(** X10: [calculate_energy_transfer] never raises: the distance it passes
    on is an absolute value.  The energy it returns is never negative, is 0
    when both currents are below a microampere in size, and is the same when
    the two coils are exchanged together with their currents and rates. *)
Theorem energy_transfer_nonnegative_symmetric
    (pe : PhysicsEngine.t R) (a b : Coil.t R) (i1 i2 rate1 rate2 time_step : R) :
  exists e : R,
    PhysicsEngine.calculate_energy_transfer pe a b i1 i2 rate1 rate2 time_step = Ok e
    /\ 0 <= e
    /\ PhysicsEngine.calculate_energy_transfer pe b a i2 i1 rate2 rate1 time_step = Ok e
    /\ (Rabs i1 < 1 / 1000000 -> Rabs i2 < 1 / 1000000 -> e = 0).
Proof.
  unfold PhysicsEngine.calculate_energy_transfer.
  change (flt ?x ?y) with (Rltb x y).
  change (fabs ?x) with (Rabs x).
  change (lit 1 1000000) with (1 / 1000000).
  rewrite (andb_comm (Rltb (Rabs i2) _)).
  destruct (Rltb (Rabs i1) (1 / 1000000) && Rltb (Rabs i2) (1 / 1000000)) eqn:Hsmall.
  - exists 0. repeat split; try reflexivity; simpl; lra.
  - cbv zeta.
    rewrite (exact_mutual_inductance_symmetric pe b a).
    change (fsub ?x ?y) with (x - y).
    rewrite (Rabs_minus_sym (CoilProperties.position (Coil.properties b))).
    destruct (@calculate_mutual_inductance_ok pe a b
                (Rabs (CoilProperties.position (Coil.properties a)
                       - CoilProperties.position (Coil.properties b))))
      as (m & Hm); [apply Rabs_pos|].
    rewrite Hm. cbn [bind].
    eexists. split; [reflexivity|]. split; [apply Rabs_pos|]. split.
    + f_equal. f_equal. simpl. ring.
    + intros H1 H2.
      rewrite (proj2 (Rltb_true _ _) H1), (proj2 (Rltb_true _ _) H2) in Hsmall.
      discriminate.
Qed.

(** ** Mutual inductance and force: src/physics/physics_engine.py *)

(** X11: [calculate_mutual_inductance] raises exactly for a negative
    distance; for two coils the constructors accept and a distance that is
    not negative it returns a positive inductance, and at distance 0 that is
    the full overlap value [mu_0 sqrt(r1 r2) sqrt(N1 N2)]. *)
Theorem mutual_inductance_domain (a b : Coil.t R) (d : R) :
  (d < 0 ->
   PhysicsEngine.calculate_mutual_inductance PhysicsEngine.init a b d
   = Raise (ValueError "Distance cannot be negative"))
  /\ (valid_coil a -> valid_coil b -> 0 <= d ->
      exists m : R,
        PhysicsEngine.calculate_mutual_inductance PhysicsEngine.init a b d = Ok m
        /\ 0 < m)
  /\ (valid_coil a -> valid_coil b ->
      PhysicsEngine.calculate_mutual_inductance PhysicsEngine.init a b 0
      = Ok (4 * PI * (1 / 10000000)
            * sqrt (CoilProperties.diameter (Coil.properties a) / 2
                    * (CoilProperties.diameter (Coil.properties b) / 2))
            * sqrt (IZR (CoilProperties.turns (Coil.properties a)
                         * CoilProperties.turns (Coil.properties b))))).
Proof.
  split; [|split].
  - intros Hd. unfold PhysicsEngine.calculate_mutual_inductance.
    change (flt d (of_int 0)) with (Rltb d 0).
    now rewrite (proj2 (Rltb_true d 0)) by exact Hd.
  - intros Ha Hb Hd.
    destruct (@calculate_mutual_inductance_ok PhysicsEngine.init a b d Hd) as (m & Hm).
    exists m. split; [exact Hm|].
    destruct (Rlt_dec d (Rmax (CoilProperties.length (Coil.properties a))
                              (CoilProperties.length (Coil.properties b))))
      as [Hnear | Hfar].
    + exact (near_field_positive Ha Hb Hd Hnear Hm).
    + rewrite calculate_mutual_inductance_exact in Hm by exact Hd.
      destruct (Rlt_dec d _); [contradiction|].
      inversion Hm; subst m; clear Hm.
      pose proof (turns_product_positive Ha Hb) as Hn.
      destruct Ha as (_ & Hda & Hla), Hb as (_ & Hdb & Hlb).
      assert (Hpos : 0 < d).
      { apply Rlt_le_trans with (1 := Hla).
        apply Rle_trans with (2 := Rnot_lt_le _ _ Hfar). apply Rmax_l. }
      unfold PhysicsEngine._calculate_far_field_inductance, pow2, pow3. simpl.
      pose proof PI_RGT_0.
      apply Rdiv_lt_0_compat.
      * apply Rmult_lt_0_compat; [|exact Hn].
        apply Rmult_lt_0_compat; [|nra].
        apply Rmult_lt_0_compat; [|nra].
        nra.
      * repeat apply Rmult_lt_0_compat; exact Hpos.
  - intros Ha Hb.
    rewrite calculate_mutual_inductance_exact by lra.
    destruct Ha as (_ & Hda & Hla), Hb as (_ & Hdb & Hlb).
    assert (Href : 0 < Rmax (CoilProperties.length (Coil.properties a))
                            (CoilProperties.length (Coil.properties b))).
    { apply Rlt_le_trans with (1 := Hla). apply Rmax_l. }
    destruct (Rlt_dec 0 _); [|contradiction].
    f_equal. unfold PhysicsEngine._calculate_overlapping_inductance.
    rewrite !R_pymax. simpl. unfold lit; simpl.
    replace (1 - 0 / _) with 1 by (unfold Rdiv; ring).
    rewrite Rmax_right by lra. ring.
Qed.

(** X12: [calculate_force] returns 0 when either current is zero, without
    looking at the distance.  With two currents that are not zero it samples
    the mutual inductance half a millimetre to each side, so it raises the
    error of a negative distance for every distance below 0.5 mm, and
    returns a force from 0.5 mm on. *)
Theorem calculate_force_domain
    (pe : PhysicsEngine.t R) (a b : Coil.t R) (d i1 i2 : R) :
  (i1 = 0 \/ i2 = 0 -> PhysicsEngine.calculate_force pe a b d i1 i2 = Ok 0)
  /\ (i1 <> 0 -> i2 <> 0 -> d < 1 / 2000 ->
      PhysicsEngine.calculate_force pe a b d i1 i2
      = Raise (ValueError "Distance cannot be negative"))
  /\ (i1 <> 0 -> i2 <> 0 -> 1 / 2000 <= d ->
      exists f : R, PhysicsEngine.calculate_force pe a b d i1 i2 = Ok f).
Proof.
  unfold PhysicsEngine.calculate_force.
  change (feq ?x ?y) with (Reqb x y).
  change (of_int 0) with 0.
  split; [|split].
  - intros [H | H].
    + now rewrite (proj2 (Reqb_true i1 0) H).
    + rewrite (proj2 (Reqb_true i2 0) H). now rewrite orb_true_r.
  - intros H1 H2 Hd.
    rewrite (proj2 (Reqb_false i1 0) H1), (proj2 (Reqb_false i2 0) H2).
    cbn [orb]. cbv zeta.
    unfold PhysicsEngine.calculate_mutual_inductance at 2.
    change (flt ?x (of_int 0)) with (Rltb x 0).
    assert (Hminus : Rltb (fsub d (fdiv (lit 1 1000) (of_int 2))) 0 = true).
    { apply Rltb_true. unfold lit; simpl. lra. }
    rewrite Hminus.
    destruct (PhysicsEngine.calculate_mutual_inductance pe a b _) as [m | e] eqn:Hplus;
      [reflexivity|].
    unfold PhysicsEngine.calculate_mutual_inductance in Hplus.
    repeat match type of Hplus with
           | context [if ?c then _ else _] => destruct c
           end;
      inversion Hplus; reflexivity.
  - intros _ _ Hd.
    destruct (_ || _); [eexists; reflexivity|]. cbv zeta.
    destruct (calculate_mutual_inductance_ok pe a b
                (d := fadd d (fdiv (lit 1 1000) (of_int 2)))) as (m1 & Hm1);
      [unfold lit; simpl; lra|].
    destruct (calculate_mutual_inductance_ok pe a b
                (d := fsub d (fdiv (lit 1 1000) (of_int 2)))) as (m2 & Hm2);
      [unfold lit; simpl; lra|].
    rewrite Hm1. cbn [bind]. rewrite Hm2. cbn [bind]. eexists; reflexivity.
Qed.

(** X13: while both sample points lie in the overlap branch, the force
    between two coils does not depend on their distance: it is
    [i1 i2 mu_0 sqrt(r1 r2) sqrt(N1 N2) / max(l1, l2)], positive (attractive)
    when the two currents have the same sign. *)
Theorem near_field_force_constant (a b : Coil.t R) (d i1 i2 : R) :
  valid_coil a -> valid_coil b ->
  1 / 2000 <= d ->
  d + 1 / 2000 < Rmax (CoilProperties.length (Coil.properties a))
                      (CoilProperties.length (Coil.properties b)) ->
  exists f : R,
    PhysicsEngine.calculate_force PhysicsEngine.init a b d i1 i2 = Ok f
    /\ f = i1 * i2
           * (4 * PI * (1 / 10000000)
              * sqrt (CoilProperties.diameter (Coil.properties a) / 2
                      * (CoilProperties.diameter (Coil.properties b) / 2))
              * sqrt (IZR (CoilProperties.turns (Coil.properties a)
                           * CoilProperties.turns (Coil.properties b))))
           / Rmax (CoilProperties.length (Coil.properties a))
                  (CoilProperties.length (Coil.properties b))
    /\ (0 < i1 * i2 -> 0 < f).
Proof.
  intros Ha Hb Hd Hnear.
  pose proof (turns_product_positive Ha Hb) as Hn.
  destruct Ha as (_ & Hda & Hla), Hb as (_ & Hdb & Hlb).
  set (ref := Rmax _ _) in *.
  assert (Href : 0 < ref).
  { unfold ref. apply Rlt_le_trans with (1 := Hla). apply Rmax_l. }
  set (q := sqrt (CoilProperties.diameter (Coil.properties a) / 2
                  * (CoilProperties.diameter (Coil.properties b) / 2))).
  assert (Hq : 0 < q) by (apply sqrt_lt_R0; nra).
  set (n := sqrt _) in Hn.
  assert (Hvalue :
    PhysicsEngine.calculate_force PhysicsEngine.init a b d i1 i2
    = Ok (i1 * i2 * (4 * PI * (1 / 10000000) * q * n) / ref)).
  { unfold PhysicsEngine.calculate_force.
    change (feq ?x ?y) with (Reqb x y).
    change (of_int 0) with 0.
    destruct (Reqb i1 0 || Reqb i2 0) eqn:Hzero.
    - f_equal. apply orb_true_iff in Hzero.
      destruct Hzero as [H | H]; apply Reqb_true in H; rewrite H;
        unfold Rdiv; ring.
    - cbv zeta.
      rewrite !calculate_mutual_inductance_exact by (unfold lit; simpl; lra).
      fold ref. cbn [bind].
      destruct (Rlt_dec _ ref) as [_ | Hbad]; [|exfalso; apply Hbad; unfold lit; simpl; lra].
      destruct (Rlt_dec _ ref) as [_ | Hbad]; [|exfalso; apply Hbad; unfold lit; simpl; lra].
      f_equal.
      unfold PhysicsEngine._calculate_overlapping_inductance.
      rewrite !R_pymax. fold ref. simpl. fold q. fold n. unfold lit; simpl.
      rewrite !Rmax_right.
      + field. lra.
      + apply Rlt_le. apply Rlt_0_minus. apply Rdiv_lt_one; lra.
      + apply Rlt_le. apply Rlt_0_minus. apply Rdiv_lt_one; lra. }
  eexists. split; [exact Hvalue|]. split; [reflexivity|].
  intros Hsame. pose proof PI_RGT_0.
  apply Rdiv_lt_0_compat; [|exact Href].
  apply Rmult_lt_0_compat; [exact Hsame|].
  apply Rmult_lt_0_compat; [|exact Hn].
  apply Rmult_lt_0_compat; [lra | exact Hq].
Qed.

(** The test stage and the test capsule one centimetre apart, carrying 10 A
    and 2 A. *)
Lemma near_field_force_constant_witness :
  exists f : R,
    PhysicsEngine.calculate_force PhysicsEngine.init
      (AccelerationStage.coil test_stage_value) (Capsule.coil test_capsule_value)
      (1 / 100) 10 2 = Ok f
    /\ f = 10 * 2
           * (4 * PI * (1 / 10000000)
              * sqrt (9 / 100 / 2 * (83 / 1000 / 2))
              * sqrt (IZR (100 * 1)))
           / Rmax (5 / 100) (2 / 100)
    /\ (0 < 10 * 2 -> 0 < f).
Proof.
  apply (@near_field_force_constant
           (AccelerationStage.coil test_stage_value) (Capsule.coil test_capsule_value)
           (1 / 100) 10 2).
  - unfold valid_coil, valid_properties; simpl. repeat split; [lia | lra | lra].
  - unfold valid_coil, valid_properties; simpl. repeat split; [lia | lra | lra].
  - lra.
  - simpl. rewrite Rmax_left; lra.
Defined.

(** X14: the force is the same when the two coils are exchanged together
    with their currents, errors included. *)
Theorem calculate_force_symmetric
    (pe : PhysicsEngine.t R) (a b : Coil.t R) (d i1 i2 : R) :
  PhysicsEngine.calculate_force pe a b d i1 i2
  = PhysicsEngine.calculate_force pe b a d i2 i1.
Proof.
  unfold PhysicsEngine.calculate_force.
  rewrite (orb_comm (feq i2 _)).
  destruct (feq i1 _ || feq i2 _); [reflexivity|].
  cbv zeta.
  rewrite !(exact_mutual_inductance_symmetric pe b a).
  destruct (PhysicsEngine.calculate_mutual_inductance pe a b _); [|reflexivity].
  cbn [bind].
  destruct (PhysicsEngine.calculate_mutual_inductance pe a b _); [|reflexivity].
  cbn [bind]. f_equal. simpl. ring.
Qed.

(** ** The orchestrator: src/services/simulation_service.py *)

Lemma check_stage_activations_stages (s : SimulationService.t R) :
  Forall2
    (fun st st' : AccelerationStage.t R =>
       (AccelerationStage.is_active st = true -> st' = st)
       /\ (dormant st -> in_reach s st ->
           st' = AccelerationStage.activate st (SimulationService.time s))
       /\ (dormant st -> ~ in_reach s st -> st' = st))
    (SimulationService.stages s)
    (SimulationService.stages (SimulationService._check_stage_activations s)).
Proof.
  unfold SimulationService._check_stage_activations; cbn.
  induction (SimulationService.stages s) as [|st rest IH]; cbn; constructor; [|exact IH].
  unfold dormant, in_reach.
  change (fle ?x ?y) with (Rleb x y). change (fabs ?x) with (Rabs x).
  rewrite R_pymax. change (lit 1 100) with (1 / 100).
  change (fsub ?x ?y) with (x - y).
  destruct (AccelerationStage.is_active st); cbn [negb].
  - repeat split; intros; try reflexivity; discriminate.
  - destruct (Rleb _ _) eqn:Hreach.
    + apply Rleb_true in Hreach.
      repeat split; intros; try reflexivity; try discriminate; contradiction.
    + apply Rleb_false in Hreach.
      repeat split; intros; try reflexivity; try discriminate. lra.
Qed.

(** X15: [_check_stage_activations] touches nothing but the stages.  It
    leaves every active stage as it is, activation time included; it fires,
    at the service's current time, every dormant stage the capsule is in
    reach of; it leaves the other dormant stages alone.  Checking twice is
    the same as checking once. *)
Theorem check_stage_activations_spec (s : SimulationService.t R) :
  Forall2
    (fun st st' : AccelerationStage.t R =>
       (AccelerationStage.is_active st = true -> st' = st)
       /\ (dormant st -> in_reach s st ->
           st' = AccelerationStage.activate st (SimulationService.time s))
       /\ (dormant st -> ~ in_reach s st -> st' = st))
    (SimulationService.stages s)
    (SimulationService.stages (SimulationService._check_stage_activations s))
  /\ SimulationService.capsule (SimulationService._check_stage_activations s)
     = SimulationService.capsule s
  /\ SimulationService.time (SimulationService._check_stage_activations s)
     = SimulationService.time s
  /\ SimulationService.data (SimulationService._check_stage_activations s)
     = SimulationService.data s
  /\ SimulationService._check_stage_activations
       (SimulationService._check_stage_activations s)
     = SimulationService._check_stage_activations s.
Proof.
  split; [apply check_stage_activations_stages|].
  do 3 (split; [reflexivity|]).
  unfold SimulationService._check_stage_activations, SimulationService.with_stages.
  cbn. f_equal. rewrite map_map. apply map_ext. intros st.
  destruct (AccelerationStage.is_active st) eqn:Hactive; cbn [negb].
  - now rewrite Hactive.
  - destruct (Rleb (Rabs (Capsule.position (SimulationService.capsule s)
                          - CoilProperties.position (AccelerationStage.properties st)))
                (pymax (CoilProperties.length (AccelerationStage.properties st))
                       (1 / 100))) eqn:Hreach.
    + reflexivity.
    + rewrite Hactive. cbn [negb]. now rewrite Hreach.
Qed.

Lemma dormant_stages_emf (s : SimulationService.t R) (stages : list (AccelerationStage.t R)) :
  Forall dormant stages ->
  forall acc : R, for_each (SimulationService.induced_emf_of s) stages acc = Ok acc.
Proof.
  induction 1 as [|st rest Hst _ IH]; intros acc; cbn; [reflexivity|].
  rewrite (inactive_emf s acc st Hst). cbn [bind]. apply IH.
Qed.

Lemma dormant_stages_force (s : SimulationService.t R) (stages : list (AccelerationStage.t R)) :
  Forall dormant stages ->
  forall acc : R, for_each (SimulationService.force_of s) stages acc = Ok acc.
Proof.
  induction 1 as [|st rest Hst _ IH]; intros acc; cbn; [reflexivity|].
  rewrite (inactive_force s acc st Hst). cbn [bind]. apply IH.
Qed.

(** X16: while no stage is active nothing is induced, and the update of the
    capsule's current only lets the current decay: each call leaves nine
    tenths of it.  Position, velocity, mass, the stages and the clock are
    left alone. *)
Theorem dormant_stages_decay_capsule_current (s : SimulationService.t R) :
  Forall dormant (SimulationService.stages s) ->
  0 < CoilProperties.resistance (Capsule.properties (SimulationService.capsule s)) ->
  exists s' : SimulationService.t R,
    SimulationService._update_capsule_current s = Ok s'
    /\ Capsule.current (SimulationService.capsule s')
       = 9 / 10 * Capsule.current (SimulationService.capsule s)
    /\ Capsule.position (SimulationService.capsule s')
       = Capsule.position (SimulationService.capsule s)
    /\ Capsule.velocity (SimulationService.capsule s')
       = Capsule.velocity (SimulationService.capsule s)
    /\ Capsule.mass (SimulationService.capsule s')
       = Capsule.mass (SimulationService.capsule s)
    /\ SimulationService.stages s' = SimulationService.stages s
    /\ SimulationService.time s' = SimulationService.time s.
Proof.
  intros Hdormant HR.
  destruct (update_capsule_current_exact s) as (emf & Hemf & Hupdate).
  rewrite (dormant_stages_emf s Hdormant 0) in Hemf.
  injection Hemf as Hemf. subst emf.
  exists (after_current s 0). split; [exact Hupdate|].
  unfold after_current. cbv zeta.
  destruct (Rlt_dec 0 _) as [_ | Hbad]; [|contradiction].
  cbn. split; [|repeat split].
  set (i := Capsule.current _).
  set (r := CoilProperties.resistance _) in *.
  change (i + 1 / 10 * (0 / r - i) = 9 / 10 * i).
  field. lra.
Qed.

(** The test service before its first step: its only stage is dormant. *)
Lemma dormant_stages_decay_capsule_current_witness :
  exists s' : SimulationService.t R,
    SimulationService._update_capsule_current test_service = Ok s'
    /\ Capsule.current (SimulationService.capsule s')
       = 9 / 10 * Capsule.current (SimulationService.capsule test_service)
    /\ Capsule.position (SimulationService.capsule s')
       = Capsule.position (SimulationService.capsule test_service)
    /\ Capsule.velocity (SimulationService.capsule s')
       = Capsule.velocity (SimulationService.capsule test_service)
    /\ Capsule.mass (SimulationService.capsule s')
       = Capsule.mass (SimulationService.capsule test_service)
    /\ SimulationService.stages s' = SimulationService.stages test_service
    /\ SimulationService.time s' = SimulationService.time test_service.
Proof.
  apply (@dormant_stages_decay_capsule_current test_service).
  - repeat constructor.
  - change (CoilProperties.resistance
              (Capsule.properties (SimulationService.capsule test_service)))
      with (CoilProperties.resistance (Capsule.properties test_capsule_value)).
    rewrite test_capsule_resistance. lra.
Defined.

Lemma weak_currents_force (s : SimulationService.t R) (acc : R)
    (stage : AccelerationStage.t R) :
  Rabs (Capsule.current (SimulationService.capsule s)) <= 1 / 1000
  \/ dormant stage
  \/ Rabs (AccelerationStage.get_current stage (SimulationService.time s)) <= 1 / 10 ->
  SimulationService.force_of s acc stage = Ok acc.
Proof.
  intros Hweak. unfold SimulationService.force_of.
  destruct (AccelerationStage.is_active stage) eqn:Hactive; [|reflexivity].
  cbv zeta.
  change (flt ?x ?y) with (Rltb x y). change (fabs ?x) with (Rabs x).
  change (lit 1 10) with (1 / 10). change (lit 1 1000) with (1 / 1000).
  destruct Hweak as [Hc | [Hd | Hs]].
  - rewrite (proj2 (Rltb_false _ _) Hc). now rewrite andb_false_r.
  - unfold dormant in Hd. congruence.
  - now rewrite (proj2 (Rltb_false _ _) Hs).
Qed.

(** X17: [_calculate_total_force] is exactly 0 below its thresholds: when
    the capsule's current is at most 1 mA in size, or when every stage is
    dormant or carries at most 0.1 A at the service's time. *)
Theorem total_force_threshold (s : SimulationService.t R) :
  Rabs (Capsule.current (SimulationService.capsule s)) <= 1 / 1000
  \/ Forall
       (fun st : AccelerationStage.t R =>
          dormant st
          \/ Rabs (AccelerationStage.get_current st (SimulationService.time s)) <= 1 / 10)
       (SimulationService.stages s) ->
  SimulationService._calculate_total_force s = Ok 0.
Proof.
  intros Hweak. unfold SimulationService._calculate_total_force.
  change (of_int 0) with 0. generalize 0 as acc.
  destruct Hweak as [Hc | Hstages].
  - induction (SimulationService.stages s) as [|st rest IH]; intros acc; cbn;
      [reflexivity|].
    rewrite (@weak_currents_force s acc st) by (left; exact Hc).
    cbn [bind]. apply IH.
  - induction Hstages as [|st rest Hst _ IH]; intros acc; cbn; [reflexivity|].
    rewrite (@weak_currents_force s acc st) by (right; exact Hst).
    cbn [bind]. apply IH.
Qed.

(** The test service before its first step: the capsule carries no current. *)
Lemma total_force_threshold_witness :
  SimulationService._calculate_total_force test_service = Ok 0.
Proof.
  apply (@total_force_threshold test_service).
  left. cbn. rewrite Rabs_R0. lra.
Defined.

Lemma update_capsule_current_frame (s s' : SimulationService.t R) :
  SimulationService._update_capsule_current s = Ok s' ->
  SimulationService.time s' = SimulationService.time s
  /\ SimulationService.dt s' = SimulationService.dt s
  /\ SimulationService.data s' = SimulationService.data s
  /\ SimulationService.stages s' = SimulationService.stages s.
Proof.
  unfold SimulationService._update_capsule_current.
  destruct (for_each _ _ _) as [emf | e]; cbn [bind]; [|discriminate].
  destruct (flt _ _); intros Heq; injection Heq as Heq; subst s'; repeat split.
Qed.

(** A step that returns leaves the clock, the time step and the metadata as
    they were, and appends one record, stamped with the clock. *)
Lemma step_bookkeeping (s s1 : SimulationService.t R) :
  SimulationService._step s = Ok s1 ->
  SimulationService.time s1 = SimulationService.time s
  /\ SimulationService.dt s1 = SimulationService.dt s
  /\ DataService.metadata (SimulationService.data s1)
     = DataService.metadata (SimulationService.data s)
  /\ exists record : SimulationRecord.t R,
       DataService.history (SimulationService.data s1)
       = DataService.history (SimulationService.data s) ++ [record]
       /\ SimulationRecord.time record = SimulationService.time s.
Proof.
  unfold SimulationService._step.
  destruct (SimulationService._update_capsule_current _) as [s2 | e] eqn:Hcurrent;
    cbn [bind]; [|discriminate].
  apply update_capsule_current_frame in Hcurrent.
  destruct Hcurrent as (Htime & Hdt & Hdata & _).
  destruct (SimulationService._calculate_total_force s2) as [force | e];
    cbn [bind]; [|discriminate].
  destruct (PhysicsEngine.update_kinematics _ _ _ _) as [c' | e];
    cbn [bind]; [|discriminate].
  intros Heq; injection Heq as Heq; subst s1. cbn.
  rewrite Htime, Hdt, Hdata. cbn.
  repeat split. eexists. split; reflexivity.
Qed.

Lemma run_loop_bookkeeping (max_time : R) (fuel : nat) :
  forall (s s' : SimulationService.t R) (k k' : nat),
    SimulationService.run_loop fuel max_time k s = Some (Ok (k', s')) ->
    (k <= k')%nat
    /\ SimulationService.dt s' = SimulationService.dt s
    /\ SimulationService.time s'
       = SimulationService.time s + INR (k' - k) * SimulationService.dt s
    /\ DataService.metadata (SimulationService.data s')
       = DataService.metadata (SimulationService.data s)
    /\ exists records : list (SimulationRecord.t R),
         DataService.history (SimulationService.data s')
         = DataService.history (SimulationService.data s) ++ records
         /\ List.length records = (k' - k)%nat
         /\ Forall (fun record => SimulationRecord.time record < max_time) records.
Proof.
  induction fuel as [|fuel IH]; intros s s' k k'; cbn [SimulationService.run_loop];
    [discriminate|].
  change (flt ?x ?y) with (Rltb x y).
  destruct (Rltb (SimulationService.time s) max_time) eqn:Htime; cbn [andb];
    cbv beta iota.
  2:{ intros Heq; injection Heq as Hk Hs; subst k' s'.
      rewrite Nat.sub_diag. cbn. split; [lia|]. split; [reflexivity|].
      split; [ring|]. split; [reflexivity|].
      exists []. rewrite app_nil_r. repeat split. constructor. }
  destruct (Rltb (Capsule.position (SimulationService.capsule s))
              (SimulationService.tube_length s)) eqn:Hpos; cbv beta iota.
  2:{ intros Heq; injection Heq as Hk Hs; subst k' s'.
      rewrite Nat.sub_diag. cbn. split; [lia|]. split; [reflexivity|].
      split; [ring|]. split; [reflexivity|].
      exists []. rewrite app_nil_r. repeat split. constructor. }
  apply Rltb_true in Htime.
  destruct (SimulationService._step s) as [s1 | e] eqn:Hstep; [|discriminate].
  destruct (@step_bookkeeping s s1 Hstep) as (Ht1 & Hdt1 & Hmeta1 & record & Hhist1 & Hrt).
  intros Hrun. apply IH in Hrun.
  destruct Hrun as (Hk & Hdt' & Htime' & Hmeta' & records & Hhist' & Hlen & Hall).
  cbn in Hdt', Htime', Hmeta', Hhist'.
  split; [lia|]. split; [congruence|].
  split.
  { rewrite Htime', Ht1, Hdt1.
    replace (k' - k)%nat with (S (k' - S k)) by lia.
    rewrite S_INR. ring. }
  split; [congruence|].
  exists (record :: records).
  split; [rewrite Hhist', Hhist1, <- app_assoc; reflexivity|].
  split; [cbn; lia|].
  constructor; [rewrite Hrt; exact Htime | exact Hall].
Qed.

Lemma run_returns (s : SimulationService.t R) (max_time : R) :
  valid_service s ->
  0 < SimulationService.dt s ->
  exists (fuel n : nat) (s' : SimulationService.t R),
    SimulationService.run_loop fuel max_time 0
      (SimulationService.with_data s
         (DataService.set_initial_energy (SimulationService.data s)
            (pysum (map (@AccelerationStage.stored_energy R _)
                      (SimulationService.stages s)))))
    = Some (Ok (n, s'))
    /\ SimulationService.run fuel max_time s
       = Some (Ok (s', DataService.get_results (SimulationService.data s'))).
Proof.
  intros Hvalid Hdt.
  destruct (INR_unbounded ((max_time - SimulationService.time s) / SimulationService.dt s))
    as (n & Hn).
  assert (Hbound : max_time - SimulationService.time s <= INR n * SimulationService.dt s).
  { apply Rlt_le. apply (Rmult_lt_compat_r (SimulationService.dt s)) in Hn; [|exact Hdt].
    unfold Rdiv in Hn. rewrite Rmult_assoc, Rinv_l, Rmult_1_r in Hn by lra. exact Hn. }
  set (s0 := SimulationService.with_data s _).
  destruct (@run_loop_terminates max_time n s0 0%nat Hvalid Hdt Hbound)
    as (k' & s' & Hrun & _).
  exists (S n), k', s'. split; [exact Hrun|].
  unfold SimulationService.run. fold s0. now rewrite Hrun.
Qed.

Section RunRecords.
Context {F : Type} `{PyFloat F} `{NumPy F}.

Lemma update_capsule_current_keeps_data (s s' : SimulationService.t F) :
  SimulationService._update_capsule_current s = Ok s' ->
  SimulationService.time s' = SimulationService.time s
  /\ SimulationService.data s' = SimulationService.data s.
Proof.
  unfold SimulationService._update_capsule_current.
  destruct (for_each _ _ _) as [emf | e]; cbn [bind]; [|discriminate].
  destruct (flt _ _); intros Heq; injection Heq as Heq; subst s'; split; reflexivity.
Qed.

Lemma step_appends_record (s s1 : SimulationService.t F) :
  SimulationService._step s = Ok s1 ->
  SimulationService.time s1 = SimulationService.time s
  /\ exists record : SimulationRecord.t F,
       DataService.history (SimulationService.data s1)
       = DataService.history (SimulationService.data s) ++ [record]
       /\ SimulationRecord.time record = SimulationService.time s.
Proof.
  unfold SimulationService._step.
  destruct (SimulationService._update_capsule_current _) as [s2 | e] eqn:Hcurrent;
    cbn [bind]; [|discriminate].
  apply update_capsule_current_keeps_data in Hcurrent.
  destruct Hcurrent as (Htime & Hdata).
  destruct (SimulationService._calculate_total_force s2) as [force | e];
    cbn [bind]; [|discriminate].
  destruct (PhysicsEngine.update_kinematics _ _ _ _) as [c' | e];
    cbn [bind]; [|discriminate].
  intros Heq; injection Heq as Heq; subst s1. cbn.
  rewrite Htime, Hdata. cbn.
  split; [reflexivity|]. eexists. split; reflexivity.
Qed.

Lemma run_loop_appends_records (max_time : F) (fuel : nat) :
  forall (s s' : SimulationService.t F) (k k' : nat),
    SimulationService.run_loop fuel max_time k s = Some (Ok (k', s')) ->
    exists records : list (SimulationRecord.t F),
      DataService.history (SimulationService.data s')
      = DataService.history (SimulationService.data s) ++ records
      /\ (k + List.length records = k')%nat
      /\ Forall (fun record => flt (SimulationRecord.time record) max_time = true)
           records.
Proof.
  induction fuel as [|fuel IH]; intros s s' k k'; cbn [SimulationService.run_loop];
    [discriminate|].
  destruct (flt (SimulationService.time s) max_time) eqn:Htime; cbn [andb];
    cbv beta iota.
  2:{ intros Heq; injection Heq as Hk Hs; subst k' s'.
      exists []. rewrite app_nil_r. cbn. repeat split; [lia | constructor]. }
  destruct (flt (Capsule.position (SimulationService.capsule s))
              (SimulationService.tube_length s)); cbv beta iota.
  2:{ intros Heq; injection Heq as Hk Hs; subst k' s'.
      exists []. rewrite app_nil_r. cbn. repeat split; [lia | constructor]. }
  destruct (SimulationService._step s) as [s1 | e] eqn:Hstep; [|discriminate].
  destruct (@step_appends_record s s1 Hstep) as (_ & record & Hhist1 & Hstamp).
  intros Hrun. apply IH in Hrun.
  destruct Hrun as (records & Hhist' & Hcount & Hall).
  cbn in Hhist'.
  exists (record :: records).
  split; [rewrite Hhist', Hhist1, <- app_assoc; reflexivity|].
  split; [cbn; lia|].
  constructor; [rewrite Hstamp; exact Htime | exact Hall].
Qed.

(** X18: on binary64 as in exact arithmetic, whenever [run] returns, having
    made [n] passes through its loop, it has made exactly one record per
    pass: the history is [n] records longer, every new record is stamped
    with a clock value that compared below [max_time], and the result, when
    there is one, carries the whole history. *)
Theorem run_records_every_step
    (fuel : nat) (max_time : F) (s s' : SimulationService.t F)
    (r : result (SimulationResult.t F)) :
  SimulationService.run fuel max_time s = Some (Ok (s', r)) ->
  exists (n : nat) (records : list (SimulationRecord.t F)),
    SimulationService.run_loop fuel max_time 0
      (SimulationService.with_data s
         (DataService.set_initial_energy (SimulationService.data s)
            (pysum (map (@AccelerationStage.stored_energy F _)
                      (SimulationService.stages s)))))
    = Some (Ok (n, s'))
    /\ DataService.history (SimulationService.data s')
       = DataService.history (SimulationService.data s) ++ records
    /\ List.length records = n
    /\ Forall (fun record => flt (SimulationRecord.time record) max_time = true)
         records
    /\ (forall res : SimulationResult.t F,
          r = Ok res ->
          SimulationResult.history res
          = DataService.history (SimulationService.data s) ++ records).
Proof.
  unfold SimulationService.run.
  destruct (SimulationService.run_loop fuel max_time 0 _) as [[[n s1] | e] |] eqn:Hloop;
    try discriminate.
  intros Heq; injection Heq as Hs Hr; subst s1.
  destruct (@run_loop_appends_records max_time fuel _ _ _ _ Hloop)
    as (records & Hhist & Hcount & Hall).
  cbn in Hhist, Hcount.
  exists n, records. split; [reflexivity|]. split; [exact Hhist|].
  split; [exact Hcount|]. split; [exact Hall|].
  intros res Hres. subst r. unfold DataService.get_results in Hres.
  destruct (rev _); [discriminate|].
  injection Hres as Hres. subst res. exact Hhist.
Qed.
End RunRecords.

(** The test service, run for 15 microseconds in exact arithmetic. *)
Lemma run_records_every_step_witness :
  exists (fuel n : nat) (s' : SimulationService.t R)
         (r : result (SimulationResult.t R))
         (records : list (SimulationRecord.t R)),
    SimulationService.run fuel (15 / 1000000) test_service = Some (Ok (s', r))
    /\ DataService.history (SimulationService.data s')
       = DataService.history (SimulationService.data test_service) ++ records
    /\ List.length records = n
    /\ Forall (fun record => Rltb (SimulationRecord.time record) (15 / 1000000) = true)
         records
    /\ (forall res : SimulationResult.t R,
          r = Ok res ->
          SimulationResult.history res
          = DataService.history (SimulationService.data test_service) ++ records).
Proof.
  destruct (@run_returns test_service (15 / 1000000) test_service_valid)
    as (fuel & n0 & s' & _ & Hrun).
  { cbn. unfold lit; cbn. lra. }
  destruct (@run_records_every_step R _ _ fuel (15 / 1000000) test_service s' _ Hrun)
    as (n & records & _ & Hhist & Hcount & Hall & Hres).
  exists fuel, n, s', (DataService.get_results (SimulationService.data s')), records.
  repeat split; assumption.
Defined.

(** ** Collected data: src/services/data_service.py *)

Lemma dict_get_set {V : Type} (d : list (string * V)) (key : string) (value default : V) :
  dict_get (dict_set d key value) key default = value.
Proof.
  induction d as [|[k v] rest IH]; cbn.
  - now rewrite String.eqb_refl.
  - destruct (String.eqb k key) eqn:Hk; cbn; rewrite Hk; [reflexivity | exact IH].
Qed.

(** X19: what [run] reports as the initial energy is the sum of the stored
    energies [0.5 C V^2] of the stages at the moment of the call, whatever an
    earlier run had left in the metadata; the loop never touches it. *)
Theorem run_reports_stored_energy (s : SimulationService.t R) (max_time : R) :
  valid_service s ->
  0 < SimulationService.dt s ->
  exists (fuel : nat) (s' : SimulationService.t R)
         (r : result (SimulationResult.t R)),
    SimulationService.run fuel max_time s = Some (Ok (s', r))
    /\ dict_get (DataService.metadata (SimulationService.data s')) "initial_energy" 0
       = pysum (map (@AccelerationStage.stored_energy R _) (SimulationService.stages s))
    /\ (forall res : SimulationResult.t R,
          r = Ok res ->
          SimulationResult.initial_energy res
          = pysum (map (@AccelerationStage.stored_energy R _)
                     (SimulationService.stages s))).
Proof.
  intros Hvalid Hdt.
  destruct (run_returns max_time Hvalid Hdt) as (fuel & n & s' & Hloop & Hrun).
  apply run_loop_bookkeeping in Hloop.
  destruct Hloop as (_ & _ & _ & Hmeta & _). cbn in Hmeta.
  exists fuel, s', (DataService.get_results (SimulationService.data s')).
  split; [exact Hrun|].
  assert (Hget :
    dict_get (DataService.metadata (SimulationService.data s')) "initial_energy" 0
    = pysum (map (@AccelerationStage.stored_energy R _) (SimulationService.stages s))).
  { rewrite Hmeta. apply dict_get_set. }
  split; [exact Hget|].
  intros res Hres. unfold DataService.get_results in Hres.
  destruct (rev _); [discriminate|].
  injection Hres as Hres. subst res. exact Hget.
Qed.

Lemma run_reports_stored_energy_witness :
  exists (fuel : nat) (s' : SimulationService.t R)
         (r : result (SimulationResult.t R)),
    SimulationService.run fuel (15 / 1000000) test_service = Some (Ok (s', r))
    /\ dict_get (DataService.metadata (SimulationService.data s')) "initial_energy" 0
       = pysum (map (@AccelerationStage.stored_energy R _)
                  (SimulationService.stages test_service))
    /\ (forall res : SimulationResult.t R,
          r = Ok res ->
          SimulationResult.initial_energy res
          = pysum (map (@AccelerationStage.stored_energy R _)
                     (SimulationService.stages test_service))).
Proof.
  apply (@run_reports_stored_energy test_service (15 / 1000000)).
  - exact test_service_valid.
  - cbn. unfold lit; cbn. lra.
Defined.

(** X20: a data service with nothing recorded, new or just reset, has no
    results to give.  After one [record], [get_results] returns the state
    that was recorded last: its time, the capsule's position and velocity,
    and the history one record longer.  The initial energy it reports is the
    one stored by [set_initial_energy], before or after the record, and 0
    when none was stored since the last reset. *)
Theorem data_service_round_trip
    (d : DataService.t R) (energy time force : R) (capsule : Capsule.t R)
    (stages : list (AccelerationStage.t R)) :
  DataService.get_results (DataService.init (F:=R))
  = Raise (ValueError "No data collected - cannot generate results")
  /\ DataService.get_results (DataService.reset d)
     = Raise (ValueError "No data collected - cannot generate results")
  /\ (exists res : SimulationResult.t R,
        DataService.get_results
          (DataService.record (DataService.set_initial_energy d energy)
             time capsule stages force) = Ok res
        /\ DataService.get_results
             (DataService.set_initial_energy
                (DataService.record d time capsule stages force) energy) = Ok res
        /\ SimulationResult.initial_energy res = energy
        /\ SimulationResult.total_time res = time
        /\ SimulationResult.final_position res = Capsule.position capsule
        /\ SimulationResult.final_velocity res = Capsule.velocity capsule
        /\ List.length (SimulationResult.history res)
           = S (List.length (DataService.history d)))
  /\ (exists res : SimulationResult.t R,
        DataService.get_results
          (DataService.record (DataService.reset d) time capsule stages force) = Ok res
        /\ SimulationResult.initial_energy res = 0
        /\ List.length (SimulationResult.history res) = 1%nat).
Proof.
  split; [reflexivity|]. split; [reflexivity|]. split.
  - unfold DataService.get_results, DataService.record, DataService.set_initial_energy.
    cbn [DataService.history DataService.metadata].
    rewrite rev_unit. eexists. split; [reflexivity|]. split; [reflexivity|].
    cbn. rewrite dict_get_set, length_app. cbn.
    repeat split; try reflexivity. lia.
  - unfold DataService.get_results, DataService.record, DataService.reset.
    cbn [DataService.history DataService.metadata app rev].
    eexists. split; [reflexivity|]. split; reflexivity.
Qed.

(** X21: [SimulationService.reset] leaves a service that has not run: the
    clock at 0, no history and no metadata, the capsule's position, velocity
    and current as they were when the service was built, every stage dormant
    with no activation time and its coil untouched.  Resetting twice is
    resetting once, and resetting a service that was just built around
    stages that never fired changes nothing. *)
Theorem service_reset_spec (s : SimulationService.t R) :
  idle (SimulationService.reset s)
  /\ DataService.metadata (SimulationService.data (SimulationService.reset s)) = []
  /\ Capsule.position (SimulationService.capsule (SimulationService.reset s))
     = SimulationService.initial_position (SimulationService._initial_capsule_state s)
  /\ Capsule.velocity (SimulationService.capsule (SimulationService.reset s))
     = SimulationService.initial_velocity (SimulationService._initial_capsule_state s)
  /\ Capsule.current (SimulationService.capsule (SimulationService.reset s))
     = SimulationService.initial_current (SimulationService._initial_capsule_state s)
  /\ Forall (fun st : AccelerationStage.t R =>
               dormant st /\ AccelerationStage.activation_time st = None)
       (SimulationService.stages (SimulationService.reset s))
  /\ map (@AccelerationStage.coil R)
       (SimulationService.stages (SimulationService.reset s))
     = map (@AccelerationStage.coil R) (SimulationService.stages s)
  /\ SimulationService.reset (SimulationService.reset s) = SimulationService.reset s
  /\ (forall (c : Capsule.t R) (stages : list (AccelerationStage.t R))
             (tube_length dt : R),
        Forall (fun st : AccelerationStage.t R =>
                  dormant st /\ AccelerationStage.activation_time st = None) stages ->
        SimulationService.reset (SimulationService.init c stages tube_length dt)
        = SimulationService.init c stages tube_length dt).
Proof.
  split; [split; reflexivity|]. do 4 (split; [reflexivity|]).
  split; [|split; [|split]].
  - unfold SimulationService.reset; cbn.
    induction (SimulationService.stages s) as [|st rest IH]; cbn; constructor;
      [split; reflexivity | exact IH].
  - unfold SimulationService.reset; cbn. rewrite map_map. reflexivity.
  - unfold SimulationService.reset; cbn. rewrite map_map. reflexivity.
  - intros c stages tube_length dt Hstages.
    assert (Hmap :
      map (fun stage : AccelerationStage.t R =>
             AccelerationStage.make (AccelerationStage.coil stage)
               (AccelerationStage.stage_id stage) (AccelerationStage.capacitance stage)
               (AccelerationStage.voltage stage) None false) stages
      = stages).
    { induction Hstages as [|st rest [Hst Hnone] _ IH]; cbn; [reflexivity|].
      f_equal; [|exact IH].
      destruct st as [coil stage_id capacitance voltage activation is_active].
      unfold dormant in Hst. cbn in *. now subst. }
    destruct c as [[properties current] mass position velocity].
    unfold SimulationService.reset, SimulationService.init; cbn.
    now rewrite Hmap.
Qed.

(** ** Results: src/services/simulation_service.py, class SimulationResult *)

Lemma fold_left_Rmax (xs : list R) :
  forall a : R,
    a <= fold_left Rmax xs a
    /\ (forall x : R, In x xs -> x <= fold_left Rmax xs a)
    /\ (fold_left Rmax xs a = a \/ In (fold_left Rmax xs a) xs).
Proof.
  induction xs as [|y rest IH]; intros a; cbn.
  - split; [lra|]. split; [contradiction | left; reflexivity].
  - destruct (IH (Rmax a y)) as (Hge & Hall & Hin).
    pose proof (Rmax_l a y). pose proof (Rmax_r a y).
    split; [lra|]. split.
    + intros x [Hx | Hx]; [subst x; lra | now apply Hall].
    + destruct Hin as [Heq | Hin]; [|right; right; exact Hin].
      rewrite Heq. unfold Rmax. destruct (Rle_dec a y); [right; left | left]; reflexivity.
Qed.

(** X22: [max_force] of a result with no history is 0; otherwise it is the
    force of one of the records, and no record has a greater force. *)
Theorem max_force_is_maximum (res : SimulationResult.t R) :
  (SimulationResult.history res = [] -> SimulationResult.max_force res = 0)
  /\ (SimulationResult.history res <> [] ->
      (forall record : SimulationRecord.t R,
          In record (SimulationResult.history res) ->
          SimulationRecord.force record <= SimulationResult.max_force res)
      /\ exists record : SimulationRecord.t R,
           In record (SimulationResult.history res)
           /\ SimulationResult.max_force res = SimulationRecord.force record).
Proof.
  unfold SimulationResult.max_force.
  destruct (SimulationResult.history res) as [|first rest]; cbn [map].
  - split; [reflexivity | intros H; now contradiction H].
  - split; [discriminate|]. intros _.
    replace (fold_left pymax (map (@SimulationRecord.force R) rest)
               (SimulationRecord.force first))
      with (fold_left Rmax (map (@SimulationRecord.force R) rest)
              (SimulationRecord.force first)).
    2:{ generalize (SimulationRecord.force first).
        induction (map (@SimulationRecord.force R) rest) as [|y ys IH]; intros a; cbn;
          [reflexivity|].
        rewrite R_pymax. apply IH. }
    destruct (fold_left_Rmax (map (@SimulationRecord.force R) rest)
                (SimulationRecord.force first)) as (Hge & Hall & Hin).
    split.
    + intros record [Hr | Hr]; [subst record; exact Hge|].
      apply Hall. now apply in_map.
    + destruct Hin as [Heq | Hin].
      * exists first. split; [left; reflexivity | exact Heq].
      * apply in_map_iff in Hin. destruct Hin as (record & Hforce & Hrecord).
        exists record. split; [right; exact Hrecord | now symmetry].
Qed.

(** X23: for the result a data service gives after a record, the final
    kinetic energy is [0.5 m v^2] of the capsule recorded last, and the
    energy efficiency is that energy over the initial energy when the
    initial energy is positive, and 0, with no division, when it is not. *)
Theorem energy_efficiency_spec
    (d : DataService.t R) (energy time force : R) (capsule : Capsule.t R)
    (stages : list (AccelerationStage.t R)) :
  exists res : SimulationResult.t R,
    DataService.get_results
      (DataService.record (DataService.set_initial_energy d energy)
         time capsule stages force) = Ok res
    /\ SimulationResult.final_kinetic_energy res = Capsule.get_kinetic_energy capsule
    /\ (0 < energy ->
        SimulationResult.energy_efficiency res
        = Capsule.get_kinetic_energy capsule / energy)
    /\ (energy <= 0 -> SimulationResult.energy_efficiency res = 0)
    /\ (0 <= Capsule.mass capsule -> 0 <= SimulationResult.energy_efficiency res).
Proof.
  unfold DataService.get_results, DataService.record, DataService.set_initial_energy.
  cbn [DataService.history DataService.metadata].
  rewrite rev_unit. eexists. split; [reflexivity|].
  unfold SimulationResult.energy_efficiency, SimulationResult.final_kinetic_energy.
  cbn [SimulationResult.history SimulationResult.initial_energy].
  rewrite rev_unit, dict_get_set.
  cbn [SimulationRecord.kinetic_energy].
  change (flt ?x ?y) with (Rltb x y). change (of_int 0) with 0.
  split; [reflexivity|]. split; [|split].
  - intros He. now rewrite (proj2 (Rltb_true 0 energy) He).
  - intros He. now rewrite (proj2 (Rltb_false 0 energy) He).
  - intros Hm.
    assert (Hke : 0 <= Capsule.get_kinetic_energy capsule).
    { unfold Capsule.get_kinetic_energy, lit, pow2; simpl.
      apply Rmult_le_pos; [lra | nra]. }
    destruct (Rltb 0 energy) eqn:He; [|lra].
    apply Rltb_true in He.
    apply Rmult_le_pos; [exact Hke|]. left. now apply Rinv_0_lt_compat.
Qed.

(** ** The discharge of a stage: src/core/acceleration_stage.py *)

(** X24: the discharge starts from rest.  At its activation time a stage of
    valid geometry, positive capacitance and non-negative resistance carries
    no current, and its current rises at the rate [V / L] when the circuit
    is underdamped or critically damped, and at rate 0 in the overdamped
    case, which the code does not model. *)
Theorem discharge_starts_from_rest (s : AccelerationStage.t R) (t0 : R) :
  valid_circuit s ->
  0 <= CoilProperties.resistance (AccelerationStage.properties s) ->
  AccelerationStage.is_active s = true ->
  AccelerationStage.activation_time s = Some t0 ->
  AccelerationStage.get_current s t0 = 0
  /\ (damping s <= natural_frequency s ->
      AccelerationStage.get_current_derivative s t0
      = AccelerationStage.voltage s / AccelerationStage.inductance s)
  /\ (natural_frequency s < damping s ->
      AccelerationStage.get_current_derivative s t0 = 0).
Proof.
  intros [Hvalid HC] HR Hactive Ht0.
  pose proof (solenoid_inductance_positive Hvalid) as HL.
  rewrite inductance_solenoid.
  destruct (Rlt_dec (damping s) (natural_frequency s)) as [Hunder | Hnot].
  - destruct (@at_activation s t0 Hactive Ht0 Hvalid HR Hunder) as [Hzero Hrate].
    split; [exact Hzero|]. split; [intros _; exact Hrate | lra].
  - split; [|split].
    + rewrite (get_current_after_activation s Hactive Ht0) by lra.
      unfold discharge_waveform.
      destruct (Rlt_dec _ _); [contradiction|].
      replace (t0 - t0) with 0 by ring.
      destruct (Req_dec_T _ _).
      * unfold critically_damped_current. rewrite Rmult_0_r, Rmult_0_l.
        apply Rmax_left. lra.
      * apply Rmax_left. lra.
    + intros Hle.
      rewrite (get_current_derivative_after_activation s Hactive Ht0) by lra.
      destruct (Rlt_dec _ _); [contradiction|].
      destruct (Req_dec_T _ _); [|lra].
      replace (t0 - t0) with 0 by ring.
      rewrite !Rmult_0_r, exp_0. field. lra.
    + intros Hover.
      rewrite (get_current_derivative_after_activation s Hactive Ht0) by lra.
      destruct (Rlt_dec _ _); [contradiction|].
      destruct (Req_dec_T _ _); [lra | reflexivity].
Qed.

(** The test stage, fired at time 0; it is underdamped. *)
Lemma discharge_starts_from_rest_witness :
  AccelerationStage.get_current fired_test_stage 0 = 0
  /\ (damping fired_test_stage <= natural_frequency fired_test_stage ->
      AccelerationStage.get_current_derivative fired_test_stage 0
      = AccelerationStage.voltage fired_test_stage
        / AccelerationStage.inductance fired_test_stage)
  /\ (natural_frequency fired_test_stage < damping fired_test_stage ->
      AccelerationStage.get_current_derivative fired_test_stage 0 = 0).
Proof.
  apply (@discharge_starts_from_rest fired_test_stage 0 test_stage_circuit).
  - change (CoilProperties.resistance (AccelerationStage.properties fired_test_stage))
      with (AccelerationStage._calculate_copper_resistance (F:=R) 100 (9 / 100) (5 / 100)).
    rewrite test_stage_resistance. lra.
  - reflexivity.
  - reflexivity.
Defined.


Section Binary64Discharge.
Context (numpy : NumPy float).

End Binary64Discharge.

Lemma test_stage_binary64_built : test_stage = Ok test_stage_binary64.
Proof. vm_compute. reflexivity. Qed.


(** ** A step with nothing to fire *)

(** Read an equation between fields of records as an equation of reals. *)
Ltac as_real_equation :=
  match goal with |- ?a = ?b => change (@eq R a b) end.

Lemma out_of_reach_stages_unchanged (s : SimulationService.t R) :
  Forall (fun st : AccelerationStage.t R => dormant st /\ ~ in_reach s st)
    (SimulationService.stages s) ->
  SimulationService.stages (SimulationService._check_stage_activations s)
  = SimulationService.stages s.
Proof.
  intros Hout. pose proof (check_stage_activations_stages s) as Hcheck.
  induction Hcheck as [|st st' rest rest' (_ & _ & Hkeep) _ IH]; [reflexivity|].
  inversion Hout as [|? ? [Hdormant Hfar] Hrest]; subst.
  f_equal; [now apply Hkeep | now apply IH].
Qed.

(** X26: while every stage is dormant and out of reach of the capsule, a
    step fires nothing and exerts no force: the capsule coasts, its position
    advancing by [v dt] at unchanged velocity, its current decaying to nine
    tenths; the record of the step shows force 0, acceleration 0 and no
    active stage. *)
Theorem coasting_step (s : SimulationService.t R) :
  valid_capsule (SimulationService.capsule s) ->
  0 < CoilProperties.resistance (Capsule.properties (SimulationService.capsule s)) ->
  Forall (fun st : AccelerationStage.t R => dormant st /\ ~ in_reach s st)
    (SimulationService.stages s) ->
  exists (s1 : SimulationService.t R) (record : SimulationRecord.t R),
    SimulationService._step s = Ok s1
    /\ SimulationService.stages s1 = SimulationService.stages s
    /\ Capsule.position (SimulationService.capsule s1)
       = Capsule.position (SimulationService.capsule s)
         + Capsule.velocity (SimulationService.capsule s) * SimulationService.dt s
    /\ Capsule.velocity (SimulationService.capsule s1)
       = Capsule.velocity (SimulationService.capsule s)
    /\ Capsule.current (SimulationService.capsule s1)
       = 9 / 10 * Capsule.current (SimulationService.capsule s)
    /\ DataService.history (SimulationService.data s1)
       = DataService.history (SimulationService.data s) ++ [record]
    /\ SimulationRecord.time record = SimulationService.time s
    /\ SimulationRecord.force record = 0
    /\ SimulationRecord.acceleration record = 0
    /\ SimulationRecord.active_stages record = 0%Z
    /\ SimulationRecord.total_stage_current record = 0.
Proof.
  intros Hvalid HR Hout.
  pose proof (@out_of_reach_stages_unchanged s Hout) as Hstages.
  assert (Hdormant : Forall dormant (SimulationService.stages s)).
  { eapply Forall_impl; [|exact Hout]. intros st [H _]. exact H. }
  set (s0 := SimulationService._check_stage_activations s) in *.
  destruct (step_exact s Hvalid) as (emf & force & Hemf & Hforce & Hstep).
  fold s0 in Hemf, Hforce, Hstep.
  rewrite Hstages in Hemf.
  rewrite (dormant_stages_emf s0 Hdormant 0) in Hemf.
  injection Hemf as Hemf. subst emf.
  assert (Hst0 : SimulationService.stages (after_current s0 0) = SimulationService.stages s).
  { destruct (after_current_frame s0 0) as (Hst & _). now rewrite Hst. }
  unfold SimulationService._calculate_total_force in Hforce.
  rewrite Hst0 in Hforce.
  rewrite (dormant_stages_force (after_current s0 0) Hdormant (of_int 0)) in Hforce.
  injection Hforce as Hforce. subst force.
  assert (Hfilter :
    filter (@AccelerationStage.is_active R) (SimulationService.stages s) = []).
  { clear -Hdormant. induction Hdormant as [|st rest Hst _ IH]; cbn; [reflexivity|].
    unfold dormant in Hst. now rewrite Hst. }
  destruct (check_stage_activations_frame s) as (Hc0 & Ht0 & Hdt0 & _ & Hdata0).
  fold s0 in Hc0, Ht0, Hdt0, Hdata0.
  clear Hst0. clearbody s0.
  exists (after_step s0 0 0). eexists. split; [exact Hstep|].
  unfold after_step, after_current. cbv zeta. rewrite Hc0.
  destruct (Rlt_dec 0 _) as [_ | Hbad]; [|contradiction].
  cbn. rewrite ?Hc0, ?Ht0, ?Hdt0, ?Hdata0, ?Hstages, ?Hfilter. cbn.
  destruct Hvalid as [_ Hm].
  split; [reflexivity|].
  split; [as_real_equation; field; lra|].
  split; [as_real_equation; field; lra|].
  split; [as_real_equation; field; lra|].
  split; [reflexivity|]. split; [reflexivity|]. split; [reflexivity|].
  split; [cbn; as_real_equation; field; lra|].
  split; reflexivity.
Qed.

(** The test service: its stage sits 8.3 cm from the capsule, beyond its
    reach of 5 cm. *)
Lemma coasting_step_witness :
  exists (s1 : SimulationService.t R) (record : SimulationRecord.t R),
    SimulationService._step test_service = Ok s1
    /\ SimulationService.stages s1 = SimulationService.stages test_service
    /\ Capsule.position (SimulationService.capsule s1)
       = Capsule.position (SimulationService.capsule test_service)
         + Capsule.velocity (SimulationService.capsule test_service)
           * SimulationService.dt test_service
    /\ Capsule.velocity (SimulationService.capsule s1)
       = Capsule.velocity (SimulationService.capsule test_service)
    /\ Capsule.current (SimulationService.capsule s1)
       = 9 / 10 * Capsule.current (SimulationService.capsule test_service)
    /\ DataService.history (SimulationService.data s1)
       = DataService.history (SimulationService.data test_service) ++ [record]
    /\ SimulationRecord.time record = SimulationService.time test_service
    /\ SimulationRecord.force record = 0
    /\ SimulationRecord.acceleration record = 0
    /\ SimulationRecord.active_stages record = 0%Z
    /\ SimulationRecord.total_stage_current record = 0.
Proof.
  apply (@coasting_step test_service).
  - exact test_capsule_valid.
  - change (CoilProperties.resistance
              (Capsule.properties (SimulationService.capsule test_service)))
      with (CoilProperties.resistance (Capsule.properties test_capsule_value)).
    rewrite test_capsule_resistance. lra.
  - constructor; [|constructor]. split; [reflexivity|].
    unfold in_reach; cbn. rewrite Rmax_left by lra.
    replace (0 - 83 / 1000) with (- (83 / 1000)) by ring.
    rewrite Rabs_Ropp, Rabs_pos_eq by lra. lra.
Defined.

(** ** Building a launcher from a configuration *)

Lemma capsule_built (mass diameter length : R) :
  0 < mass -> 0 < diameter -> 0 < length ->
  Capsule.init mass diameter length
  = Ok (Capsule.make
          (Coil.make
             (CoilProperties.make 1 diameter length
                (Capsule._calculate_resistance diameter length) 0) 0)
          mass 0 0).
Proof.
  intros Hm Hd Hl. unfold Capsule.init.
  change (fle mass (of_int 0)) with (Rleb mass 0).
  rewrite (proj2 (Rleb_false mass 0)) by exact Hm. cbv zeta.
  change (of_int 0) with 0.
  rewrite CoilProperties_init_valid by (try assumption; lia). reflexivity.
Qed.

Lemma config_stage_built (config : SimulationConfig.t R) (i : nat) :
  (1 <= SimulationConfig.stage_turns config)%Z ->
  0 < SimulationConfig.tube_diameter config ->
  0 < stage_spacing config ->
  AccelerationStage.init (Z.of_nat i) (IZR (Z.of_nat i) * stage_spacing config)
    (SimulationConfig.stage_turns config) (SimulationConfig.tube_diameter config)
    (stage_spacing config * (6 / 10))
    (SimulationConfig.stage_capacitance config) (SimulationConfig.stage_voltage config)
  = Ok (config_stage config i).
Proof.
  intros Ht Hd Hs. unfold AccelerationStage.init.
  rewrite CoilProperties_init_valid by (try assumption; lra). reflexivity.
Qed.

Lemma config_stages_built (config : SimulationConfig.t R) :
  (1 <= SimulationConfig.stage_turns config)%Z ->
  0 < SimulationConfig.tube_diameter config ->
  0 < stage_spacing config ->
  forall (k a : nat) (acc : list (AccelerationStage.t R)),
    for_each
      (fun stages i =>
         stage <- AccelerationStage.init i (IZR i * stage_spacing config)
                    (SimulationConfig.stage_turns config)
                    (SimulationConfig.tube_diameter config)
                    (stage_spacing config * (6 / 10))
                    (SimulationConfig.stage_capacitance config)
                    (SimulationConfig.stage_voltage config) ;;
         Ok (stages ++ [stage]))
      (map Z.of_nat (seq a k)) acc
    = Ok (acc ++ map (config_stage config) (seq a k)).
Proof.
  intros Ht Hd Hs. induction k as [|k IH]; intros a acc; cbn.
  - now rewrite app_nil_r.
  - rewrite (@config_stage_built config a Ht Hd Hs). cbn [bind].
    rewrite IH, <- app_assoc. reflexivity.
Qed.

Lemma stage_spacing_positive (config : SimulationConfig.t R) :
  0 < SimulationConfig.tube_length config ->
  (1 <= SimulationConfig.num_stages config)%Z ->
  0 < stage_spacing config.
Proof.
  intros HL Hn. unfold stage_spacing.
  apply Rdiv_lt_0_compat; [exact HL|]. apply IZR_lt. lia.
Qed.

(** X27: from a configuration with a valid capsule and stage geometry, a
    tube of positive length and [n >= 1] stages, [from_config] builds a
    service that has not run, around a capsule at rest at the origin and [n]
    stages that have not fired.  Stage [i] carries the id [i], sits at
    [i L / n] and is [0.6 L / n] long, so that the stages do not overlap and
    all of them lie inside the tube. *)
Theorem from_config_layout (config : SimulationConfig.t R) :
  valid_config config ->
  exists s : SimulationService.t R,
    SimulationService.from_config config = Constructed s
    /\ idle s
    /\ valid_service s
    /\ SimulationService.tube_length s = SimulationConfig.tube_length config
    /\ SimulationService.dt s = SimulationConfig.time_step config
    /\ Capsule.mass (SimulationService.capsule s) = SimulationConfig.capsule_mass config
    /\ Capsule.position (SimulationService.capsule s) = 0
    /\ Capsule.velocity (SimulationService.capsule s) = 0
    /\ List.length (SimulationService.stages s)
       = Z.to_nat (SimulationConfig.num_stages config)
    /\ forall (i : nat) (st : AccelerationStage.t R),
         nth_error (SimulationService.stages s) i = Some st ->
         fresh st
         /\ AccelerationStage.stage_id st = Z.of_nat i
         /\ AccelerationStage.capacitance st = SimulationConfig.stage_capacitance config
         /\ AccelerationStage.voltage st = SimulationConfig.stage_voltage config
         /\ CoilProperties.position (AccelerationStage.properties st)
            = IZR (Z.of_nat i) * stage_spacing config
         /\ CoilProperties.length (AccelerationStage.properties st)
            = stage_spacing config * (6 / 10)
         /\ CoilProperties.position (AccelerationStage.properties st)
            + CoilProperties.length (AccelerationStage.properties st)
            < IZR (Z.of_nat (S i)) * stage_spacing config
         /\ IZR (Z.of_nat (S i)) * stage_spacing config
            <= SimulationConfig.tube_length config.
Proof.
  intros (Hm & Hcd & Hcl & HL & Hn & Ht & Htd).
  pose proof (@stage_spacing_positive config HL Hn) as Hs.
  unfold SimulationService.from_config.
  rewrite (capsule_built Hm Hcd Hcl).
  rewrite (proj2 (Z.eqb_neq _ 0)) by lia. cbv zeta.
  change (fdiv (SimulationConfig.tube_length config)
            (of_int (SimulationConfig.num_stages config)))
    with (stage_spacing config).
  change (lit 6 10) with (6 / 10).
  change (of_int ?i) with (IZR i).
  change (fmul ?x ?y) with (x * y).
  rewrite (@config_stages_built config Ht Htd Hs). cbn [app].
  eexists. split; [reflexivity|].
  split; [split; reflexivity|].
  split.
  { split.
    { unfold valid_capsule, valid_properties; cbn. repeat split; try assumption. lia. }
    cbn. apply Forall_forall. intros st Hin. apply in_map_iff in Hin.
    destruct Hin as (i & Hst & _). subst st.
    unfold valid_stage, valid_properties; cbn. repeat split; [lia | lra | lra]. }
  do 2 (split; [reflexivity|]).
  do 3 (split; [reflexivity|]).
  split; [cbn; now rewrite length_map, length_seq|].
  intros i st Hnth. cbn in Hnth.
  assert (Hi : (i < Z.to_nat (SimulationConfig.num_stages config))%nat).
  { assert (Hsome : nth_error
                      (map (config_stage config)
                         (seq 0 (Z.to_nat (SimulationConfig.num_stages config)))) i
                    <> None) by (rewrite Hnth; discriminate).
    apply nth_error_Some in Hsome. now rewrite length_map, length_seq in Hsome. }
  rewrite nth_error_map, nth_error_seq in Hnth.
  destruct (i <? _)%nat eqn:Hlt; [|apply Nat.ltb_ge in Hlt; lia].
  cbn in Hnth. injection Hnth as Hst. subst st.
  assert (Hi1 : IZR (Z.of_nat (S i)) = IZR (Z.of_nat i) + 1).
  { rewrite Nat2Z.inj_succ, succ_IZR. reflexivity. }
  assert (Hle : IZR (Z.of_nat i) + 1 <= IZR (SimulationConfig.num_stages config)).
  { rewrite <- Hi1. apply IZR_le. lia. }
  rewrite Hi1. cbn.
  split; [repeat split|]. do 5 (split; [reflexivity|]).
  split; [nra|].
  assert (HnR : 0 < IZR (SimulationConfig.num_stages config)) by (apply IZR_lt; lia).
  unfold stage_spacing in *.
  apply (Rmult_le_reg_r (IZR (SimulationConfig.num_stages config))); [exact HnR|].
  replace ((IZR (Z.of_nat i) + 1)
           * (SimulationConfig.tube_length config / IZR (SimulationConfig.num_stages config))
           * IZR (SimulationConfig.num_stages config))
    with ((IZR (Z.of_nat i) + 1) * SimulationConfig.tube_length config)
    by (field; lra).
  rewrite (Rmult_comm (SimulationConfig.tube_length config)).
  apply Rmult_le_compat_r; lra.
Qed.

Lemma test_config_valid : valid_config test_config.
Proof. unfold valid_config, test_config; cbn. repeat split; try lra; lia. Qed.

Lemma from_config_layout_witness :
  exists s : SimulationService.t R,
    SimulationService.from_config test_config = Constructed s
    /\ idle s
    /\ valid_service s
    /\ SimulationService.tube_length s = SimulationConfig.tube_length test_config
    /\ SimulationService.dt s = SimulationConfig.time_step test_config
    /\ Capsule.mass (SimulationService.capsule s)
       = SimulationConfig.capsule_mass test_config
    /\ Capsule.position (SimulationService.capsule s) = 0
    /\ Capsule.velocity (SimulationService.capsule s) = 0
    /\ List.length (SimulationService.stages s)
       = Z.to_nat (SimulationConfig.num_stages test_config)
    /\ forall (i : nat) (st : AccelerationStage.t R),
         nth_error (SimulationService.stages s) i = Some st ->
         fresh st
         /\ AccelerationStage.stage_id st = Z.of_nat i
         /\ AccelerationStage.capacitance st
            = SimulationConfig.stage_capacitance test_config
         /\ AccelerationStage.voltage st = SimulationConfig.stage_voltage test_config
         /\ CoilProperties.position (AccelerationStage.properties st)
            = IZR (Z.of_nat i) * stage_spacing test_config
         /\ CoilProperties.length (AccelerationStage.properties st)
            = stage_spacing test_config * (6 / 10)
         /\ CoilProperties.position (AccelerationStage.properties st)
            + CoilProperties.length (AccelerationStage.properties st)
            < IZR (Z.of_nat (S i)) * stage_spacing test_config
         /\ IZR (Z.of_nat (S i)) * stage_spacing test_config
            <= SimulationConfig.tube_length test_config.
Proof. apply (@from_config_layout test_config). exact test_config_valid. Defined.

(** X28: the edges of [from_config].  The capsule is built first, so a mass
    that is not positive is rejected whatever the rest of the configuration
    says.  With a valid capsule, a stage count of 0 ends in a division by
    zero, a negative count builds a service with no stage at all, and a tube
    length that is not positive is rejected by the first stage, whose length
    would not be positive. *)
Theorem from_config_edge_cases (config : SimulationConfig.t R) :
  (SimulationConfig.capsule_mass config <= 0 ->
   SimulationService.from_config config
   = Rejected (ValueError "Mass must be positive"))
  /\ (0 < SimulationConfig.capsule_mass config ->
      0 < SimulationConfig.capsule_diameter config ->
      0 < SimulationConfig.capsule_length config ->
      (SimulationConfig.num_stages config = 0%Z ->
       SimulationService.from_config config = ZeroDivisionError)
      /\ ((SimulationConfig.num_stages config < 0)%Z ->
          exists s : SimulationService.t R,
            SimulationService.from_config config = Constructed s
            /\ SimulationService.stages s = []
            /\ SimulationService.tube_length s = SimulationConfig.tube_length config)
      /\ ((1 <= SimulationConfig.num_stages config)%Z ->
          (1 <= SimulationConfig.stage_turns config)%Z ->
          0 < SimulationConfig.tube_diameter config ->
          SimulationConfig.tube_length config <= 0 ->
          SimulationService.from_config config
          = Rejected (ValueError "Length must be positive"))).
Proof.
  split.
  - intros Hm. unfold SimulationService.from_config, Capsule.init.
    change (fle ?x (of_int 0)) with (Rleb x 0).
    now rewrite (proj2 (Rleb_true _ 0) Hm).
  - intros Hm Hcd Hcl. unfold SimulationService.from_config.
    rewrite (capsule_built Hm Hcd Hcl).
    split; [|split].
    + intros Hn. now rewrite Hn.
    + intros Hn. rewrite (proj2 (Z.eqb_neq _ 0)) by lia.
      replace (Z.to_nat (SimulationConfig.num_stages config)) with 0%nat by lia.
      cbn. eexists. split; [reflexivity|]. split; reflexivity.
    + intros Hn Ht Htd HL. rewrite (proj2 (Z.eqb_neq _ 0)) by lia.
      destruct (Z.to_nat (SimulationConfig.num_stages config)) as [|k] eqn:Hk; [lia|].
      cbn [seq map for_each]. unfold AccelerationStage.init, CoilProperties.init.
      rewrite (proj2 (Z.leb_gt _ 0)) by lia.
      change (fle ?x (of_int 0)) with (Rleb x 0).
      rewrite (proj2 (Rleb_false _ 0) Htd).
      assert (Hlen : Rleb (fmul (fdiv (SimulationConfig.tube_length config)
                                   (of_int (SimulationConfig.num_stages config)))
                             (lit 6 10)) 0 = true).
      { apply Rleb_true. unfold lit; simpl.
        assert (0 < / IZR (SimulationConfig.num_stages config)).
        { apply Rinv_0_lt_compat. apply IZR_lt. lia. }
        unfold Rdiv. nra. }
      cbv zeta. rewrite Hlen. reflexivity.
Qed.

(** ** The gradient of the mutual inductance and the records *)

Lemma overlapping_inductance_value (a b : Coil.t R) (d : R) :
  valid_coil a -> valid_coil b ->
  0 <= d ->
  d < Rmax (CoilProperties.length (Coil.properties a))
           (CoilProperties.length (Coil.properties b)) ->
  PhysicsEngine.calculate_mutual_inductance PhysicsEngine.init a b d
  = Ok (full_overlap_inductance a b
        * (1 - d / Rmax (CoilProperties.length (Coil.properties a))
                        (CoilProperties.length (Coil.properties b)))).
Proof.
  intros (_ & _ & Hla) (_ & _ & Hlb) Hd Hnear.
  rewrite calculate_mutual_inductance_exact by exact Hd.
  destruct (Rlt_dec d _); [|contradiction].
  unfold PhysicsEngine._calculate_overlapping_inductance, full_overlap_inductance.
  rewrite !R_pymax. simpl. unfold lit; simpl.
  set (ref := Rmax _ _) in *.
  assert (Href : 0 < ref).
  { unfold ref. apply Rlt_le_trans with (1 := Hla). apply Rmax_l. }
  rewrite Rmax_right; [reflexivity|].
  apply Rlt_le. apply Rlt_0_minus. apply Rdiv_lt_one; lra.
Qed.

(** X29: the gradient [_calculate_mutual_inductance_gradient] samples the
    mutual inductance half a millimetre to each side of the distance and
    never lets a sample point fall below 1 mm.  In the overlap branch it is
    [- M0 / max(l1, l2)], with [M0] the full overlap inductance, from
    1.5 mm on; at the minimum distance of 1 mm the lower sample point is held
    at 1 mm and the gradient is half of that. *)
Theorem gradient_clamped_at_minimum_distance
    (s : SimulationService.t R) (stage : AccelerationStage.t R) :
  SimulationService.physics s = PhysicsEngine.init ->
  valid_stage stage ->
  valid_capsule (SimulationService.capsule s) ->
  3 / 2000 < Rmax (CoilProperties.length (AccelerationStage.properties stage))
                  (CoilProperties.length
                     (Capsule.properties (SimulationService.capsule s))) ->
  (forall d : R,
      3 / 2000 <= d ->
      d + 1 / 2000
      < Rmax (CoilProperties.length (AccelerationStage.properties stage))
             (CoilProperties.length (Capsule.properties (SimulationService.capsule s))) ->
      SimulationService._calculate_mutual_inductance_gradient s stage d
      = Ok (- full_overlap_inductance (AccelerationStage.coil stage)
                (Capsule.coil (SimulationService.capsule s))
            / Rmax (CoilProperties.length (AccelerationStage.properties stage))
                   (CoilProperties.length
                      (Capsule.properties (SimulationService.capsule s)))))
  /\ SimulationService._calculate_mutual_inductance_gradient s stage (1 / 1000)
     = Ok (- full_overlap_inductance (AccelerationStage.coil stage)
               (Capsule.coil (SimulationService.capsule s))
           / (2 * Rmax (CoilProperties.length (AccelerationStage.properties stage))
                       (CoilProperties.length
                          (Capsule.properties (SimulationService.capsule s))))).
Proof.
  intros Hpe Hstage [Hcapsule _] Href.
  change (valid_coil (AccelerationStage.coil stage)) in Hstage.
  change (valid_coil (Capsule.coil (SimulationService.capsule s))) in Hcapsule.
  unfold AccelerationStage.properties, Capsule.properties in *.
  set (ref := Rmax _ _) in *.
  set (M0 := full_overlap_inductance _ _).
  assert (Hsample : forall d : R,
            pymax (lit 1 1000) (fadd d (fdiv (lit 1 1000) (of_int 2)))
            = Rmax (1 / 1000) (d + 1 / 2000)
            /\ pymax (lit 1 1000) (fsub d (fdiv (lit 1 1000) (of_int 2)))
               = Rmax (1 / 1000) (d - 1 / 2000)).
  { intros d. rewrite !R_pymax. unfold lit; simpl.
    split; f_equal; field. }
  unfold SimulationService._calculate_mutual_inductance_gradient.
  rewrite Hpe. cbv zeta.
  split.
  - intros d Hd Hnear.
    destruct (Hsample d) as [Hplus Hminus]. rewrite Hplus, Hminus.
    rewrite !Rmax_right by lra.
    rewrite !(overlapping_inductance_value Hstage Hcapsule) by (fold ref; lra).
    cbn [bind]. fold ref. fold M0. f_equal. unfold lit; simpl. field. lra.
  - destruct (Hsample (1 / 1000)) as [Hplus Hminus]. rewrite Hplus, Hminus.
    unfold lit; simpl.
    rewrite (Rmax_right _ (1 / 1000 + 1 / 2000)) by lra.
    rewrite (Rmax_left _ (1 / 1000 - 1 / 2000)) by lra.
    rewrite !(overlapping_inductance_value Hstage Hcapsule) by (fold ref; lra).
    cbn [bind]. fold ref. fold M0. f_equal. field. lra.
Qed.

(** The test service and its stage: the longer coil is 5 cm. *)
Lemma gradient_clamped_at_minimum_distance_witness :
  (forall d : R,
      3 / 2000 <= d ->
      d + 1 / 2000
      < Rmax (CoilProperties.length (AccelerationStage.properties test_stage_value))
             (CoilProperties.length
                (Capsule.properties (SimulationService.capsule test_service))) ->
      SimulationService._calculate_mutual_inductance_gradient test_service
        test_stage_value d
      = Ok (- full_overlap_inductance (AccelerationStage.coil test_stage_value)
                (Capsule.coil (SimulationService.capsule test_service))
            / Rmax (CoilProperties.length (AccelerationStage.properties test_stage_value))
                   (CoilProperties.length
                      (Capsule.properties (SimulationService.capsule test_service)))))
  /\ SimulationService._calculate_mutual_inductance_gradient test_service
       test_stage_value (1 / 1000)
     = Ok (- full_overlap_inductance (AccelerationStage.coil test_stage_value)
               (Capsule.coil (SimulationService.capsule test_service))
           / (2 * Rmax (CoilProperties.length
                          (AccelerationStage.properties test_stage_value))
                       (CoilProperties.length
                          (Capsule.properties
                             (SimulationService.capsule test_service))))).
Proof.
  apply (@gradient_clamped_at_minimum_distance test_service test_stage_value eq_refl).
  - exact test_stage_valid.
  - exact test_capsule_valid.
  - cbn. rewrite Rmax_left; lra.
Defined.

Lemma get_current_nonnegative (s : AccelerationStage.t R) (t : R) :
  0 <= AccelerationStage.get_current s t.
Proof.
  destruct (AccelerationStage.is_active s) eqn:Hactive;
    [|rewrite get_current_before_activation by auto; lra].
  destruct (AccelerationStage.activation_time s) as [t0|] eqn:Ht0;
    [|rewrite get_current_before_activation by auto; lra].
  destruct (Rlt_dec t t0) as [Hlt | Hge].
  - rewrite get_current_before_activation by eauto. lra.
  - rewrite (get_current_after_activation s Hactive Ht0) by lra. apply Rmax_l.
Qed.

Lemma pysum_nonnegative (xs : list R) :
  Forall (fun x => 0 <= x) xs -> 0 <= pysum xs.
Proof.
  unfold pysum. change (of_int 0) with 0.
  assert (Hacc : forall acc, 0 <= acc -> Forall (fun x => 0 <= x) xs ->
                             0 <= fold_left fadd xs acc).
  { induction xs as [|x rest IH]; intros acc Hacc Hall; cbn; [exact Hacc|].
    inversion Hall; subst. apply IH; [|assumption].
    change (0 <= acc + x). lra. }
  apply Hacc. lra.
Qed.

(** X30: what [DataService.record] appends.  The record carries the time,
    the force and the capsule's state as given, the kinetic energy
    [0.5 m v^2] and the acceleration [F / m]; the number of active stages
    lies between 0 and the number of stages, and the total stage current,
    a sum of clamped currents, is never negative.  Nothing else of the
    service changes, the metadata included. *)
Theorem record_invariants
    (d : DataService.t R) (time force : R) (capsule : Capsule.t R)
    (stages : list (AccelerationStage.t R)) :
  exists record : SimulationRecord.t R,
    DataService.history (DataService.record d time capsule stages force)
    = DataService.history d ++ [record]
    /\ DataService.metadata (DataService.record d time capsule stages force)
       = DataService.metadata d
    /\ SimulationRecord.time record = time
    /\ SimulationRecord.force record = force
    /\ SimulationRecord.position record = Capsule.position capsule
    /\ SimulationRecord.velocity record = Capsule.velocity capsule
    /\ SimulationRecord.capsule_current record = Capsule.current capsule
    /\ SimulationRecord.kinetic_energy record = Capsule.get_kinetic_energy capsule
    /\ SimulationRecord.acceleration record = force / Capsule.mass capsule
    /\ (0 <= SimulationRecord.active_stages record <= Z.of_nat (List.length stages))%Z
    /\ 0 <= SimulationRecord.total_stage_current record
    /\ (Forall dormant stages ->
        SimulationRecord.active_stages record = 0%Z
        /\ SimulationRecord.total_stage_current record = 0).
Proof.
  eexists. split; [reflexivity|]. cbn.
  do 8 (split; [reflexivity|]).
  split; [|split].
  - pose proof (filter_length_le (@AccelerationStage.is_active R) stages). lia.
  - apply pysum_nonnegative. apply Forall_forall. intros x Hx.
    apply in_map_iff in Hx. destruct Hx as (st & Hst & _). subst x.
    apply get_current_nonnegative.
  - intros Hdormant.
    assert (Hfilter : filter (@AccelerationStage.is_active R) stages = []).
    { induction Hdormant as [|st rest Hst _ IH]; cbn; [reflexivity|].
      unfold dormant in Hst. now rewrite Hst. }
    rewrite Hfilter. split; reflexivity.
Qed.
